(** * TaskFlow: the temporal classification and priority engine

    A shallow embedding of [TaskFlow.pyw] (classes [TodoItem], [TodoApp]
    and [UserManager]) and the properties of its status phrases, completion
    buckets, display ordering, group reordering, completion toggle,
    validation and loading; then of the collection as a whole (its
    invariant along a session, the reports and statistics, the data file)
    and of the accounts. *)

From Stdlib Require Import ZArith List String Ascii Bool Lia.
From Stdlib Require Import DecimalString Permutation Sorted.
Import ListNotations.
Local Open Scope string_scope.
Local Open Scope list_scope.
Local Open Scope Z_scope.

(* ================================================================= *)
(** ** Python values: [datetime], [timedelta], [str] *)

(** A [datetime] is its distance from [datetime.min] (0001-01-01 00:00:00)
    in microseconds, the resolution of Python's type. *)
Definition datetime := Z.

Definition datetime_min : datetime := 0.

(** [datetime.max] is 9999-12-31 23:59:59.999999, the last microsecond of
    day number 3652059. *)
Definition datetime_max : datetime := 3652059 * 86400 * 1000000 - 1.

(** A [timedelta] is kept normalised, as Python keeps it:
    [0 <= seconds < 86400] and [0 <= microseconds < 1000000]; only [days]
    carries the sign. *)
Record timedelta := mk_timedelta {
  days : Z;
  seconds : Z;
  microseconds : Z
}.

(** [a - b] on two [datetime]s. *)
Definition datetime_sub (a b : datetime) : timedelta :=
  let us := a - b in
  {| days := us / (86400 * 1000000);
     seconds := (us mod (86400 * 1000000)) / 1000000;
     microseconds := us mod 1000000 |}.

(** [secs n] is [n] seconds in the unit of [total_seconds] below. *)
Definition secs (n : Z) : Z := n * 1000000.

(** [timedelta.total_seconds()].  Python returns the float
    [((days * 86400 + seconds) * 10**6 + microseconds) / 10**6]; the model
    keeps the numerator, so a value [v] stands for [v / 10**6] seconds and
    the integer [n] of a comparison in the source is written [secs n].  The
    thresholds the source compares with (3600, 86400, 6 * 3600) and the
    divisors of [//] (60, 3600) are whole seconds, for which the float
    comparison and floor division agree with the exact ones. *)
Definition total_seconds (td : timedelta) : Z :=
  (days td * 86400 + seconds td) * 1000000 + microseconds td.

(** [str(n)] of an [int], as an f-string field renders it. *)
Definition str_of_int (n : Z) : string := NilZero.string_of_int (Z.to_int n).

(** [hay.startswith(needle)] and [needle in hay] on two [str], byte by
    byte on the UTF-8 encoding (for well-formed text that is the same as
    code point by code point). *)
Fixpoint startswith (needle hay : string) : bool :=
  match needle, hay with
  | EmptyString, _ => true
  | String _ _, EmptyString => false
  | String a needle', String b hay' => Ascii.eqb a b && startswith needle' hay'
  end.

Fixpoint contains (needle hay : string) : bool :=
  startswith needle hay ||
  match hay with
  | EmptyString => false
  | String _ rest => contains needle rest
  end.

(** Exceptions: [None] is a raised exception, [Some v] a normal return. *)
Definition bind {A B} (m : option A) (f : A -> option B) : option B :=
  match m with
  | Some a => f a
  | None => None
  end.

Notation "'let*' x ':=' m 'in' k" := (bind m (fun x => k))
  (at level 10, x name, m at level 100, k at level 200).

Fixpoint mapM {A B} (f : A -> option B) (l : list A) : option (list B) :=
  match l with
  | [] => Some []
  | x :: l' => let* y := f x in let* ys := mapM f l' in Some (y :: ys)
  end.

(* ================================================================= *)
(** ** [class TodoItem] *)

(** The three values of [date_type]: ["instant"], ["long"], ["timeless"]. *)
Inductive DateType := instant | long | timeless.

Definition DateType_eqb (a b : DateType) : bool :=
  match a, b with
  | instant, instant | long, long | timeless, timeless => true
  | _, _ => false
  end.

Record TodoItem := mk_TodoItem {
  id : Z;
  note : string;
  date_type : DateType;
  date1 : option datetime;
  date2 : option datetime;
  completed : bool;
  completed_date : option datetime;
  created_date : datetime
}.

(** [f"{pre} {n} {unit}"]. *)
Definition phrase (pre : string) (n : Z) (unit : string) : string :=
  (pre ++ " " ++ str_of_int n ++ " " ++ unit)%string.

(** The three-way block the source repeats for every phrase: minutes under
    an hour, hours under a day, days otherwise.  [ts] is the local
    [total_seconds] at that point and [day_count] the value printed by the
    days branch ([time_diff.days], or [-time_diff.days] in the early
    blocks). *)
Definition elapsed (pre : string) (ts : Z) (day_count : Z) : string :=
  if ts <? secs 3600 then phrase pre (ts / secs 60) "分钟"
  else if ts <? secs 86400 then phrase pre (ts / secs 3600) "小时"
  else phrase pre day_count "天".

(** The early/late block of a completed item: when [total_seconds < 0] the
    source rebinds [total_seconds = abs(total_seconds)] and prints
    [-days]; otherwise it prints [days]. *)
Definition completed_status (time_diff : timedelta) : string :=
  let ts := total_seconds time_diff in
  if ts <? 0 then elapsed "超前完成" (Z.abs ts) (- days time_diff)
  else elapsed "延后完成" ts (days time_diff).

(* ================================================================= *)
(** ** Reference instances of the library functions

    Executable versions of [strftime], [strptime], [int] and [str.strip]
    for the canonical ASCII forms the application itself writes
    (zero-padded [YYYY-MM-DD HH:MM], years 1000 to 9999).  They instantiate
    the parameters of the development in the examples. *)
Module PyRef.

Definition is_digit (c : ascii) : bool :=
  let n := N_of_ascii c in (48 <=? n)%N && (n <=? 57)%N.

Definition digit_val (c : ascii) : Z := Z.of_N (N_of_ascii c) - 48.

Definition is_space (c : ascii) : bool :=
  let n := N_of_ascii c in ((9 <=? n)%N && (n <=? 13)%N) || (n =? 32)%N.

(** Days from 0001-01-01 to the civil date [y-m-d] (proleptic Gregorian). *)
Definition days_from_civil (y m d : Z) : Z :=
  let y' := if m <=? 2 then y - 1 else y in
  let era := y' / 400 in
  let yoe := y' - era * 400 in
  let mp := if 2 <? m then m - 3 else m + 9 in
  let doy := (153 * mp + 2) / 5 + d - 1 in
  let doe := yoe * 365 + yoe / 4 - yoe / 100 + doy in
  era * 146097 + doe - 306.

Definition civil_from_days (z : Z) : Z * Z * Z :=
  let z := z + 306 in
  let era := z / 146097 in
  let doe := z - era * 146097 in
  let yoe := (doe - doe / 1460 + doe / 36524 - doe / 146096) / 365 in
  let doy := doe - (365 * yoe + yoe / 4 - yoe / 100) in
  let mp := (5 * doy + 2) / 153 in
  let d := doy - (153 * mp + 2) / 5 + 1 in
  let m := if mp <? 10 then mp + 3 else mp - 9 in
  let y := yoe + era * 400 in
  (if m <=? 2 then y + 1 else y, m, d).

Definition pad2 (n : Z) : string :=
  if n <? 10 then ("0" ++ str_of_int n)%string else str_of_int n.

Definition weekday_name (n : Z) : string :=
  match n with
  | 0 => "Monday" | 1 => "Tuesday" | 2 => "Wednesday" | 3 => "Thursday"
  | 4 => "Friday" | 5 => "Saturday" | _ => "Sunday"
  end.

Definition strftime (fmt : string) (t : datetime) : string :=
  let day := t / (86400 * 1000000) in
  let sec := (t mod (86400 * 1000000)) / 1000000 in
  let '(y, m, d) := civil_from_days day in
  let ymd := (str_of_int y ++ "-" ++ pad2 m ++ "-" ++ pad2 d)%string in
  if String.eqb fmt "%Y-%m-%d %H:%M" then
    (ymd ++ " " ++ pad2 (sec / 3600) ++ ":" ++ pad2 ((sec mod 3600) / 60))%string
  else if String.eqb fmt "%Y-%m-%d" then ymd
  else if String.eqb fmt "%A" then weekday_name (day mod 7)
  else fmt.

Fixpoint digits (n : nat) (s : string) (acc : Z) : option (Z * string) :=
  match n with
  | O => Some (acc, s)
  | S n' =>
      match s with
      | String c s' =>
          if is_digit c then digits n' s' (acc * 10 + digit_val c) else None
      | EmptyString => None
      end
  end.

Definition expect (c : ascii) (s : string) : option string :=
  match s with
  | String c' s' => if Ascii.eqb c c' then Some s' else None
  | EmptyString => None
  end.

Definition days_in_month (y m : Z) : Z :=
  days_from_civil (if m =? 12 then y + 1 else y) (if m =? 12 then 1 else m + 1) 1
  - days_from_civil y m 1.

Definition strptime (s : string) : option datetime :=
  let* r := digits 4 s 0 in let '(y, s) := r in
  let* s := expect "-" s in
  let* r := digits 2 s 0 in let '(m, s) := r in
  let* s := expect "-" s in
  let* r := digits 2 s 0 in let '(d, s) := r in
  let* s := expect " " s in
  let* r := digits 2 s 0 in let '(h, s) := r in
  let* s := expect ":" s in
  let* r := digits 2 s 0 in let '(mi, s) := r in
  if String.eqb s "" && (1 <=? y) && (1 <=? m) && (m <=? 12) && (1 <=? d)
     && (d <=? days_in_month y m) && (h <=? 23) && (mi <=? 59)
  then Some ((days_from_civil y m d * 86400 + h * 3600 + mi * 60) * 1000000)
  else None.

Fixpoint lstrip (s : string) : string :=
  match s with
  | String c s' => if is_space c then lstrip s' else s
  | EmptyString => EmptyString
  end.

Fixpoint rstrip (s : string) : string :=
  match s with
  | String c s' =>
      match rstrip s' with
      | EmptyString => if is_space c then EmptyString else String c EmptyString
      | r => String c r
      end
  | EmptyString => EmptyString
  end.

Definition strip (s : string) : string := rstrip (lstrip s).

Fixpoint all_digits (s : string) (acc : Z) : option Z :=
  match s with
  | EmptyString => Some acc
  | String c s' => if is_digit c then all_digits s' (acc * 10 + digit_val c) else None
  end.

Definition py_int (s : string) : option Z :=
  match strip s with
  | EmptyString => None
  | String "-" (String c r) => let* n := all_digits (String c r) 0 in Some (- n)
  | String "+" (String c r) => all_digits (String c r) 0
  | s' => all_digits s' 0
  end.

End PyRef.

(** ** Reference instances for the accounts

    Executable versions of [hashlib.sha256], [base64] and of the format
    with seconds, for the examples of [UserManager]. *)
Module PyRefAccounts.

(** The bytes of a [str] ([s.encode()]) and back. *)
Fixpoint bytes_of (s : string) : list Z :=
  match s with
  | EmptyString => []
  | String c s' => Z.of_N (N_of_ascii c) :: bytes_of s'
  end.

Fixpoint string_of (l : list Z) : string :=
  match l with
  | [] => EmptyString
  | b :: l' => String (ascii_of_N (Z.to_N b)) (string_of l')
  end.

(** *** SHA-256 (FIPS 180-4) on 32-bit words. *)
Definition w32 (x : Z) : Z := x mod 4294967296.

Definition rotr (n x : Z) : Z :=
  Z.lor (Z.shiftr x n) (w32 (Z.shiftl x (32 - n))).

Definition Ch (x y z : Z) : Z :=
  Z.lxor (Z.land x y) (Z.land (Z.lxor x 4294967295) z).

Definition Maj (x y z : Z) : Z :=
  Z.lxor (Z.lxor (Z.land x y) (Z.land x z)) (Z.land y z).

Definition Sigma0 (x : Z) : Z := Z.lxor (Z.lxor (rotr 2 x) (rotr 13 x)) (rotr 22 x).
Definition Sigma1 (x : Z) : Z := Z.lxor (Z.lxor (rotr 6 x) (rotr 11 x)) (rotr 25 x).
Definition sigma0 (x : Z) : Z := Z.lxor (Z.lxor (rotr 7 x) (rotr 18 x)) (Z.shiftr x 3).
Definition sigma1 (x : Z) : Z := Z.lxor (Z.lxor (rotr 17 x) (rotr 19 x)) (Z.shiftr x 10).

(** The constants, as the standard defines them: the first 32 bits of
    the fractional parts of the cube roots (for the rounds) and of the
    square roots (for the initial hash value) of the first primes. *)
Definition is_prime (n : Z) : bool :=
  forallb (fun d => negb (n mod d =? 0) || (n <=? d))
          (map Z.of_nat (seq 2 (Z.to_nat (Z.sqrt n)))).

Definition first_primes (n : nat) : list Z :=
  firstn n (filter is_prime (map Z.of_nat (seq 2 400))).

(** The integer cube root, bit by bit from the top. *)
Definition cube_root (n : Z) : Z :=
  fold_left (fun r b => let r' := r + 2 ^ Z.of_nat b in
                        if r' * r' * r' <=? n then r' else r)
            (rev (seq 0 40)) 0.

Definition K256 : list Z :=
  map (fun p => w32 (cube_root (p * 2 ^ 96))) (first_primes 64).

Definition H256 : list Z :=
  map (fun p => w32 (Z.sqrt (p * 2 ^ 64))) (first_primes 8).

(** The message with its padding: a [1] bit, zeros, the bit length on 64
    bits. *)
Definition big_endian (n : nat) (x : Z) : list Z :=
  map (fun i => (x / 256 ^ Z.of_nat i) mod 256) (rev (seq 0 n)).

Definition pad (msg : list Z) : list Z :=
  let len := Z.of_nat (List.length msg) in
  let zeros := Z.to_nat ((55 - len) mod 64) in
  msg ++ [128] ++ repeat 0 zeros ++ big_endian 8 (8 * len).

Fixpoint words (n : nat) (bytes : list Z) : list Z :=
  match n, bytes with
  | S n', b0 :: b1 :: b2 :: b3 :: rest =>
      (((b0 * 256 + b1) * 256 + b2) * 256 + b3) :: words n' rest
  | _, _ => []
  end.

(** The message schedule: the 16 words of the block, then 48 more. *)
Fixpoint schedule (n : nat) (w : list Z) : list Z :=
  match n with
  | O => w
  | S n' =>
      let t := List.length w in
      let at_ := fun k => nth (t - k) w 0 in
      schedule n'
        (w ++ [w32 (sigma1 (at_ 2%nat) + at_ 7%nat + sigma0 (at_ 15%nat) + at_ 16%nat)])
  end.

Definition round (s : list Z) (kw : Z * Z) : list Z :=
  match s with
  | [a; b; c; d; e; f; g; h] =>
      let t1 := h + Sigma1 e + Ch e f g + fst kw + snd kw in
      let t2 := Sigma0 a + Maj a b c in
      [w32 (t1 + t2); a; b; c; w32 (d + t1); e; f; g]
  | _ => s
  end.

Definition compress (h : list Z) (block : list Z) : list Z :=
  let w := schedule 48 (words 16 block) in
  let s := fold_left round (combine K256 w) h in
  map (fun p => w32 (fst p + snd p)) (combine h s).

Fixpoint blocks (n : nat) (h : list Z) (bytes : list Z) : list Z :=
  match n with
  | O => h
  | S n' =>
      match bytes with
      | [] => h
      | _ => blocks n' (compress h (firstn 64 bytes)) (skipn 64 bytes)
      end
  end.

Definition hex_digit (n : Z) : ascii :=
  ascii_of_N (Z.to_N (if n <? 10 then 48 + n else 87 + n)).

Definition hex_byte (b : Z) : string :=
  String (hex_digit (b / 16)) (String (hex_digit (b mod 16)) EmptyString).

Definition hex (bytes : list Z) : string :=
  fold_right (fun b s => (hex_byte b ++ s)%string) EmptyString bytes.

(** [hashlib.sha256(s.encode()).hexdigest()]. *)
Definition sha256_hexdigest (s : string) : string :=
  let bytes := pad (bytes_of s) in
  hex (flat_map (big_endian 4) (blocks (List.length bytes) H256 bytes)).

(** *** Base64 (RFC 4648), for the text [b64encode] itself writes. *)
Definition b64_char (n : Z) : ascii :=
  ascii_of_N (Z.to_N (if n <? 26 then 65 + n
                      else if n <? 52 then 71 + n
                      else if n <? 62 then n - 4
                      else if n =? 62 then 43 else 47)).

Definition b64_val (c : ascii) : option Z :=
  let n := Z.of_N (N_of_ascii c) in
  if (65 <=? n) && (n <=? 90) then Some (n - 65)
  else if (97 <=? n) && (n <=? 122) then Some (n - 71)
  else if (48 <=? n) && (n <=? 57) then Some (n + 4)
  else if n =? 43 then Some 62
  else if n =? 47 then Some 63
  else None.

Fixpoint b64encode_bytes (n : nat) (l : list Z) : string :=
  match n with
  | O => EmptyString
  | S n' =>
      match l with
      | [] => EmptyString
      | [a] =>
          String (b64_char (a / 4)) (String (b64_char (a mod 4 * 16)) "==")
      | [a; b] =>
          String (b64_char (a / 4))
            (String (b64_char (a mod 4 * 16 + b / 16))
               (String (b64_char (b mod 16 * 4)) "="))
      | a :: b :: c :: rest =>
          String (b64_char (a / 4))
            (String (b64_char (a mod 4 * 16 + b / 16))
               (String (b64_char (b mod 16 * 4 + c / 64))
                  (String (b64_char (c mod 64)) (b64encode_bytes n' rest))))
      end
  end.

Definition b64encode (s : string) : string :=
  b64encode_bytes (String.length s) (bytes_of s).

Fixpoint b64decode_chars (n : nat) (s : string) : option (list Z) :=
  match n with
  | O => None
  | S n' =>
      match s with
      | EmptyString => Some []
      | String c1 (String c2 (String c3 (String c4 rest))) =>
          match b64_val c1, b64_val c2 with
          | Some v1, Some v2 =>
              let b1 := v1 * 4 + v2 / 16 in
              match b64_val c3, b64_val c4, rest with
              | Some v3, Some v4, _ =>
                  match b64decode_chars n' rest with
                  | Some l => Some (b1 :: (v2 mod 16 * 16 + v3 / 4)
                                       :: (v3 mod 4 * 64 + v4) :: l)
                  | None => None
                  end
              | Some v3, None, EmptyString =>
                  if Ascii.eqb c4 "=" then Some [b1; v2 mod 16 * 16 + v3 / 4]
                  else None
              | None, None, EmptyString =>
                  if Ascii.eqb c3 "=" && Ascii.eqb c4 "=" then Some [b1] else None
              | _, _, _ => None
              end
          | _, _ => None
          end
      | _ => None
      end
  end.

Definition b64decode (s : string) : option string :=
  match b64decode_chars (S (String.length s)) s with
  | Some l => Some (string_of l)
  | None => None
  end.

(** *** The format with seconds of the account files. *)
Definition strftime (fmt : string) (t : datetime) : string :=
  if String.eqb fmt "%Y-%m-%d %H:%M:%S" then
    (PyRef.strftime "%Y-%m-%d %H:%M" t ++ ":"
     ++ PyRef.pad2 ((t mod (86400 * 1000000)) / 1000000 mod 60))%string
  else PyRef.strftime fmt t.

Definition strptime_seconds (s : string) : option datetime :=
  let* r := PyRef.digits 4 s 0 in let '(y, s) := r in
  let* s := PyRef.expect "-" s in
  let* r := PyRef.digits 2 s 0 in let '(m, s) := r in
  let* s := PyRef.expect "-" s in
  let* r := PyRef.digits 2 s 0 in let '(d, s) := r in
  let* s := PyRef.expect " " s in
  let* r := PyRef.digits 2 s 0 in let '(h, s) := r in
  let* s := PyRef.expect ":" s in
  let* r := PyRef.digits 2 s 0 in let '(mi, s) := r in
  let* s := PyRef.expect ":" s in
  let* r := PyRef.digits 2 s 0 in let '(sec, s) := r in
  if String.eqb s "" && (1 <=? y) && (1 <=? m) && (m <=? 12) && (1 <=? d)
     && (d <=? PyRef.days_in_month y m) && (h <=? 23) && (mi <=? 59)
     && (sec <=? 59)
  then Some ((PyRef.days_from_civil y m d * 86400 + h * 3600 + mi * 60 + sec)
             * 1000000)
  else None.

End PyRefAccounts.

(** The standard library's formatting and parsing functions are parameters
    of the development: every result below holds whatever they return. *)
Section TaskFlow.

(** [d.strftime(fmt)], as [strftime fmt d]. *)
Variable strftime : string -> datetime -> string.

(** [datetime.strptime(s, '%Y-%m-%d %H:%M')]; [None] is [ValueError]. *)
Variable strptime : string -> option datetime.

(** [int(s)] on a [str]; [None] is [ValueError]. *)
Variable py_int : string -> option Z.

(** [s.strip()]. *)
Variable strip : string -> string.

(** [TodoItem.get_time_info]: (date label, weekday, status phrase).  [now]
    is the value of [datetime.now()] sampled on entry.  Reading an anchor
    that is [None] raises (in [strftime], in the subtraction or in the
    comparison), which is the [None] result. *)
Definition get_time_info (now : datetime) (self : TodoItem)
  : option (string * string * string) :=
  match completed self, completed_date self with
  | true, Some cd =>
      match date_type self with
      | instant =>
          let* due_date := date1 self in
          let time_diff := datetime_sub cd due_date in
          let ts := total_seconds time_diff in
          let status :=
            if Z.abs ts <=? secs (6 * 3600)
            then (* "准时完成" is assigned first, then overwritten *)
                 completed_status time_diff
            else completed_status time_diff in
          Some (strftime "%Y-%m-%d %H:%M" due_date, strftime "%A" cd, status)
      | long =>
          let* due_date := date2 self in
          let time_diff := datetime_sub cd due_date in
          let ts := total_seconds time_diff in
          let status :=
            if Z.abs ts <=? secs (6 * 3600)
            then completed_status time_diff
            else completed_status time_diff in
          let* d1 := date1 self in
          Some ((strftime "%Y-%m-%d" d1 ++ " 至 " ++ strftime "%Y-%m-%d" due_date)%string,
                strftime "%A" cd, status)
      | timeless =>
          Some ("无时限", strftime "%A" cd,
                ("完成于 " ++ strftime "%Y-%m-%d %H:%M" cd)%string)
      end
  | _, _ =>
      match date_type self with
      | instant =>
          let* d1 := date1 self in
          let date_str := strftime "%Y-%m-%d %H:%M" d1 in
          let week_day := strftime "%A" d1 in
          let status :=
            if now <? d1 then
              let time_diff := datetime_sub d1 now in
              elapsed "距离截止还有" (total_seconds time_diff) (days time_diff)
            else if d1 <? now then
              let time_diff := datetime_sub now d1 in
              elapsed "已逾期" (total_seconds time_diff) (days time_diff)
            else "今天到期" in
          Some (date_str, week_day, status)
      | long =>
          let* d1 := date1 self in
          let* d2 := date2 self in
          let date_str :=
            (strftime "%Y-%m-%d" d1 ++ " 至 " ++ strftime "%Y-%m-%d" d2)%string in
          let week_day := strftime "%A" d1 in
          let status :=
            if now <? d1 then
              let time_diff := datetime_sub d1 now in
              elapsed "距离开始还有" (total_seconds time_diff) (days time_diff)
            else if (d1 <=? now) && (now <=? d2) then
              let time_diff := datetime_sub d2 now in
              elapsed "距离结束还有" (total_seconds time_diff) (days time_diff)
            else
              let time_diff := datetime_sub now d2 in
              elapsed "已逾期" (total_seconds time_diff) (days time_diff) in
          Some (date_str, week_day, status)
      | timeless => Some ("无时限", "随时", "无时间限制")
      end
  end.

(* ================================================================= *)
(** ** Python lists of object references *)

(** A [ref] is the identity of a [TodoItem] object.  [TodoItem] defines no
    [__eq__], so [==], [in], [list.index] and [list.remove] compare
    identities. *)
Definition ref := nat.

(** [l.index(x)]: position of the first occurrence; [None] is
    [ValueError]. *)
Fixpoint index (x : ref) (l : list ref) : option nat :=
  match l with
  | [] => None
  | y :: l' => if Nat.eqb y x then Some O else let* i := index x l' in Some (S i)
  end.

(** [l.remove(x)]: drops the first occurrence; [None] is [ValueError]. *)
Fixpoint remove (x : ref) (l : list ref) : option (list ref) :=
  match l with
  | [] => None
  | y :: l' => if Nat.eqb y x then Some l' else let* r := remove x l' in Some (y :: r)
  end.

(** [l.insert(i, x)] for [0 <= i]: past the end it appends. *)
Definition insert (i : nat) (x : ref) (l : list ref) : list ref :=
  firstn i l ++ x :: skipn i l.

(** [l[i] = x] for [i] in range. *)
Fixpoint set_nth (i : nat) (x : ref) (l : list ref) : list ref :=
  match l, i with
  | [], _ => []
  | _ :: l', O => x :: l'
  | y :: l', S i' => y :: set_nth i' x l'
  end.

(** [l[i], l[j] = l[j], l[i]]: the right-hand side is read first, then
    [l[i]] and [l[j]] are assigned in that order; [None] is [IndexError]. *)
Definition swap (i j : nat) (l : list ref) : option (list ref) :=
  let* a := nth_error l j in
  let* b := nth_error l i in
  Some (set_nth j b (set_nth i a l)).

(** [l.sort(key=f)] and [sorted(l, key=f)]: a stable sort on the keys,
    computed once per element; [lt] is [<] on the keys.  Only stability
    and the order are Python's contract, so the model is the insertion
    sort, which has both. *)
Section Sort.
Context {K A : Type} (lt : K -> K -> bool).

Fixpoint insert_sorted (x : K * A) (l : list (K * A)) : list (K * A) :=
  match l with
  | [] => [x]
  | y :: l' => if lt (fst y) (fst x) then y :: insert_sorted x l' else x :: l
  end.

Definition sort_keyed (l : list (K * A)) : list (K * A) :=
  fold_right insert_sorted [] l.

Definition list_sort (keys : list K) (l : list A) : list A :=
  map snd (sort_keyed (combine keys l)).
End Sort.

(** [<] on the tuples [(int, datetime)] that [get_priority] returns. *)
Definition key := (Z * datetime)%type.

Definition key_lt (a b : key) : bool :=
  (fst a <? fst b) || ((fst a =? fst b) && (snd a <? snd b)).

(** Truth value of an optional [datetime]: a [datetime] is always true. *)
Definition is_some_date (o : option datetime) : bool :=
  match o with Some _ => true | None => false end.

(** [==] on two optional [datetime]s. *)
Definition opt_eqb (a b : option datetime) : bool :=
  match a, b with
  | Some x, Some y => x =? y
  | None, None => true
  | _, _ => false
  end.

(* ================================================================= *)
(** ** [class TodoApp]: the task collection *)

Record TodoApp := mk_TodoApp {
  store : ref -> TodoItem;        (* the fields of every object *)
  next_ref : ref;                 (* the next identity to allocate *)
  todo_items : list ref;          (* self.todo_items *)
  completed_items : list ref;     (* self.completed_items *)
  next_id : Z                     (* self.next_id *)
}.

Definition with_todo_items (self : TodoApp) (l : list ref) : TodoApp :=
  {| store := store self; next_ref := next_ref self; todo_items := l;
     completed_items := completed_items self; next_id := next_id self |}.

(** [obj.field = ...] on the object [r]. *)
Definition update (st : ref -> TodoItem) (r : ref) (v : TodoItem) : ref -> TodoItem :=
  fun r' => if Nat.eqb r' r then v else st r'.

(** [get_priority], the sort key local to [refresh_display] (its own
    [now] is not used).  Where the source puts [item.date1] or [item.date2]
    in the tuple, the model reads the anchor; on the branches that are
    taken [get_time_info] has read the same anchor before (lemma
    [get_priority_open]). *)
Definition get_priority (now : datetime) (item : TodoItem) : option key :=
  let* info := get_time_info now item in
  let status := snd info in
  if completed item then
    Some (3, match completed_date item with Some d => d | None => datetime_max end)
  else
    match date_type item with
    | timeless => Some (2, datetime_max)
    | _ =>
        if contains "逾期" status then
          match date_type item with
          | instant => let* d := date1 item in Some (0, d)
          | _ => let* d := date2 item in Some (0, d)
          end
        else if contains "距离结束" status then
          let* d := date2 item in Some (1, d)
        else
          match date_type item with
          | instant => let* d := date1 item in Some (2, d)
          | _ => let* d := date1 item in Some (2, d)
          end
    end.

(** [refresh_display], its effect on the collection:
    [self.todo_items.sort(key=get_priority)], in place.  The widgets it
    builds call [get_time_info] on every item of both lists.  The clock is
    read once per refresh here; the source reads it in every
    [get_time_info], microseconds apart: the model is a refresh during
    which no anchor is passed. *)
Definition refresh_display (now : datetime) (self : TodoApp) : option TodoApp :=
  let* keys := mapM (fun r => get_priority now (store self r)) (todo_items self) in
  let* _ := mapM (fun r => get_time_info now (store self r)) (completed_items self) in
  Some (with_todo_items self (list_sort key_lt keys (todo_items self))).

(* ================================================================= *)
(** ** Groups and reordering *)

(** The test of the three list comprehensions of [get_same_group_items]. *)
Definition in_group (t item : TodoItem) : bool :=
  match date_type t with
  | timeless =>
      DateType_eqb (date_type item) timeless && negb (completed item)
  | instant =>
      DateType_eqb (date_type item) instant && negb (completed item)
      && opt_eqb (date1 item) (date1 t)
  | long =>
      DateType_eqb (date_type item) long && negb (completed item)
      && opt_eqb (date1 item) (date1 t) && opt_eqb (date2 item) (date2 t)
  end.

(** [get_same_group_items], the second definition of the class body, which
    is the one bound to the name. *)
Definition get_same_group_items (self : TodoApp) (todo_item : ref) : list ref :=
  let t := store self todo_item in
  if completed t then []
  else filter (fun r => in_group t (store self r)) (todo_items self).

(** [get_same_group_items], the first definition (shadowed): the same
    comprehension, then
    [same_group_items.sort(key=lambda x: self.todo_items.index(x))]. *)
Definition get_same_group_items_first (self : TodoApp) (todo_item : ref)
  : option (list ref) :=
  let t := store self todo_item in
  if completed t then Some []
  else
    let same_group_items :=
      filter (fun r => in_group t (store self r)) (todo_items self) in
    let* keys := mapM (fun x => index x (todo_items self)) same_group_items in
    Some (list_sort Nat.ltb keys same_group_items).

(** [move_to_top], the relocation: [remove], [index] of the group's first
    member, [insert]. *)
Definition move_to_top_relocate (self : TodoApp) (todo_item : ref)
    (same_group_items : list ref) : option (list ref) :=
  let* items := remove todo_item (todo_items self) in
  let* first_group_item := nth_error same_group_items 0 in
  let* first_group_index := index first_group_item items in
  Some (insert first_group_index todo_item items).

Definition move_to_top (now : datetime) (self : TodoApp) (todo_item : ref)
  : option TodoApp :=
  let same_group_items := get_same_group_items self todo_item in
  if (List.length same_group_items <=? 1)%nat then Some self
  else
    let* current_index := index todo_item same_group_items in
    if (current_index =? 0)%nat then Some self
    else
      let* items := move_to_top_relocate self todo_item same_group_items in
      refresh_display now (with_todo_items self items).

(** [move_up_item], the exchange with the previous member of the group. *)
Definition move_up_swap (self : TodoApp) (todo_item : ref)
    (same_group_items : list ref) (current_index : nat) : option (list ref) :=
  let* previous_item := nth_error same_group_items (current_index - 1) in
  let* todo_index := index todo_item (todo_items self) in
  let* previous_index := index previous_item (todo_items self) in
  swap todo_index previous_index (todo_items self).

Definition move_up_item (now : datetime) (self : TodoApp) (todo_item : ref)
  : option TodoApp :=
  let same_group_items := get_same_group_items self todo_item in
  if (List.length same_group_items <=? 1)%nat then Some self
  else
    let* current_index := index todo_item same_group_items in
    if (current_index =? 0)%nat then Some self
    else
      let* items := move_up_swap self todo_item same_group_items current_index in
      refresh_display now (with_todo_items self items).

(** [toggle_completion].  [now] is the clock read for [completed_date],
    [now'] the one read by the refresh that follows. *)
Definition toggle_completion (now now' : datetime) (self : TodoApp)
    (todo_item : ref) : option TodoApp :=
  let t := store self todo_item in
  let* self' :=
    (if negb (completed t) then
       let t' := mk_TodoItem (id t) (note t) (date_type t) (date1 t) (date2 t)
                   true (Some now) (created_date t) in
       let completed' := completed_items self ++ [todo_item] in
       let* todo' := remove todo_item (todo_items self) in
       Some {| store := update (store self) todo_item t';
               next_ref := next_ref self; todo_items := todo';
               completed_items := completed'; next_id := next_id self |}
     else
       let t' := mk_TodoItem (id t) (note t) (date_type t) (date1 t) (date2 t)
                   false None (created_date t) in
       let todo' := todo_items self ++ [todo_item] in
       let* completed' := remove todo_item (completed_items self) in
       Some {| store := update (store self) todo_item t';
               next_ref := next_ref self; todo_items := todo';
               completed_items := completed'; next_id := next_id self |}) in
  refresh_display now' self'.

(* ================================================================= *)
(** ** Completion buckets *)

Inductive Bucket := OnTime | Early | Late | Timeless.

(** The body of the grouping loop of [export_completed_tasks] (the loop of
    [get_completed_task_stats] has the same tests). *)
Definition completion_bucket (item : TodoItem) : option Bucket :=
  match date_type item with
  | timeless => Some Timeless
  | _ =>
      let* due_date := match date_type item with
                  | instant => date1 item
                  | _ => date2 item
                  end in
      let* cd := completed_date item in
      let time_diff := datetime_sub cd due_date in
      let ts := total_seconds time_diff in
      if Z.abs ts <=? secs (6 * 3600) then Some OnTime
      else if ts <? 0 then Some Early
      else Some Late
  end.

Record ExportGroups := mk_ExportGroups {
  on_time_tasks : list ref;
  early_tasks : list ref;
  late_tasks : list ref;
  timeless_tasks : list ref
}.

Definition append_to (g : ExportGroups) (b : Bucket) (r : ref) : ExportGroups :=
  match b with
  | OnTime => mk_ExportGroups (on_time_tasks g ++ [r]) (early_tasks g)
                (late_tasks g) (timeless_tasks g)
  | Early => mk_ExportGroups (on_time_tasks g) (early_tasks g ++ [r])
                (late_tasks g) (timeless_tasks g)
  | Late => mk_ExportGroups (on_time_tasks g) (early_tasks g)
                (late_tasks g ++ [r]) (timeless_tasks g)
  | Timeless => mk_ExportGroups (on_time_tasks g) (early_tasks g)
                (late_tasks g) (timeless_tasks g ++ [r])
  end.

(** [export_completed_tasks], the grouping: [completed_sorted] is
    [sorted(self.completed_items, key=completed_date or datetime.min,
    reverse=True)], then every item goes to the list of its bucket. *)
Definition export_groups (self : TodoApp) : option ExportGroups :=
  let keys := map (fun r => match completed_date (store self r) with
                            | Some d => d
                            | None => datetime_min
                            end) (completed_items self) in
  let completed_sorted :=
    list_sort (fun a b => b <? a) keys (completed_items self) in
  fold_left (fun acc r => let* g := acc in
                          let* b := completion_bucket (store self r) in
                          Some (append_to g b r))
            completed_sorted (Some (mk_ExportGroups [] [] [] [])).

(* ================================================================= *)
(** ** Adding and editing *)

(** [s.split(sep)] on a one-character separator. *)
Fixpoint split (sep : ascii) (s : string) : list string :=
  match s with
  | EmptyString => [EmptyString]
  | String c s' =>
      if Ascii.eqb c sep then EmptyString :: split sep s'
      else match split sep s' with
           | [] => [String c EmptyString]
           | w :: ws => String c w :: ws
           end
  end.

(** [parse_datetime]: [ValueError] becomes [None]. *)
Definition parse_datetime (date_str time_str : string) : option datetime :=
  strptime (date_str ++ " " ++ time_str)%string.

(** [validate_time_format]: unpacking anything but two parts and a failing
    [int] both raise inside the [try], which returns [False]. *)
Definition validate_time_format (time_str : string) : bool :=
  if contains ":" time_str then
    match split ":"%char time_str with
    | [hour; minute] =>
        match py_int hour with
        | Some h =>
            if (0 <=? h) && (h <=? 23) then
              match py_int minute with
              | Some m => (0 <=? m) && (m <=? 59)
              | None => false
              end
            else false
        | None => false
        end
    | _ => false
    end
  else false.

(** [TodoItem(id, note, date_type, date1, date2)]; [now] is the clock read
    by the constructor for [created_date]. *)
Definition new_TodoItem (now : datetime) (i : Z) (n : string) (ty : DateType)
    (d1 d2 : option datetime) : TodoItem :=
  mk_TodoItem i n ty d1 d2 false None now.

(** The entry widgets read by [add_todo_item]. *)
Record AddForm := mk_AddForm {
  note_text : string;
  todo_type : DateType;
  date_entry : string;
  time_entry : string;
  start_date_entry : string;
  start_time_entry : string;
  end_date_entry : string;
  end_time_entry : string
}.

(** The tail of [add_todo_item]: append the new object, advance [next_id],
    refresh. *)
Definition append_new (now' : datetime) (self : TodoApp) (todo_item : TodoItem)
  : option TodoApp :=
  let r := next_ref self in
  refresh_display now'
    {| store := update (store self) r todo_item;
       next_ref := S r;
       todo_items := todo_items self ++ [r];
       completed_items := completed_items self;
       next_id := next_id self + 1 |}.

(** [add_todo_item]; a [return] after a warning leaves [self] as it is. *)
Definition add_todo_item (now now' : datetime) (self : TodoApp) (form : AddForm)
  : option TodoApp :=
  let note := strip (note_text form) in
  if String.eqb note "" then Some self
  else
    match todo_type form with
    | instant =>
        let date_str := strip (date_entry form) in
        let time_str := strip (time_entry form) in
        if negb (validate_time_format time_str) then Some self
        else
          match parse_datetime date_str time_str with
          | None => Some self
          | Some date_time =>
              append_new now' self
                (new_TodoItem now (next_id self) note instant (Some date_time) None)
          end
    | long =>
        let start_date_str := strip (start_date_entry form) in
        let start_time_str := strip (start_time_entry form) in
        let end_date_str := strip (end_date_entry form) in
        let end_time_str := strip (end_time_entry form) in
        if negb (validate_time_format start_time_str)
           || negb (validate_time_format end_time_str) then Some self
        else
          match parse_datetime start_date_str start_time_str,
                parse_datetime end_date_str end_time_str with
          | Some start_time, Some end_time =>
              if end_time <=? start_time then Some self
              else
                append_new now' self
                  (new_TodoItem now (next_id self) note long
                     (Some start_time) (Some end_time))
          | _, _ => Some self
          end
    | timeless =>
        append_new now' self (new_TodoItem now (next_id self) note timeless None None)
    end.

(** [date_frame.date_widgets], the dictionary [update_date_fields] leaves:
    the two entries of an instant task, the four of a long one, or none. *)
Inductive DateWidgets :=
| instant_widgets (date_entry time_entry : string)
| long_widgets (start_date_entry start_time_entry
                end_date_entry end_time_entry : string)
| no_widgets.

(** What [save_changes] reads from the edit dialog. *)
Record EditForm := mk_EditForm {
  edit_note_text : string;
  todo_type_var : DateType;
  date_widgets : DateWidgets
}.

(** [todo_item.note = ...; todo_item.date_type = ...; ...] on the object
    [r], then the refresh. *)
Definition assign_fields (now' : datetime) (self : TodoApp) (r : ref)
    (n : string) (ty : DateType) (d1 d2 : option datetime) : option TodoApp :=
  let t := store self r in
  refresh_display now'
    {| store := update (store self) r
                  (mk_TodoItem (id t) n ty d1 d2 (completed t)
                     (completed_date t) (created_date t));
       next_ref := next_ref self;
       todo_items := todo_items self;
       completed_items := completed_items self;
       next_id := next_id self |}.

(** [save_changes], the closure of [edit_item] on [todo_item]. *)
Definition save_changes (now' : datetime) (self : TodoApp) (todo_item : ref)
    (form : EditForm) : option TodoApp :=
  let new_note := strip (edit_note_text form) in
  if String.eqb new_note "" then Some self
  else
    match todo_type_var form with
    | instant =>
        match date_widgets form with
        | instant_widgets date_entry time_entry =>
            let date_str := strip date_entry in
            let time_str := strip time_entry in
            if negb (validate_time_format time_str) then Some self
            else
              match parse_datetime date_str time_str with
              | None => Some self
              | Some date_time =>
                  assign_fields now' self todo_item new_note instant
                    (Some date_time) None
              end
        | _ => Some self
        end
    | long =>
        match date_widgets form with
        | long_widgets sd st ed et =>
            let start_date_str := strip sd in
            let start_time_str := strip st in
            let end_date_str := strip ed in
            let end_time_str := strip et in
            if negb (validate_time_format start_time_str)
               || negb (validate_time_format end_time_str) then Some self
            else
              match parse_datetime start_date_str start_time_str,
                    parse_datetime end_date_str end_time_str with
              | Some start_time, Some end_time =>
                  if end_time <=? start_time then Some self
                  else
                    assign_fields now' self todo_item new_note long
                      (Some start_time) (Some end_time)
              | _, _ => Some self
              end
        | _ => Some self
        end
    | timeless =>
        assign_fields now' self todo_item new_note timeless None None
    end.

(* ================================================================= *)
(** ** Loading *)

(** One serialized task, as [json.load] returns it: a field is [None] when
    the key is missing ([KeyError] on reading it); a date is JSON [null]
    or a string.  [from_dict] copies [id], [note], [date_type] and
    [completed] as they are; the model takes them at the types the
    application writes. *)
Record ItemDict := mk_ItemDict {
  d_id : option Z;
  d_note : option string;
  d_date_type : option DateType;
  d_date1 : option (option string);
  d_date2 : option (option string);
  d_completed : option bool;
  d_completed_date : option (option string);
  d_created_date : option (option string)
}.

(** [if data[k]: item.f = datetime.strptime(data[k], ...)]: [null] and the
    empty string are falsy and leave the field [None]. *)
Definition optional_date (v : option string) : option (option datetime) :=
  match v with
  | None => Some None
  | Some s => if String.eqb s "" then Some None
              else let* d := strptime s in Some (Some d)
  end.

(** [TodoItem.from_dict]. *)
Definition from_dict (data : ItemDict) : option TodoItem :=
  let* i := d_id data in
  let* n := d_note data in
  let* ty := d_date_type data in
  let* v1 := d_date1 data in
  let* item_date1 := optional_date v1 in
  let* v2 := d_date2 data in
  let* item_date2 := optional_date v2 in
  let* c := d_completed data in
  let* vc := d_completed_date data in
  let* item_completed_date := optional_date vc in
  let* vcr := d_created_date data in
  let* s := vcr in
  let* item_created_date := strptime s in
  Some (mk_TodoItem i n ty item_date1 item_date2 c item_completed_date
          item_created_date).

(** The user's data file: absent, not a JSON object ([json.load] or the
    first [data.get] raises), or a JSON object whose keys may be missing
    ([data.get(k, default)]). *)
Record DataDict := mk_DataDict {
  j_todo_items : option (list ItemDict);
  j_completed_items : option (list ItemDict);
  j_next_id : option Z
}.

Inductive DataFile :=
| no_file
| not_json
| json (data : DataDict).

(** The objects a list comprehension creates: one new identity each. *)
Fixpoint allocate (st : ref -> TodoItem) (next : ref) (items : list TodoItem)
  : (ref -> TodoItem) * ref * list ref :=
  match items with
  | [] => (st, next, [])
  | it :: items' =>
      let '(st', next', refs) := allocate (update st next it) (S next) items' in
      (st', next', next :: refs)
  end.

(** [max(item.id for item in all_items)] on a non-empty list. *)
Definition max_id (st : ref -> TodoItem) (first : ref) (others : list ref) : Z :=
  fold_left (fun m r => Z.max m (id (st r))) others (id (st first)).

(** [load_data]: the new state and whether the warning box was shown.  Each
    assignment of the [try] block takes effect when it is reached; the
    [except] clause only prints and warns. *)
Definition load_data (self : TodoApp) (file : DataFile) : TodoApp * bool :=
  match file with
  | no_file => (self, false)
  | not_json => (self, true)
  | json data =>
      match mapM from_dict (match j_todo_items data with
                            | Some l => l | None => [] end) with
      | None => (self, true)
      | Some items1 =>
          let '(st1, next1, todo) := allocate (store self) (next_ref self) items1 in
          let self1 := {| store := st1; next_ref := next1; todo_items := todo;
                          completed_items := completed_items self;
                          next_id := next_id self |} in
          match mapM from_dict (match j_completed_items data with
                                | Some l => l | None => [] end) with
          | None => (self1, true)
          | Some items2 =>
              let '(st2, next2, done) := allocate st1 next1 items2 in
              let next_id2 := match j_next_id data with
                              | Some n => n | None => 1 end in
              let all_items := todo ++ done in
              let next_id3 :=
                match all_items with
                | [] => next_id2
                | r :: rs => Z.max (max_id st2 r rs + 1) next_id2
                end in
              ({| store := st2; next_ref := next2; todo_items := todo;
                  completed_items := done; next_id := next_id3 |}, false)
          end
      end
  end.

(* ================================================================= *)
(** ** Deleting, clearing, saving, starting *)

(** [x in l] on a list of objects. *)
Definition ref_in (x : ref) (l : list ref) : bool := existsb (Nat.eqb x) l.

(** [delete_item] and [delete_item_with_confirmation] (the same body after
    their [askyesno] question, whose answer is [confirmed]). *)
Definition delete_item (confirmed : bool) (now' : datetime) (self : TodoApp)
    (todo_item : ref) : option TodoApp :=
  if confirmed then
    let* self' :=
      (if ref_in todo_item (completed_items self) then
         let* completed' := remove todo_item (completed_items self) in
         Some {| store := store self; next_ref := next_ref self;
                 todo_items := todo_items self;
                 completed_items := completed'; next_id := next_id self |}
       else if ref_in todo_item (todo_items self) then
         let* todo' := remove todo_item (todo_items self) in
         Some (with_todo_items self todo')
       else Some self) in
    refresh_display now' self'
  else Some self.

(** The three buttons of the dialog of [clear_completed]. *)
Inductive ClearChoice := clear_and_export | clear_without_export | cancel_clear.

(** [clear_completed]: nothing to clear returns at once; otherwise the
    button decides.  The export of [clear_and_export] writes a file and
    leaves the collection alone; the list is cleared after it whatever it
    did. *)
Definition clear_completed (choice : ClearChoice) (now' : datetime)
    (self : TodoApp) : option TodoApp :=
  match completed_items self with
  | [] => Some self
  | _ :: _ =>
      match choice with
      | cancel_clear => Some self
      | _ =>
          refresh_display now'
            {| store := store self; next_ref := next_ref self;
               todo_items := todo_items self;
               completed_items := []; next_id := next_id self |}
      end
  end.

(** [TodoItem.to_dict]. *)
Definition to_dict (self : TodoItem) : ItemDict :=
  {| d_id := Some (id self);
     d_note := Some (note self);
     d_date_type := Some (date_type self);
     d_date1 := Some (option_map (strftime "%Y-%m-%d %H:%M") (date1 self));
     d_date2 := Some (option_map (strftime "%Y-%m-%d %H:%M") (date2 self));
     d_completed := Some (completed self);
     d_completed_date :=
       Some (option_map (strftime "%Y-%m-%d %H:%M") (completed_date self));
     d_created_date := Some (Some (strftime "%Y-%m-%d %H:%M" (created_date self))) |}.

(** [save_data], the dictionary handed to [json.dump] (a failing write only
    changes the status line). *)
Definition save_data (self : TodoApp) : DataDict :=
  {| j_todo_items := Some (map (fun r => to_dict (store self r)) (todo_items self));
     j_completed_items :=
       Some (map (fun r => to_dict (store self r)) (completed_items self));
     j_next_id := Some (next_id self) |}.

(** [initialize_application], on the collection: both lists emptied,
    [next_id = 1], [load_data], [refresh_display]; with the flag of the
    warning box of [load_data]. *)
Definition initialize_application (now : datetime) (self : TodoApp)
    (file : DataFile) : option (TodoApp * bool) :=
  let '(self', warned) :=
    load_data {| store := store self; next_ref := next_ref self;
                 todo_items := []; completed_items := []; next_id := 1 |} file in
  let* self'' := refresh_display now self' in
  Some (self'', warned).

(* ================================================================= *)
(** ** Statistics and the export of open tasks *)

Record PendingStats := mk_PendingStats {
  not_started : nat;
  ongoing : nat;
  overdue : nat;
  timeless_open : nat       (* stats['timeless'] *)
}.

(** [get_pending_task_stats]; the clock is read once, as in
    [refresh_display]. *)
Definition get_pending_task_stats (now : datetime) (self : TodoApp)
  : option PendingStats :=
  fold_left
    (fun acc r =>
       let* stats := acc in
       let item := store self r in
       if completed item then Some stats
       else
         match date_type item with
         | timeless =>
             Some (mk_PendingStats (not_started stats) (ongoing stats)
                     (overdue stats) (S (timeless_open stats)))
         | instant =>
             let* d1 := date1 item in
             if d1 <? now then
               Some (mk_PendingStats (not_started stats) (ongoing stats)
                       (S (overdue stats)) (timeless_open stats))
             else
               Some (mk_PendingStats (not_started stats) (S (ongoing stats))
                       (overdue stats) (timeless_open stats))
         | long =>
             let* d1 := date1 item in
             if now <? d1 then
               Some (mk_PendingStats (S (not_started stats)) (ongoing stats)
                       (overdue stats) (timeless_open stats))
             else
               let* in_span :=
                 (if d1 <=? now then
                    let* d2 := date2 item in Some (now <=? d2)
                  else Some false) in
               if in_span then
                 Some (mk_PendingStats (not_started stats) (S (ongoing stats))
                         (overdue stats) (timeless_open stats))
               else
                 Some (mk_PendingStats (not_started stats) (ongoing stats)
                         (S (overdue stats)) (timeless_open stats))
         end)
    (todo_items self) (Some (mk_PendingStats 0 0 0 0)).

Record CompletedStats := mk_CompletedStats {
  on_time : nat;
  early : nat;
  late : nat;
  timeless_done : nat       (* stats['timeless'] *)
}.

Definition count_bucket (stats : CompletedStats) (b : Bucket) : CompletedStats :=
  match b with
  | OnTime => mk_CompletedStats (S (on_time stats)) (early stats) (late stats)
                (timeless_done stats)
  | Early => mk_CompletedStats (on_time stats) (S (early stats)) (late stats)
                (timeless_done stats)
  | Late => mk_CompletedStats (on_time stats) (early stats) (S (late stats))
                (timeless_done stats)
  | Timeless => mk_CompletedStats (on_time stats) (early stats) (late stats)
                (S (timeless_done stats))
  end.

(** [get_completed_task_stats]: an item that is not completed or has no
    completion date is skipped; the others are classified by the tests of
    [completion_bucket]. *)
Definition get_completed_task_stats (self : TodoApp) : option CompletedStats :=
  fold_left
    (fun acc r =>
       let* stats := acc in
       let item := store self r in
       if negb (completed item) || negb (is_some_date (completed_date item))
       then Some stats
       else
         let* b := completion_bucket item in
         Some (count_bucket stats b))
    (completed_items self) (Some (mk_CompletedStats 0 0 0 0)).

Record PendingGroups := mk_PendingGroups {
  overdue_tasks : list ref;
  ongoing_tasks : list ref;
  upcoming_tasks : list ref;
  timeless_pending : list ref     (* timeless_tasks *)
}.

(** [export_pending_tasks], the grouping loop (the clock read once). *)
Definition export_pending_groups (now : datetime) (self : TodoApp)
  : option PendingGroups :=
  fold_left
    (fun acc r =>
       let* g := acc in
       let item := store self r in
       let* info := get_time_info now item in
       let status := snd info in
       if contains "逾期" status then
         Some (mk_PendingGroups (overdue_tasks g ++ [r]) (ongoing_tasks g)
                 (upcoming_tasks g) (timeless_pending g))
       else if contains "距离结束" status then
         Some (mk_PendingGroups (overdue_tasks g) (ongoing_tasks g ++ [r])
                 (upcoming_tasks g) (timeless_pending g))
       else if DateType_eqb (date_type item) timeless then
         Some (mk_PendingGroups (overdue_tasks g) (ongoing_tasks g)
                 (upcoming_tasks g) (timeless_pending g ++ [r]))
       else
         Some (mk_PendingGroups (overdue_tasks g) (ongoing_tasks g)
                 (upcoming_tasks g ++ [r]) (timeless_pending g)))
    (todo_items self) (Some (mk_PendingGroups [] [] [] [])).

(* ================================================================= *)
(** ** [class UserManager] *)

(** [hashlib.sha256(s.encode()).hexdigest()]. *)
Variable sha256_hexdigest : string -> string.

(** [base64.b64encode(s.encode()).decode()] and
    [base64.b64decode(s.encode()).decode()]; [None] is an exception of the
    decoding. *)
Variable b64encode : string -> string.
Variable b64decode : string -> option string.

(** [datetime.strptime(s, '%Y-%m-%d %H:%M:%S')]; [None] is [ValueError]. *)
Variable strptime_seconds : string -> option datetime.

(** [len(s)] on a [str]: the number of code points, which in UTF-8 is the
    number of bytes that are not continuation bytes [10xxxxxx]. *)
Fixpoint py_len (s : string) : Z :=
  match s with
  | EmptyString => 0
  | String c s' =>
      let n := N_of_ascii c in
      if (128 <=? n)%N && (n <? 192)%N then py_len s' else 1 + py_len s'
  end.

(** One entry of [self.users], as [register] writes it. *)
Record UserRecord := mk_UserRecord {
  password : string;             (* the hash *)
  created_at : string;
  last_login : option string
}.

(** [self.config['remembered_user']]; a field is [None] when the key is
    missing. *)
Record Remembered := mk_Remembered {
  r_username : option string;
  r_password : option string;
  r_timestamp : option string
}.

Record UserManager := mk_UserManager {
  users : string -> option UserRecord;     (* the dictionary self.users *)
  current_user : option string;
  remembered_user : option Remembered      (* the key of self.config *)
}.

(** [username in self.users]. *)
Definition is_some_user (o : option UserRecord) : bool :=
  match o with Some _ => true | None => false end.

(** [self.users[username] = v]. *)
Definition set_user (us : string -> option UserRecord) (username : string)
    (v : UserRecord) : string -> option UserRecord :=
  fun u => if String.eqb u username then Some v else us u.

(** [register]; [save_ok] is what [save_users] returns. *)
Definition register (now : datetime) (save_ok : bool) (self : UserManager)
    (username pw : string) : UserManager * (bool * string) :=
  if String.eqb username "" || String.eqb pw "" then
    (self, (false, "用户名和密码不能为空"))
  else if py_len username <? 3 then (self, (false, "用户名至少需要3个字符"))
  else if py_len pw <? 6 then (self, (false, "密码至少需要6个字符"))
  else if is_some_user (users self username) then (self, (false, "用户名已存在"))
  else
    let self' :=
      {| users := set_user (users self) username
                    (mk_UserRecord (sha256_hexdigest pw)
                       (strftime "%Y-%m-%d %H:%M:%S" now) None);
         current_user := current_user self;
         remembered_user := remembered_user self |} in
    if save_ok then (self', (true, "注册成功"))
    else (self', (false, "注册失败，请重试")).

(** [login]; the result of its [save_users] is not looked at. *)
Definition login (now : datetime) (self : UserManager) (username pw : string)
  : UserManager * (bool * string) :=
  if String.eqb username "" || String.eqb pw "" then
    (self, (false, "用户名和密码不能为空"))
  else
    match users self username with
    | None => (self, (false, "用户名不存在"))
    | Some u =>
        if negb (String.eqb (password u) (sha256_hexdigest pw)) then
          (self, (false, "密码错误"))
        else
          ({| users := set_user (users self) username
                         (mk_UserRecord (password u) (created_at u)
                            (Some (strftime "%Y-%m-%d %H:%M:%S" now)));
              current_user := Some username;
              remembered_user := remembered_user self |},
           (true, "登录成功"))
    end.

Definition logout (self : UserManager) : UserManager :=
  {| users := users self; current_user := None;
     remembered_user := remembered_user self |}.

(** [get_user_data_file]; an empty name is false like [None]. *)
Definition get_user_data_file (self : UserManager) : string :=
  match current_user self with
  | Some u => if String.eqb u "" then "todo_data.json"
              else ("todo_data_" ++ u ++ ".json")%string
  | None => "todo_data.json"
  end.

Definition remember_user (now : datetime) (self : UserManager)
    (username pw : string) : UserManager :=
  {| users := users self; current_user := current_user self;
     remembered_user :=
       Some (mk_Remembered (Some username) (Some (b64encode pw))
               (Some (strftime "%Y-%m-%d %H:%M:%S" now))) |}.

Definition forget_user (self : UserManager) : UserManager :=
  {| users := users self; current_user := current_user self;
     remembered_user := None |}.

(** [get_remembered_user]; the result [None] is the pair [(None, None)],
    returned when the key is absent, when more than 7 days are counted and
    when anything inside the [try] raises. *)
Definition get_remembered_user (now : datetime) (self : UserManager)
  : option (string * string) :=
  let* remembered := remembered_user self in
  let* ts := r_timestamp remembered in
  let* timestamp := strptime_seconds ts in
  if days (datetime_sub now timestamp) <=? 7 then
    let* p := r_password remembered in
    let* pw := b64decode p in
    let* username := r_username remembered in
    Some (username, pw)
  else None.

(** [auto_login]. *)
Definition auto_login (now : datetime) (self : UserManager)
  : UserManager * (bool * string) :=
  match get_remembered_user now self with
  | Some (username, pw) =>
      if negb (String.eqb username "") && negb (String.eqb pw "")
      then login now self username pw
      else (self, (false, "无记住的登录信息"))
  | None => (self, (false, "无记住的登录信息"))
  end.

(* ================================================================= *)
(** ** Vocabulary of the statements *)

Definition is_some {A} (o : option A) : bool :=
  match o with Some _ => true | None => false end.

(** The anchors [date_type] requires are present. *)
Definition has_anchors (it : TodoItem) : bool :=
  match date_type it with
  | instant => is_some (date1 it)
  | long => is_some (date1 it) && is_some (date2 it)
  | timeless => true
  end.

(** An open task of the data model: not completed, its anchors present, a
    long task ending after it starts.  Anchors come from [strptime] with
    minutes as the finest field, so they lie below [datetime.max]. *)
Definition valid_open (it : TodoItem) : bool :=
  negb (completed it) &&
  match date_type it, date1 it, date2 it with
  | instant, Some d, _ => d <? datetime_max
  | long, Some d1, Some d2 => (d1 <? d2) && (d2 <? datetime_max)
  | timeless, _, _ => true
  | _, _, _ => false
  end.

(** The sort key in the words of the specification. *)
Definition spec_overdue (now : datetime) (it : TodoItem) : bool :=
  match date_type it, date1 it, date2 it with
  | instant, Some due, _ => due <? now
  | long, _, Some e => e <? now
  | _, _, _ => false
  end.

Definition spec_ongoing (now : datetime) (it : TodoItem) : bool :=
  match date_type it, date1 it, date2 it with
  | long, Some s, Some e => (s <=? now) && (now <=? e)
  | _, _, _ => false
  end.

Definition spec_tier (now : datetime) (it : TodoItem) : Z :=
  if spec_overdue now it then 0
  else if spec_ongoing now it then 1
  else 2.

Definition anchor (o : option datetime) : datetime :=
  match o with Some d => d | None => datetime_max end.

Definition spec_tiebreak (now : datetime) (it : TodoItem) : datetime :=
  match date_type it with
  | timeless => datetime_max                     (* the infinitely late sentinel *)
  | instant => anchor (date1 it)                 (* the due moment *)
  | long =>
      if spec_overdue now it then anchor (date2 it)       (* due = the end *)
      else if spec_ongoing now it then anchor (date2 it)  (* the end *)
      else anchor (date1 it)                              (* the start *)
  end.

Definition spec_key (now : datetime) (it : TodoItem) : key :=
  (spec_tier now it, spec_tiebreak now it).

Definition key_eqb (a b : key) : bool :=
  (fst a =? fst b) && (snd a =? snd b).

(** [a] comes before [b] in [l]. *)
Definition before (a b : ref) (l : list ref) : Prop :=
  exists l1 l2 l3, l = l1 ++ a :: l2 ++ b :: l3.

(** The key [get_priority] returns, as a total function. *)
Definition priority (now : datetime) (it : TodoItem) : key :=
  match get_priority now it with
  | Some k => k
  | None => (3, datetime_max)
  end.

(** The master list is in display order for [now]. *)
Definition display_ordered (now : datetime) (self : TodoApp) : Prop :=
  StronglySorted
    (fun a b => key_lt (priority now (store self b)) (priority now (store self a)) = false)
    (todo_items self).

(** Every task of both lists has the anchors of its type. *)
Definition anchored (self : TodoApp) : Prop :=
  Forall (fun r => has_anchors (store self r) = true) (todo_items self) /\
  Forall (fun r => has_anchors (store self r) = true) (completed_items self).

(** The stable sort of [l] by [priority], on the objects of [self]. *)
Definition sort_by_priority (now : datetime) (self : TodoApp) (l : list ref)
  : list ref :=
  list_sort key_lt (map (fun r => priority now (store self r)) l) l.

(** [l1] is [l] with [t] moved in front of the segment [seg] that stood
    before it; everything outside [seg ++ [t]] stays where it is. *)
Definition moved_before (t : ref) (seg l l1 : list ref) : Prop :=
  exists pre post, l = pre ++ seg ++ t :: post /\ l1 = pre ++ t :: seg ++ post.

(** [l2] is [l] with [t] and [prev] exchanged, [mid] standing between
    them; everything else stays where it is. *)
Definition exchanged (t prev : ref) (mid l l2 : list ref) : Prop :=
  exists pre post,
    l = pre ++ prev :: mid ++ t :: post /\ l2 = pre ++ t :: mid ++ prev :: post.

(** Two tasks have the same sort key at [now]. *)
Definition same_priority (now : datetime) (self : TodoApp) (a b : ref) : Prop :=
  priority now (store self a) = priority now (store self b).

(** The due moment of a timed task: [date1] of an instant one, [date2] of
    a long one. *)
Definition due_of (it : TodoItem) : option datetime :=
  match date_type it with
  | instant => date1 it
  | long => date2 it
  | timeless => None
  end.

(** The time-delta-to-phrase rule in the words of the specification, on a
    non-negative duration [s] (in the unit of [total_seconds]): minutes
    under an hour, hours under a day, whole days otherwise, each the floor
    of the quotient. *)
Definition spec_magnitude (pre : string) (s : Z) : string :=
  if s <? secs 3600 then phrase pre (s / secs 60) "分钟"
  else if s <? secs 86400 then phrase pre (s / secs 3600) "小时"
  else phrase pre (s / secs 86400) "天".

(** The per-row phrase of a completed timed task in the words of the
    specification: early when [diff < 0], late otherwise, with the
    magnitude of [|diff|]. *)
Definition spec_completed_phrase (diff : Z) : string :=
  if diff <? 0 then spec_magnitude "超前完成" (Z.abs diff)
  else spec_magnitude "延后完成" (Z.abs diff).

(** The entries of a long task are refused: a time that is not [HH:MM], a
    date and time that do not parse, or an end that is not after the
    start. *)
Definition spanning_rejected (sd st ed et : string) : Prop :=
  validate_time_format st = false \/
  validate_time_format et = false \/
  parse_datetime sd st = None \/
  parse_datetime ed et = None \/
  exists s e, parse_datetime sd st = Some s /\ parse_datetime ed et = Some e /\
              e <= s.

Definition add_rejected (form : AddForm) : Prop :=
  spanning_rejected (strip (start_date_entry form)) (strip (start_time_entry form))
    (strip (end_date_entry form)) (strip (end_time_entry form)).

Definition edit_rejected (form : EditForm) : Prop :=
  match date_widgets form with
  | long_widgets sd st ed et =>
      spanning_rejected (strip sd) (strip st) (strip ed) (strip et)
  | _ => True
  end.

(** Position in the master list, [0] for a stranger. *)
Definition position (l : list ref) (x : ref) : nat :=
  match index x l with Some i => i | None => O end.

(** [move_up_item] on [todo_item], once per clock reading of [nows]. *)
Fixpoint move_up_times (nows : list datetime) (self : TodoApp) (todo_item : ref)
  : option TodoApp :=
  match nows with
  | [] => Some self
  | now :: nows' =>
      let* self' := move_up_item now self todo_item in
      move_up_times nows' self' todo_item
  end.

Fixpoint all_chars (p : ascii -> bool) (s : string) : bool :=
  match s with
  | EmptyString => true
  | String c s' => p c && all_chars p s'
  end.

(** The characters [str] uses for an [int]: the digits and the sign. *)
Definition is_num_char (c : ascii) : bool :=
  PyRef.is_digit c || Ascii.eqb c "-".

(* ================================================================= *)
(** ** The invariant of the collection and the commands *)

(** Every task the collection holds. *)
Definition listed (self : TodoApp) : list ref :=
  todo_items self ++ completed_items self.

(** The anchors fit the type: one for an instant task, two with the end
    after the start for a long one, none for a timeless one. *)
Definition shape_ok (it : TodoItem) : Prop :=
  match date_type it with
  | instant => (exists d, date1 it = Some d) /\ date2 it = None
  | long => exists d1 d2, date1 it = Some d1 /\ date2 it = Some d2 /\ d1 < d2
  | timeless => date1 it = None /\ date2 it = None
  end.

Definition is_open (it : TodoItem) : Prop :=
  completed it = false /\ completed_date it = None.

Definition is_done (it : TodoItem) : Prop :=
  completed it = true /\ completed_date it <> None.

Record Inv (self : TodoApp) : Prop := mk_Inv {
  inv_distinct : NoDup (listed self);
  inv_refs : Forall (fun r => (r < next_ref self)%nat) (listed self);
  inv_ids : NoDup (map (fun r => id (store self r)) (listed self));
  inv_next_id : Forall (fun r => id (store self r) < next_id self) (listed self);
  inv_open : Forall (fun r => is_open (store self r)) (todo_items self);
  inv_done : Forall (fun r => is_done (store self r)) (completed_items self);
  inv_shape : Forall (fun r => shape_ok (store self r)) (listed self)
}.

(** The commands of the main window, with the clock readings and the
    widget contents they use. *)
Inductive Command :=
| cmd_add (now now' : datetime) (form : AddForm)
| cmd_edit (now' : datetime) (t : ref) (form : EditForm)
| cmd_toggle (now now' : datetime) (t : ref)
| cmd_delete (confirmed : bool) (now' : datetime) (t : ref)
| cmd_move_to_top (now : datetime) (t : ref)
| cmd_move_up (now : datetime) (t : ref)
| cmd_clear (choice : ClearChoice) (now' : datetime)
| cmd_refresh (now : datetime).

Definition run (c : Command) (self : TodoApp) : option TodoApp :=
  match c with
  | cmd_add now now' form => add_todo_item now now' self form
  | cmd_edit now' t form => save_changes now' self t form
  | cmd_toggle now now' t => toggle_completion now now' self t
  | cmd_delete confirmed now' t => delete_item confirmed now' self t
  | cmd_move_to_top now t => move_to_top now self t
  | cmd_move_up now t => move_up_item now self t
  | cmd_clear choice now' => clear_completed choice now' self
  | cmd_refresh now => refresh_display now self
  end.

(** A command on a task comes from the card of that task, which a refresh
    builds for the tasks of the two lists. *)
Definition target_listed (c : Command) (self : TodoApp) : Prop :=
  match c with
  | cmd_edit _ t _ | cmd_toggle _ _ t | cmd_delete _ _ t
  | cmd_move_to_top _ t | cmd_move_up _ t => In t (listed self)
  | _ => True
  end.

(** The collections a session reaches from empty lists. *)
Inductive reachable : TodoApp -> Prop :=
| reach_start (st : ref -> TodoItem) (n : ref) :
    reachable {| store := st; next_ref := n; todo_items := [];
                 completed_items := []; next_id := 1 |}
| reach_step (c : Command) (self self' : TodoApp) :
    reachable self -> target_listed c self -> run c self = Some self' ->
    reachable self'.

(** [d] with the seconds and microseconds dropped. *)
Definition minute_floor (d : datetime) : datetime := d - d mod 60000000.

(** The dates a task holds. *)
Definition dates_of (it : TodoItem) : list datetime :=
  match date1 it with Some d => [d] | None => [] end ++
  match date2 it with Some d => [d] | None => [] end ++
  match completed_date it with Some d => [d] | None => [] end ++
  [created_date it].

(** [it] with [f] applied to every date. *)
Definition map_dates (f : datetime -> datetime) (it : TodoItem) : TodoItem :=
  mk_TodoItem (id it) (note it) (date_type it) (option_map f (date1 it))
    (option_map f (date2 it)) (completed it) (option_map f (completed_date it))
    (f (created_date it)).

(** The section of the report of open tasks a task belongs to, read from
    its anchors: overdue, ongoing (inside the span of a long task),
    upcoming, timeless. *)
Inductive PendingGroup := g_overdue | g_ongoing | g_upcoming | g_timeless.

Definition PendingGroup_eqb (a b : PendingGroup) : bool :=
  match a, b with
  | g_overdue, g_overdue | g_ongoing, g_ongoing
  | g_upcoming, g_upcoming | g_timeless, g_timeless => true
  | _, _ => false
  end.

Definition pending_group (now : datetime) (it : TodoItem) : PendingGroup :=
  match date_type it with
  | timeless => g_timeless
  | _ => if spec_overdue now it then g_overdue
         else if spec_ongoing now it then g_ongoing
         else g_upcoming
  end.

(** The tasks of [l] that belong to the section [g] at [now]. *)
Definition pending_in (now : datetime) (self : TodoApp) (g : PendingGroup)
    (l : list ref) : list ref :=
  filter (fun r => PendingGroup_eqb (pending_group now (store self r)) g) l.

(** The tasks of [l] of the type [ty]. *)
Definition of_type (self : TodoApp) (ty : DateType) (l : list ref) : list ref :=
  filter (fun r => DateType_eqb (date_type (store self r)) ty) l.

Definition Bucket_eqb (a b : Bucket) : bool :=
  match a, b with
  | OnTime, OnTime | Early, Early | Late, Late | Timeless, Timeless => true
  | _, _ => false
  end.

(** The tasks of [l] whose completion falls in the bucket [b]. *)
Definition bucket_in (self : TodoApp) (b : Bucket) (l : list ref) : list ref :=
  filter (fun r => match completion_bucket (store self r) with
                   | Some b' => Bucket_eqb b' b
                   | None => false
                   end) l.

(** The anchors an open task needs for its phrase: the due moment of an
    instant task, the span of a long one with its end after its start. *)
Definition open_anchors (it : TodoItem) : Prop :=
  completed it = false /\
  match date_type it with
  | instant => exists d, date1 it = Some d
  | long => exists d1 d2, date1 it = Some d1 /\ date2 it = Some d2 /\ d1 < d2
  | timeless => True
  end.

(** The place of a section in the report of open tasks. *)
Definition group_rank (g : PendingGroup) : nat :=
  match g with
  | g_overdue => 0
  | g_ongoing => 1
  | g_upcoming => 2
  | g_timeless => 3
  end.

(** [d] survives the data file up to its seconds: [strftime] writes a
    non-empty text that [strptime] reads back as the minute of [d]. *)
Definition storable (d : datetime) : Prop :=
  strftime "%Y-%m-%d %H:%M" d <> "" /\
  strptime (strftime "%Y-%m-%d %H:%M" d) = Some (minute_floor d).

(** The tasks of a list, as values. *)
Definition items_of (self : TodoApp) (l : list ref) : list TodoItem :=
  map (store self) l.

(** From [self] to [self'] no [id] is handed out twice: [next_id] does not
    go down, and every task of [self'] either was in [self] with the [id]
    it has, or has an [id] that [next_id] had not passed. *)
Definition ids_kept (self self' : TodoApp) : Prop :=
  next_id self <= next_id self' /\
  Forall (fun r => (In r (listed self) /\ id (store self' r) = id (store self r)) \/
                   next_id self <= id (store self' r))
         (listed self').

(** The phrase of an open task by the rule of the magnitudes: the distance
    to the moment the task waits for, or since the one it missed. *)
Definition spec_open_phrase (now : datetime) (it : TodoItem) : string :=
  match date_type it, date1 it, date2 it with
  | instant, Some due, _ =>
      if now <? due then spec_magnitude "距离截止还有" (due - now)
      else if due <? now then spec_magnitude "已逾期" (now - due)
      else "今天到期"
  | long, Some s, Some e =>
      if now <? s then spec_magnitude "距离开始还有" (s - now)
      else if now <=? e then spec_magnitude "距离结束还有" (e - now)
      else spec_magnitude "已逾期" (now - e)
  | _, _, _ => "无时间限制"
  end.

(** The anchors of [it] are at whole minutes, as [strptime] returns them
    for [%Y-%m-%d %H:%M]. *)
Definition whole_minutes (it : TodoItem) : Prop :=
  option_map minute_floor (date1 it) = date1 it /\
  option_map minute_floor (date2 it) = date2 it.

(** [target_listed] as a test. *)
Definition target_ok (c : Command) (self : TodoApp) : bool :=
  match c with
  | cmd_edit _ t _ | cmd_toggle _ _ t | cmd_delete _ _ t
  | cmd_move_to_top _ t | cmd_move_up _ t => ref_in t (listed self)
  | _ => true
  end.

(** A session: the commands one after the other, each from a card that is
    shown. *)
Fixpoint run_session (cs : list Command) (self : TodoApp) : option TodoApp :=
  match cs with
  | [] => Some self
  | c :: cs' =>
      if target_ok c self then
        let* self' := run c self in run_session cs' self'
      else None
  end.

(** The entries of the add form are accepted: a note that is not blank,
    and for a timed task a time entry [validate_time_format] accepts with
    a date and time [parse_datetime] reads, the end of a long task after
    its start. *)
Definition add_accepted (form : AddForm) : Prop :=
  strip (note_text form) <> "" /\
  match todo_type form with
  | instant =>
      validate_time_format (strip (time_entry form)) = true /\
      exists d, parse_datetime (strip (date_entry form)) (strip (time_entry form))
                = Some d
  | long =>
      validate_time_format (strip (start_time_entry form)) = true /\
      validate_time_format (strip (end_time_entry form)) = true /\
      exists s e,
        parse_datetime (strip (start_date_entry form)) (strip (start_time_entry form))
        = Some s /\
        parse_datetime (strip (end_date_entry form)) (strip (end_time_entry form))
        = Some e /\
        s < e
  | timeless => True
  end.

(** [completed_date] of the task [r], [datetime.min] when there is none
    (the sort key of the report of completed tasks). *)
Definition completion_key (self : TodoApp) (r : ref) : datetime :=
  match completed_date (store self r) with
  | Some d => d
  | None => datetime_min
  end.

(** The anchors of every task of both lists are at whole minutes. *)
Definition all_whole_minutes (self : TodoApp) : Prop :=
  Forall (fun r => whole_minutes (store self r)) (listed self).

(* ================================================================= *)
(** ** Example tasks and collections *)

(** The [datetime] written [YYYY-MM-DD HH:MM]. *)
Definition dt (s : string) : datetime :=
  match PyRef.strptime s with Some d => d | None => 0 end.

Definition open_task (i : Z) (n : string) (ty : DateType)
    (d1 d2 : option datetime) : TodoItem :=
  mk_TodoItem i n ty d1 d2 false None (dt "2025-05-01 08:00").

Definition done_task (i : Z) (n : string) (ty : DateType)
    (d1 d2 : option datetime) (cd : datetime) : TodoItem :=
  mk_TodoItem i n ty d1 d2 true (Some cd) (dt "2025-05-01 08:00").

Definition objects (l : list TodoItem) : ref -> TodoItem :=
  fun r => nth r l (open_task 0 "" timeless None None).

Definition empty_app : TodoApp :=
  {| store := objects []; next_ref := O; todo_items := [];
     completed_items := []; next_id := 1 |}.

(** Five open tasks in insertion order: two timeless ones, an instant one
    due on the 3rd, a long one from the 1st to the 10th, an instant one due
    on the 20th. *)
Definition ex_mixed : TodoApp :=
  {| store := objects
       [ open_task 1 "read" timeless None None;
         open_task 2 "call" instant (Some (dt "2025-06-03 09:00")) None;
         open_task 3 "trip" long (Some (dt "2025-06-01 00:00"))
                                 (Some (dt "2025-06-10 00:00"));
         open_task 4 "rent" instant (Some (dt "2025-06-20 18:00")) None;
         open_task 5 "tidy" timeless None None ];
     next_ref := 5%nat; todo_items := [0; 1; 2; 3; 4]%nat;
     completed_items := []; next_id := 6 |}.

(** Two instant tasks due at noon (objects 0 and 2) with a long task that
    starts at noon between them: three equal keys before noon, two
    groups. *)
Definition ex_interleaved : TodoApp :=
  {| store := objects
       [ open_task 1 "a" instant (Some (dt "2025-06-01 12:00")) None;
         open_task 2 "x" long (Some (dt "2025-06-01 12:00"))
                              (Some (dt "2025-06-01 13:00"));
         open_task 3 "t" instant (Some (dt "2025-06-01 12:00")) None ];
     next_ref := 3%nat; todo_items := [0; 1; 2]%nat;
     completed_items := []; next_id := 4 |}.

(** A long task running from 09:00 to 23:00 (object 0) followed by two
    instant tasks due at 10:00 (objects 1 and 2): the display order of any
    moment between 09:00 and 10:00. *)
Definition ex_due_soon : TodoApp :=
  {| store := objects
       [ open_task 1 "c" long (Some (dt "2025-06-01 09:00"))
                              (Some (dt "2025-06-01 23:00"));
         open_task 2 "a" instant (Some (dt "2025-06-01 10:00")) None;
         open_task 3 "b" instant (Some (dt "2025-06-01 10:00")) None ];
     next_ref := 3%nat; todo_items := [0; 1; 2]%nat;
     completed_items := []; next_id := 4 |}.

(** Two instant tasks due at noon (objects 0 and 2) and between them a
    long task that started at 08:00 and ends at noon: after noon all three
    are overdue with the same due moment. *)
Definition ex_same_due : TodoApp :=
  {| store := objects
       [ open_task 1 "a" instant (Some (dt "2025-06-01 12:00")) None;
         open_task 2 "c" long (Some (dt "2025-06-01 08:00"))
                              (Some (dt "2025-06-01 12:00"));
         open_task 3 "b" instant (Some (dt "2025-06-01 12:00")) None ];
     next_ref := 3%nat; todo_items := [0; 1; 2]%nat;
     completed_items := []; next_id := 4 |}.

(** An open timeless task (object 0) and a completed instant task that was
    due on June 1st (object 1). *)
Definition ex_one_done : TodoApp :=
  {| store := objects
       [ open_task 1 "x" timeless None None;
         done_task 2 "t" instant (Some (dt "2025-06-01 12:00")) None
           (dt "2025-06-01 11:00") ];
     next_ref := 2%nat; todo_items := [0%nat];
     completed_items := [1%nat]; next_id := 3 |}.

(** Two open instant tasks of one group. *)
Definition ex_pair : TodoApp :=
  {| store := objects
       [ open_task 1 "a" instant (Some (dt "2025-06-01 12:00")) None;
         open_task 2 "b" instant (Some (dt "2025-06-01 12:00")) None ];
     next_ref := 2%nat; todo_items := [0; 1]%nat;
     completed_items := []; next_id := 3 |}.

(** The scenario of the specification: a long task from June 1st to June
    10th 10:00, completed on June 10th at 15:00. *)
Definition ex_five_hours_late : TodoItem :=
  done_task 1 "trip" long (Some (dt "2025-06-01 00:00"))
    (Some (dt "2025-06-10 10:00")) (dt "2025-06-10 15:00").

(** A collection whose only task is that one, completed. *)
Definition ex_export : TodoApp :=
  {| store := objects [ex_five_hours_late]; next_ref := 1%nat;
     todo_items := []; completed_items := [0%nat]; next_id := 2 |}.

(** An instant task due on June 10th at 12:00, completed one day and one
    minute before. *)
Definition ex_day_and_minute_early : TodoItem :=
  done_task 1 "report" instant (Some (dt "2025-06-10 12:00")) None
    (dt "2025-06-09 11:59").

(** A long task entered with its end before its start. *)
Definition ex_bad_span : AddForm :=
  mk_AddForm "trip" long "" "" "2025-06-10" "09:00" "2025-06-01" "09:00".

Definition ex_bad_span_edit : EditForm :=
  mk_EditForm "trip" long (long_widgets "2025-06-10" "09:00" "2025-06-01" "09:00").

(** A data file with one sound open task and one completed task whose
    [note] key is missing. *)
Definition ex_item_dict (i : Z) (n : option string) (c : bool)
    (cd : option string) : ItemDict :=
  mk_ItemDict (Some i) n (Some instant) (Some (Some "2025-06-01 12:00"))
    (Some None) (Some c) (Some cd) (Some (Some "2025-05-01 08:00")).

Definition ex_damaged_file : DataFile :=
  json (mk_DataDict
          (Some [ex_item_dict 1 (Some "write report") false None])
          (Some [ex_item_dict 2 None true (Some "2025-06-01 11:00")])
          (Some 3)).

(** Four completed tasks: an instant one done an hour after its due
    moment, an instant one done two days before, a long one done three
    days after its end, a timeless one. *)
Definition ex_finished : TodoApp :=
  {| store := objects
       [ done_task 1 "call" instant (Some (dt "2025-06-03 09:00")) None
           (dt "2025-06-03 10:00");
         done_task 2 "rent" instant (Some (dt "2025-06-20 18:00")) None
           (dt "2025-06-18 18:00");
         done_task 3 "trip" long (Some (dt "2025-06-01 00:00"))
           (Some (dt "2025-06-10 00:00")) (dt "2025-06-13 00:00");
         done_task 4 "read" timeless None None (dt "2025-06-02 08:00") ];
     next_ref := 4%nat; todo_items := [];
     completed_items := [0; 1; 2; 3]%nat; next_id := 5 |}.

(** A data file with one open task and one completed task. *)
Definition ex_sound_file : DataFile :=
  json (mk_DataDict
          (Some [ex_item_dict 1 (Some "write report") false None])
          (Some [ex_item_dict 2 (Some "book room") true (Some "2025-06-01 11:00")])
          (Some 2)).

(** A session from the empty collection: two tasks added (the first with
    a refused time entry in between), the first completed, the second
    moved, the completed list cleared, a third task added. *)
Definition ex_add_timeless : AddForm :=
  mk_AddForm " read " timeless "" "" "" "" "" "".

Definition ex_add_instant (time : string) : AddForm :=
  mk_AddForm "call" instant "2025-06-03" time "" "" "" "".

Definition ex_session : list Command :=
  let t := dt "2025-06-01 08:00" in
  [ cmd_add t t ex_add_timeless;
    cmd_add t t (ex_add_instant "9 o'clock");
    cmd_add t t (ex_add_instant "09:00");
    cmd_toggle t t 0%nat;
    cmd_move_to_top t 1%nat;
    cmd_clear clear_without_export t;
    cmd_add t t ex_add_timeless ].

(** No account, nobody logged in, nothing remembered. *)
Definition ex_accounts : UserManager :=
  {| users := fun _ => None; current_user := None; remembered_user := None |}.

Definition ex_logged_in (u : string) : UserManager :=
  {| users := fun _ => None; current_user := Some u; remembered_user := None |}.

(** Two timeless tasks, the first completed a day before the second. *)
Definition ex_two_done : TodoApp :=
  {| store := objects
       [ done_task 1 "read" timeless None None (dt "2025-06-01 08:00");
         done_task 2 "tidy" timeless None None (dt "2025-06-02 08:00") ];
     next_ref := 2%nat; todo_items := [];
     completed_items := [0; 1]%nat; next_id := 3 |}.

(* ================================================================= *)
(** * Properties *)

(** ** Text of the status phrases *)

Lemma string_of_uint_chars (d : Decimal.uint) :
  all_chars is_num_char (NilEmpty.string_of_uint d) = true.
Proof. induction d; simpl; auto. Qed.

Lemma str_of_int_chars (n : Z) : all_chars is_num_char (str_of_int n) = true.
Proof.
  unfold str_of_int, NilZero.string_of_int, NilZero.string_of_uint.
  destruct (Z.to_int n) as [d | d]; destruct d; simpl;
    auto using string_of_uint_chars.
Qed.

(** A needle whose first character is none of those of [m] is found in
    [m ++ s] exactly when it is found in [s]. *)
Lemma contains_skip (c : ascii) (needle m s : string) :
  all_chars (fun a => negb (Ascii.eqb c a)) m = true ->
  contains (String c needle) (m ++ s) = contains (String c needle) s.
Proof.
  induction m as [| a m IH]; intros H; [reflexivity |].
  simpl in H. apply andb_true_iff in H as [Ha Hm].
  change ((String a m ++ s)%string) with (String a (m ++ s)%string).
  cbn [contains startswith].
  apply negb_true_iff in Ha. rewrite Ha. simpl. auto.
Qed.

Lemma all_chars_impl (p q : ascii -> bool) (s : string) :
  (forall a, p a = true -> q a = true) ->
  all_chars p s = true -> all_chars q s = true.
Proof.
  intros Hpq. induction s as [| a s IH]; simpl; auto.
  intros H. apply andb_true_iff in H as [Ha Hs].
  rewrite (Hpq a Ha), (IH Hs). reflexivity.
Qed.

Lemma contains_skip_int (c : ascii) (needle s : string) (n : Z) :
  is_num_char c = false ->
  contains (String c needle) (str_of_int n ++ s) = contains (String c needle) s.
Proof.
  intros Hc. apply contains_skip.
  apply (all_chars_impl is_num_char); [| apply str_of_int_chars].
  intros a Ha. apply negb_true_iff. apply Ascii.eqb_neq. intros ->. congruence.
Qed.

(** [elapsed] builds one of three phrases. *)
Lemma elapsed_cases (P : string -> Prop) (pre : string) (ts d : Z) :
  (forall n, P (phrase pre n "分钟")) ->
  (forall n, P (phrase pre n "小时")) ->
  (forall n, P (phrase pre n "天")) ->
  P (elapsed pre ts d).
Proof.
  intros H1 H2 H3. unfold elapsed.
  destruct (ts <? secs 3600); [apply H1 |].
  destruct (ts <? secs 86400); [apply H2 | apply H3].
Qed.

Ltac phrase_contains :=
  apply elapsed_cases; intros n; unfold phrase;
  repeat (cbn [String.append contains startswith Ascii.eqb Bool.eqb andb orb];
          try rewrite contains_skip_int by reflexivity);
  reflexivity.

Lemma overdue_has_overdue ts d : contains "逾期" (elapsed "已逾期" ts d) = true.
Proof. phrase_contains. Qed.

Lemma until_due_no_overdue ts d : contains "逾期" (elapsed "距离截止还有" ts d) = false.
Proof. phrase_contains. Qed.

Lemma until_start_no_overdue ts d : contains "逾期" (elapsed "距离开始还有" ts d) = false.
Proof. phrase_contains. Qed.

Lemma until_end_no_overdue ts d : contains "逾期" (elapsed "距离结束还有" ts d) = false.
Proof. phrase_contains. Qed.

Lemma until_end_has_until_end ts d : contains "距离结束" (elapsed "距离结束还有" ts d) = true.
Proof. phrase_contains. Qed.

Lemma until_due_no_until_end ts d : contains "距离结束" (elapsed "距离截止还有" ts d) = false.
Proof. phrase_contains. Qed.

Lemma until_start_no_until_end ts d : contains "距离结束" (elapsed "距离开始还有" ts d) = false.
Proof. phrase_contains. Qed.

(** ** The stable sort *)

Section SortFacts.
Context {K A : Type} (lt : K -> K -> bool).

Lemma insert_sorted_perm (x : K * A) (l : list (K * A)) :
  Permutation (insert_sorted lt x l) (x :: l).
Proof.
  induction l as [| y l IH]; simpl; [reflexivity |].
  destruct (lt (fst y) (fst x)); [| reflexivity].
  rewrite IH. apply perm_swap.
Qed.

Lemma sort_keyed_perm (l : list (K * A)) : Permutation (sort_keyed lt l) l.
Proof.
  induction l as [| x l IH]; simpl; [reflexivity |].
  rewrite insert_sorted_perm. now constructor.
Qed.

(** Stability, in the form used below: elements selected by [p] that are
    never strictly below one another keep their relative order. *)
Lemma insert_sorted_filter (p : K * A -> bool) (x : K * A) (l : list (K * A)) :
  (p x = true -> forall y, In y l -> p y = true -> lt (fst y) (fst x) = false) ->
  filter p (insert_sorted lt x l) = filter p (x :: l).
Proof.
  induction l as [| y l IH]; intros H; [reflexivity |].
  simpl. destruct (lt (fst y) (fst x)) eqn:Hlt; [| reflexivity].
  simpl. rewrite IH by (intros Hx z Hz; apply H; simpl; auto).
  simpl. destruct (p x) eqn:Hx; [| reflexivity].
  destruct (p y) eqn:Hy; [| reflexivity].
  rewrite (H eq_refl y) in Hlt by (simpl; auto). discriminate.
Qed.

Lemma sort_keyed_filter (p : K * A -> bool) (l : list (K * A)) :
  (forall x y, In x l -> In y l -> p x = true -> p y = true ->
               lt (fst y) (fst x) = false) ->
  filter p (sort_keyed lt l) = filter p l.
Proof.
  induction l as [| x l IH]; intros H; [reflexivity |].
  simpl sort_keyed. rewrite insert_sorted_filter.
  - simpl. rewrite IH by (intros; apply H; simpl; auto). reflexivity.
  - intros Hx y Hy Hpy. apply H; simpl; auto.
    right. apply (Permutation_in _ (sort_keyed_perm l) Hy).
Qed.

(** A list already in order is returned as it is. *)
Lemma sort_keyed_sorted_id (l : list (K * A)) :
  StronglySorted (fun x y => lt (fst y) (fst x) = false) l ->
  sort_keyed lt l = l.
Proof.
  induction 1 as [| x l Hs IH Hall]; [reflexivity |].
  simpl. rewrite IH. destruct l as [| y l]; [reflexivity |].
  simpl. inversion Hall as [| ? ? Hy _]; subst. now rewrite Hy.
Qed.

Hypothesis lt_asym : forall a b, lt a b = true -> lt b a = false.
Hypothesis le_trans :
  forall a b c, lt b a = false -> lt c b = false -> lt c a = false.

Lemma insert_sorted_sorted (x : K * A) (l : list (K * A)) :
  StronglySorted (fun x y => lt (fst y) (fst x) = false) l ->
  StronglySorted (fun x y => lt (fst y) (fst x) = false) (insert_sorted lt x l).
Proof.
  induction 1 as [| y l Hs IH Hall]; simpl.
  - repeat constructor.
  - destruct (lt (fst y) (fst x)) eqn:Hlt.
    + constructor; [exact IH |].
      apply Forall_forall. intros z Hz.
      apply (Permutation_in _ (insert_sorted_perm x l)) in Hz.
      destruct Hz as [<- | Hz]; [now apply lt_asym |].
      now apply (proj1 (Forall_forall _ _) Hall).
    + constructor; [now constructor |].
      constructor; [exact Hlt |].
      apply Forall_forall. intros z Hz.
      apply (le_trans _ (fst y)); [exact Hlt |].
      now apply (proj1 (Forall_forall _ _) Hall).
Qed.

Lemma sort_keyed_sorted (l : list (K * A)) :
  StronglySorted (fun x y => lt (fst y) (fst x) = false) (sort_keyed lt l).
Proof.
  induction l as [| x l IH]; simpl; [constructor |].
  now apply insert_sorted_sorted.
Qed.
End SortFacts.

(** [list_sort] when the keys are [f] of the elements. *)
Section SortByFunction.
Context {K A : Type} (lt : K -> K -> bool) (f : A -> K).

Lemma combine_map (l : list A) :
  combine (map f l) l = map (fun a => (f a, a)) l.
Proof. induction l; simpl; congruence. Qed.

Lemma list_sort_perm (l : list A) : Permutation (list_sort lt (map f l) l) l.
Proof.
  unfold list_sort. rewrite combine_map.
  rewrite (sort_keyed_perm lt), map_map. simpl. now rewrite map_id.
Qed.

Lemma sort_keyed_tagged (l : list A) :
  sort_keyed lt (map (fun a => (f a, a)) l)
  = map (fun a => (f a, a)) (list_sort lt (map f l) l).
Proof.
  unfold list_sort. rewrite combine_map.
  assert (H : Forall (fun p => fst p = f (snd p))
                (sort_keyed lt (map (fun a => (f a, a)) l))).
  { apply Forall_forall. intros p Hp.
    apply (Permutation_in _ (sort_keyed_perm lt _)) in Hp.
    apply in_map_iff in Hp as (a & <- & _). reflexivity. }
  induction H as [| [k a] r Hp _ IH]; simpl in *; [reflexivity |].
  now rewrite Hp, <- IH.
Qed.

Lemma list_sort_filter (p : A -> bool) (l : list A) :
  (forall x y, In x l -> In y l -> p x = true -> p y = true ->
               lt (f y) (f x) = false) ->
  filter p (list_sort lt (map f l) l) = filter p l.
Proof.
  intros H. unfold list_sort. rewrite combine_map.
  assert (E : forall r : list (K * A),
             filter p (map snd r) = map snd (filter (fun q => p (snd q)) r)).
  { induction r as [| q r IH]; simpl; [reflexivity |].
    destruct (p (snd q)); simpl; now rewrite IH. }
  rewrite E, sort_keyed_filter.
  - rewrite <- E, map_map. simpl. now rewrite map_id.
  - intros x y Hx Hy. apply in_map_iff in Hx as (a & <- & Ha).
    apply in_map_iff in Hy as (b & <- & Hb). simpl. now apply H.
Qed.

Lemma list_sort_sorted_id (l : list A) :
  StronglySorted (fun x y => lt (f y) (f x) = false) l ->
  list_sort lt (map f l) l = l.
Proof.
  intros H. unfold list_sort. rewrite combine_map, sort_keyed_sorted_id.
  - rewrite map_map. simpl. apply map_id.
  - induction H as [| x r Hs IH Hall]; simpl; constructor; [exact IH |].
    apply Forall_forall. intros q Hq. apply in_map_iff in Hq as (a & <- & Ha).
    simpl. now apply (proj1 (Forall_forall _ _) Hall).
Qed.

Hypothesis lt_asym : forall a b, lt a b = true -> lt b a = false.
Hypothesis le_trans :
  forall a b c, lt b a = false -> lt c b = false -> lt c a = false.

Lemma list_sort_sorted (l : list A) :
  StronglySorted (fun x y => lt (f y) (f x) = false) (list_sort lt (map f l) l).
Proof.
  pose proof (sort_keyed_sorted lt lt_asym le_trans (map (fun a => (f a, a)) l)) as H.
  rewrite sort_keyed_tagged in H.
  induction (list_sort lt (map f l) l) as [| x r IH]; [constructor |].
  simpl in H. inversion H as [| ? ? Hs Hall]; subst.
  constructor; [now apply IH |].
  apply Forall_forall. intros y Hy.
  apply (proj1 (Forall_forall _ _) Hall (f y, y)).
  apply in_map_iff. now exists y.
Qed.
End SortByFunction.

(** ** The sort key *)

Lemma key_lt_asym (a b : key) : key_lt a b = true -> key_lt b a = false.
Proof.
  destruct a as [a1 a2], b as [b1 b2]. unfold key_lt. simpl.
  destruct (a1 <? b1) eqn:E1, (a1 =? b1) eqn:E2, (a2 <? b2) eqn:E3,
    (b1 <? a1) eqn:E4, (b1 =? a1) eqn:E5, (b2 <? a2) eqn:E6; simpl;
    try reflexivity; try discriminate; lia.
Qed.

Lemma key_le_trans (a b c : key) :
  key_lt b a = false -> key_lt c b = false -> key_lt c a = false.
Proof.
  destruct a as [a1 a2], b as [b1 b2], c as [c1 c2]. unfold key_lt. simpl.
  destruct (b1 <? a1) eqn:E1, (b1 =? a1) eqn:E2, (b2 <? a2) eqn:E3,
    (c1 <? b1) eqn:E4, (c1 =? b1) eqn:E5, (c2 <? b2) eqn:E6,
    (c1 <? a1) eqn:E7, (c1 =? a1) eqn:E8, (c2 <? a2) eqn:E9; simpl;
    try reflexivity; try discriminate; lia.
Qed.

Lemma key_lt_irrefl (a : key) : key_lt a a = false.
Proof.
  destruct (key_lt a a) eqn:E; [| reflexivity].
  pose proof (key_lt_asym _ _ E). congruence.
Qed.

Lemma key_eqb_eq (a b : key) : key_eqb a b = true <-> a = b.
Proof.
  destruct a as [a1 a2], b as [b1 b2]. unfold key_eqb. simpl.
  rewrite andb_true_iff, !Z.eqb_eq. split; [intros [-> ->] | intros [= -> ->]]; auto.
Qed.

Lemma get_time_info_some (now : datetime) (it : TodoItem) :
  has_anchors it = true -> exists info, get_time_info now it = Some info.
Proof.
  unfold has_anchors, get_time_info.
  destruct (completed it), (completed_date it), (date_type it),
    (date1 it), (date2 it); simpl; intros H; try discriminate; eauto.
Qed.

Lemma get_priority_some (now : datetime) (it : TodoItem) :
  has_anchors it = true -> get_priority now it = Some (priority now it).
Proof.
  intros H. unfold priority.
  destruct (get_priority now it) eqn:E; [reflexivity | exfalso].
  revert E. unfold has_anchors in H. unfold get_priority, get_time_info.
  destruct (completed it) eqn:Hc.
  - destruct (completed_date it), (date_type it), (date1 it), (date2 it);
      simpl in *; discriminate.
  - destruct (date_type it), (date1 it) as [d1 |], (date2 it) as [d2 |];
      simpl in *; try discriminate.
    1, 2: destruct (now <? d1); simpl;
          [ rewrite until_due_no_overdue, until_due_no_until_end; discriminate
          | destruct (d1 <? now); simpl;
            [ rewrite overdue_has_overdue; discriminate | discriminate ] ].
    destruct (now <? d1); simpl;
      [ rewrite until_start_no_overdue, until_start_no_until_end; discriminate |].
    destruct ((d1 <=? now) && (now <=? d2)); simpl;
      [ rewrite until_end_no_overdue, until_end_has_until_end; discriminate
      | rewrite overdue_has_overdue; discriminate ].
Qed.

(** The key computed by the code is the key of the specification. *)
Lemma get_priority_spec (now : datetime) (it : TodoItem) :
  valid_open it = true -> get_priority now it = Some (spec_key now it).
Proof.
  unfold valid_open, get_priority, get_time_info, spec_key, spec_tier,
    spec_tiebreak, spec_overdue, spec_ongoing.
  destruct (completed it); [discriminate |]. simpl.
  destruct (date_type it), (date1 it) as [d1 |], (date2 it) as [d2 |];
    simpl; try discriminate; try reflexivity; intros H.
  1, 2: destruct (now <? d1) eqn:E1; simpl;
        [ rewrite until_due_no_overdue, until_due_no_until_end;
          assert (E : (d1 <? now) = false) by lia; now rewrite E
        | destruct (d1 <? now) eqn:E2; simpl;
          [ now rewrite overdue_has_overdue | reflexivity ] ].
  apply andb_true_iff in H as [H12 _].
  destruct (now <? d1) eqn:E1; simpl.
  - rewrite until_start_no_overdue, until_start_no_until_end.
    assert (E : (d2 <? now) = false) by lia. rewrite E.
    assert (E' : (d1 <=? now) = false) by lia. now rewrite E'.
  - assert (E' : (d1 <=? now) = true) by lia. rewrite E'. simpl.
    destruct (now <=? d2) eqn:E2; simpl.
    + rewrite until_end_no_overdue, until_end_has_until_end.
      assert (E : (d2 <? now) = false) by lia. now rewrite E.
    + rewrite overdue_has_overdue.
      assert (E : (d2 <? now) = true) by lia. now rewrite E.
Qed.

Lemma valid_open_has_anchors (it : TodoItem) :
  valid_open it = true -> has_anchors it = true.
Proof.
  unfold valid_open, has_anchors.
  destruct (completed it), (date_type it), (date1 it), (date2 it); simpl; auto.
Qed.

Lemma priority_spec (now : datetime) (it : TodoItem) :
  valid_open it = true -> priority now it = spec_key now it.
Proof. intros H. unfold priority. now rewrite get_priority_spec. Qed.

Lemma mapM_map {A B} (g : A -> option B) (f : A -> B) (l : list A) :
  (forall x, In x l -> g x = Some (f x)) -> mapM g l = Some (map f l).
Proof.
  induction l as [| x l IH]; intros H; [reflexivity |].
  simpl. rewrite H by (simpl; auto). simpl.
  rewrite IH by (intros; apply H; simpl; auto). reflexivity.
Qed.

Lemma mapM_some {A B} (g : A -> option B) (l : list A) :
  (forall x, In x l -> exists y, g x = Some y) -> exists ys, mapM g l = Some ys.
Proof.
  induction l as [| x l IH]; intros H; [now exists [] |].
  destruct (H x) as [y Hy]; [simpl; auto |].
  destruct IH as [ys Hys]; [intros; apply H; simpl; auto |].
  exists (y :: ys). simpl. now rewrite Hy, Hys.
Qed.

(** With the anchors present the refresh returns, and what it does to the
    collection is the stable sort of the master list by [priority]. *)
Lemma refresh_display_sorts (now : datetime) (self : TodoApp) :
  anchored self ->
  refresh_display now self =
  Some (with_todo_items self
          (list_sort key_lt
             (map (fun r => priority now (store self r)) (todo_items self))
             (todo_items self))).
Proof.
  intros [Ht Hc]. unfold refresh_display.
  rewrite (mapM_map _ (fun r => priority now (store self r))).
  - destruct (mapM_some (fun r => get_time_info now (store self r))
                (completed_items self)) as [ys Hys].
    + intros x Hx. apply get_time_info_some.
      now apply (proj1 (Forall_forall _ _) Hc).
    + simpl. now rewrite Hys.
  - intros x Hx. apply get_priority_some. now apply (proj1 (Forall_forall _ _) Ht).
Qed.

(** ** The display order *)

Lemma sorted_before (R : ref -> ref -> Prop) (l : list ref) (a b : ref) :
  (forall x, R x x) ->
  StronglySorted R l -> In a l -> In b l -> ~ R b a -> before a b l.
Proof.
  intros Hrefl Hs. induction Hs as [| x l Hs IH Hall]; intros Ha Hb Hab.
  - destruct Ha.
  - destruct Ha as [-> | Ha], Hb as [-> | Hb].
    + destruct Hab. apply Hrefl.
    + apply in_split in Hb as (l2 & l3 & ->). now exists [], l2, l3.
    + destruct Hab. now apply (proj1 (Forall_forall _ _) Hall).
    + destruct (IH Ha Hb Hab) as (l1 & l2 & l3 & ->).
      now exists (x :: l1), l2, l3.
Qed.

Lemma tier_lt_key_lt (now : datetime) (a b : TodoItem) :
  spec_tier now a < spec_tier now b ->
  key_lt (spec_key now a) (spec_key now b) = true.
Proof.
  intros H. unfold key_lt, spec_key. simpl.
  apply orb_true_iff. left. lia.
Qed.

Lemma timed_lt_timeless (now : datetime) (a b : TodoItem) :
  valid_open a = true -> spec_tier now a = 2 ->
  date_type a <> timeless -> date_type b = timeless ->
  key_lt (spec_key now a) (spec_key now b) = true.
Proof.
  intros Ha Ht Hna Hb.
  assert (Hb2 : spec_tier now b = 2).
  { unfold spec_tier, spec_overdue, spec_ongoing. now rewrite Hb. }
  unfold key_lt, spec_key. simpl. rewrite Ht, Hb2. simpl.
  unfold spec_tiebreak. rewrite Hb.
  unfold spec_tier in Ht. unfold valid_open in Ha.
  destruct (completed a); [discriminate |]. simpl in Ha.
  destruct (date_type a) eqn:Hty; [| | congruence].
  - destruct (date1 a); [simpl; lia | discriminate].
  - destruct (spec_overdue now a); [discriminate |].
    destruct (spec_ongoing now a); [discriminate |].
    destruct (date1 a), (date2 a); try discriminate. simpl. lia.
Qed.

(** C1.  The refresh orders the open tasks by the specified pair
    (tier, tiebreak): the key the code computes for a task is the
    specified one, the resulting master list holds the same tasks in
    non-decreasing key order, tasks with equal keys keep their insertion
    order (stability), every task of a lower tier precedes every task of a
    higher one (overdue before ongoing before the rest), and within tier 2
    every timed task precedes every timeless one. *)
Theorem display_order (now : datetime) (self : TodoApp) :
  Forall (fun r => valid_open (store self r) = true) (todo_items self) ->
  Forall (fun r => has_anchors (store self r) = true) (completed_items self) ->
  exists self',
    refresh_display now self = Some self' /\
    store self' = store self /\
    let k := fun r => spec_key now (store self r) in
    (forall r, In r (todo_items self) ->
               get_priority now (store self r) = Some (k r)) /\
    Permutation (todo_items self') (todo_items self) /\
    StronglySorted (fun a b => key_lt (k b) (k a) = false) (todo_items self') /\
    (forall k0, filter (fun r => key_eqb (k r) k0) (todo_items self')
                = filter (fun r => key_eqb (k r) k0) (todo_items self)) /\
    (forall a b, In a (todo_items self) -> In b (todo_items self) ->
       spec_tier now (store self a) < spec_tier now (store self b) ->
       before a b (todo_items self')) /\
    (forall a b, In a (todo_items self) -> In b (todo_items self) ->
       spec_tier now (store self a) = 2 ->
       date_type (store self a) <> timeless ->
       date_type (store self b) = timeless ->
       before a b (todo_items self')).
Proof.
  intros Hopen Hdone.
  assert (Hvalid : forall r, In r (todo_items self) ->
                             valid_open (store self r) = true)
    by (apply Forall_forall; exact Hopen).
  assert (Hanch : anchored self).
  { split; [| exact Hdone]. apply Forall_forall. intros r Hr.
    apply valid_open_has_anchors. now apply Hvalid. }
  rewrite (refresh_display_sorts now self Hanch).
  assert (Hkeys : map (fun r => priority now (store self r)) (todo_items self)
                  = map (fun r => spec_key now (store self r)) (todo_items self)).
  { apply map_ext_in. intros r Hr. apply priority_spec. now apply Hvalid. }
  rewrite Hkeys.
  set (k := fun r => spec_key now (store self r)).
  set (l' := list_sort key_lt (map k (todo_items self)) (todo_items self)).
  assert (Hperm : Permutation l' (todo_items self)) by apply list_sort_perm.
  assert (Hsorted : StronglySorted (fun a b => key_lt (k b) (k a) = false) l').
  { apply list_sort_sorted; [apply key_lt_asym | apply key_le_trans]. }
  assert (Hbefore : forall a b, In a (todo_items self) -> In b (todo_items self) ->
                                key_lt (k a) (k b) = true -> before a b l').
  { intros a b Ha Hb Hlt.
    apply (sorted_before (fun a b => key_lt (k b) (k a) = false)).
    - intros x. apply key_lt_irrefl.
    - exact Hsorted.
    - apply (Permutation_in _ (Permutation_sym Hperm) Ha).
    - apply (Permutation_in _ (Permutation_sym Hperm) Hb).
    - congruence. }
  eexists. split; [reflexivity |]. split; [reflexivity |].
  cbv zeta. simpl todo_items. fold k. fold l'.
  split; [| split; [| split; [| split; [| split]]]].
  - intros r Hr. apply get_priority_spec. now apply Hvalid.
  - exact Hperm.
  - exact Hsorted.
  - intros k0. apply list_sort_filter. intros x y _ _ Hx Hy.
    apply key_eqb_eq in Hx, Hy. rewrite Hx, Hy. apply key_lt_irrefl.
  - intros a b Ha Hb Hlt. apply Hbefore; auto. now apply tier_lt_key_lt.
  - intros a b Ha Hb Ht Hna Htb. apply Hbefore; auto.
    apply timed_lt_timeless; auto.
Qed.

(** ** List operations on a split list *)

Lemma index_app_notin (x : ref) (l1 l2 : list ref) :
  ~ In x l1 -> index x (l1 ++ x :: l2) = Some (List.length l1).
Proof.
  induction l1 as [| y l1 IH]; simpl; intros H.
  - now rewrite Nat.eqb_refl.
  - destruct (Nat.eqb_spec y x) as [-> | _]; [destruct H; auto |].
    rewrite IH by auto. reflexivity.
Qed.

Lemma index_split (x : ref) (l : list ref) (i : nat) :
  index x l = Some i ->
  exists l1 l2, l = l1 ++ x :: l2 /\ List.length l1 = i /\ ~ In x l1.
Proof.
  revert i. induction l as [| y l IH]; simpl; intros i H; [discriminate |].
  destruct (Nat.eqb_spec y x) as [-> | Hne].
  - injection H as <-. now exists [], l.
  - destruct (index x l) as [j |]; [| discriminate]. injection H as <-.
    destruct (IH j eq_refl) as (l1 & l2 & -> & <- & Hn).
    exists (y :: l1), l2. repeat split. simpl. intros [? | ?]; auto.
Qed.

Lemma index_in (x : ref) (l : list ref) :
  In x l -> exists i, index x l = Some i.
Proof.
  induction l as [| y l IH]; simpl; intros H; [destruct H |].
  destruct (Nat.eqb_spec y x) as [-> | Hne]; [now exists O |].
  destruct H as [? | H]; [congruence |].
  destruct (IH H) as [i ->]. now exists (S i).
Qed.

Lemma remove_app_notin (x : ref) (l1 l2 : list ref) :
  ~ In x l1 -> remove x (l1 ++ x :: l2) = Some (l1 ++ l2).
Proof.
  induction l1 as [| y l1 IH]; simpl; intros H.
  - now rewrite Nat.eqb_refl.
  - destruct (Nat.eqb_spec y x) as [-> | _]; [destruct H; auto |].
    rewrite IH by auto. reflexivity.
Qed.

Lemma insert_app (x : ref) (l1 l2 : list ref) :
  insert (List.length l1) x (l1 ++ l2) = l1 ++ x :: l2.
Proof.
  unfold insert. rewrite firstn_app, skipn_app, Nat.sub_diag.
  rewrite firstn_all, skipn_all. simpl. now rewrite app_nil_r.
Qed.

Lemma nth_error_middle (x : ref) (l1 l2 : list ref) :
  nth_error (l1 ++ x :: l2) (List.length l1) = Some x.
Proof. induction l1; simpl; auto. Qed.

Lemma set_nth_middle (x y : ref) (l1 l2 : list ref) :
  set_nth (List.length l1) y (l1 ++ x :: l2) = l1 ++ y :: l2.
Proof. induction l1; simpl; congruence. Qed.

Lemma swap_split (p t : ref) (l1 mid l3 : list ref) :
  swap (List.length (l1 ++ p :: mid)) (List.length l1) (l1 ++ p :: mid ++ t :: l3)
  = Some (l1 ++ t :: mid ++ p :: l3).
Proof.
  unfold swap. rewrite nth_error_middle. simpl.
  change (l1 ++ p :: mid ++ t :: l3) with (l1 ++ (p :: mid) ++ t :: l3).
  rewrite app_assoc, nth_error_middle. simpl.
  rewrite set_nth_middle, <- app_assoc. simpl.
  now rewrite set_nth_middle.
Qed.

Lemma filter_nil_notin {A} (p : A -> bool) (l : list A) (x : A) :
  filter p l = [] -> p x = true -> ~ In x l.
Proof.
  intros Hf Hx Hin.
  assert (H : In x (filter p l)) by (apply filter_In; auto).
  rewrite Hf in H. destruct H.
Qed.

Lemma filter_eq_cons {A} (p : A -> bool) (l : list A) (x : A) (g : list A) :
  filter p l = x :: g ->
  exists l1 l2, l = l1 ++ x :: l2 /\ filter p l1 = [] /\ filter p l2 = g /\ p x = true.
Proof.
  induction l as [| y l IH]; simpl; intros H; [discriminate |].
  destruct (p y) eqn:Hy.
  - injection H as -> <-. now exists [], l.
  - destruct (IH H) as (l1 & l2 & -> & H1 & H2 & Hx).
    exists (y :: l1), l2. simpl. rewrite Hy. auto.
Qed.

Lemma filter_eq_app_cons {A} (p : A -> bool) (g1 : list A) :
  forall (l : list A) (x : A) (g2 : list A),
  filter p l = g1 ++ x :: g2 ->
  exists l1 l2, l = l1 ++ x :: l2 /\ filter p l1 = g1 /\ filter p l2 = g2 /\ p x = true.
Proof.
  induction g1 as [| y g1 IH]; intros l x g2 H.
  - now apply filter_eq_cons.
  - apply filter_eq_cons in H as (la & lb & -> & Ha & Hb & Hy).
    apply IH in Hb as (l1 & l2 & -> & H1 & H2 & Hx).
    exists (la ++ y :: l1), l2. rewrite <- app_assoc. simpl.
    repeat split; auto. rewrite filter_app, Ha. simpl. now rewrite Hy, H1.
Qed.

Lemma sorted_app_inv {A} (R : A -> A -> Prop) (l1 l2 : list A) :
  StronglySorted R (l1 ++ l2) ->
  forall x y, In x l1 -> In y l2 -> R x y.
Proof.
  induction l1 as [| a l1 IH]; simpl; intros H x y Hx Hy; [destruct Hx |].
  inversion H as [| ? ? Hs Hall]; subst.
  destruct Hx as [-> | Hx]; [| now apply IH].
  apply (proj1 (Forall_forall _ _) Hall). apply in_or_app. now right.
Qed.

Lemma sorted_map {A B} (f : A -> B) (R : B -> B -> Prop) (l : list A) :
  StronglySorted (fun a b => R (f a) (f b)) l <-> StronglySorted R (map f l).
Proof.
  induction l as [| x l IH]; simpl; split; intros H; try constructor;
    inversion H as [| ? ? Hs Hall]; subst.
  - now apply IH.
  - apply Forall_forall. intros b Hb. apply in_map_iff in Hb as (a & <- & Ha).
    now apply (proj1 (Forall_forall _ _) Hall).
  - now apply IH.
  - apply Forall_forall. intros a Ha.
    apply (proj1 (Forall_forall _ _) Hall). now apply in_map.
Qed.

Lemma const_shift {A} (k : key) (m : list A) (rest : list key) :
  map (fun _ => k) m ++ k :: rest = k :: map (fun _ => k) m ++ rest.
Proof. induction m; simpl; congruence. Qed.

Lemma key_lt_antisym (a b : key) :
  key_lt a b = false -> key_lt b a = false -> a = b.
Proof.
  destruct a as [a1 a2], b as [b1 b2]. unfold key_lt. simpl.
  destruct (a1 <? b1) eqn:E1, (a1 =? b1) eqn:E2, (a2 <? b2) eqn:E3,
    (b1 <? a1) eqn:E4, (b1 =? a1) eqn:E5, (b2 <? a2) eqn:E6; simpl;
    try discriminate; intros _ _; f_equal; lia.
Qed.

(** ** Groups *)

Lemma DateType_eqb_eq (a b : DateType) : DateType_eqb a b = true -> a = b.
Proof. destruct a, b; simpl; congruence. Qed.

Lemma opt_eqb_eq (a b : option datetime) : opt_eqb a b = true -> a = b.
Proof.
  destruct a, b; simpl; try congruence. intros H. f_equal. lia.
Qed.

Lemma opt_eqb_refl (a : option datetime) : opt_eqb a a = true.
Proof. destruct a; simpl; auto. apply Z.eqb_refl. Qed.

Lemma in_group_refl (t : TodoItem) : completed t = false -> in_group t t = true.
Proof.
  intros H. unfold in_group. rewrite H, !opt_eqb_refl.
  destruct (date_type t); reflexivity.
Qed.

(** The key of an open task, by cases on the clock. *)
Lemma get_priority_open (now : datetime) (it : TodoItem) :
  completed it = false ->
  get_priority now it =
  match date_type it with
  | timeless => Some (2, datetime_max)
  | instant =>
      let* d1 := date1 it in
      Some (if d1 <? now then 0 else 2, d1)
  | long =>
      let* d1 := date1 it in
      let* d2 := date2 it in
      Some (if now <? d1 then (2, d1)
            else if (d1 <=? now) && (now <=? d2) then (1, d2)
            else (0, d2))
  end.
Proof.
  intros Hc. unfold get_priority, get_time_info. rewrite Hc.
  destruct (date_type it), (date1 it) as [d1 |], (date2 it) as [d2 |];
    simpl; try reflexivity.
  1, 2: destruct (now <? d1) eqn:E1; simpl;
        [ rewrite until_due_no_overdue, until_due_no_until_end;
          assert (E : (d1 <? now) = false) by lia; now rewrite E
        | destruct (d1 <? now); simpl;
          [ now rewrite overdue_has_overdue | reflexivity ] ].
  destruct (now <? d1); simpl;
    [ now rewrite until_start_no_overdue, until_start_no_until_end |].
  destruct ((d1 <=? now) && (now <=? d2)); simpl;
    [ now rewrite until_end_no_overdue, until_end_has_until_end
    | now rewrite overdue_has_overdue ].
Qed.

(** The members of a group have one key. *)
Lemma in_group_priority (now : datetime) (t a b : TodoItem) :
  in_group t a = true -> in_group t b = true -> priority now a = priority now b.
Proof.
  unfold in_group, priority. intros Ha Hb.
  destruct (date_type t) eqn:Ht;
    repeat match goal with
           | H : _ && _ = true |- _ => apply andb_true_iff in H as [? ?]
           | H : negb _ = true |- _ => apply negb_true_iff in H
           | H : DateType_eqb _ _ = true |- _ => apply DateType_eqb_eq in H
           | H : opt_eqb _ _ = true |- _ => apply opt_eqb_eq in H
           end;
    rewrite !get_priority_open by assumption;
    repeat match goal with H : _ = _ |- _ => rewrite H end; reflexivity.
Qed.

Lemma anchored_with_todo_items (self : TodoApp) (l : list ref) :
  anchored self -> Permutation l (todo_items self) ->
  anchored (with_todo_items self l).
Proof.
  intros [Ht Hc] Hp. split; [| exact Hc]. simpl.
  apply Forall_forall. intros r Hr.
  apply (proj1 (Forall_forall _ _) Ht).
  apply (Permutation_in _ Hp Hr).
Qed.

(** What the refresh at the end of an operation does to a rearranged
    master list [l]: it returns, keeps every field and both other
    components, leaves a permutation, and keeps the order of every group. *)
Lemma refresh_after (now : datetime) (self : TodoApp) (l : list ref) :
  anchored self -> Permutation l (todo_items self) ->
  exists self',
    refresh_display now (with_todo_items self l) = Some self' /\
    store self' = store self /\
    completed_items self' = completed_items self /\
    next_id self' = next_id self /\
    next_ref self' = next_ref self /\
    todo_items self' =
      list_sort key_lt (map (fun r => priority now (store self r)) l) l /\
    Permutation (todo_items self') l /\
    (forall t, filter (fun r => in_group t (store self r)) (todo_items self')
               = filter (fun r => in_group t (store self r)) l) /\
    (StronglySorted
       (fun a b => key_lt (priority now (store self b))
                          (priority now (store self a)) = false) l ->
     todo_items self' = l).
Proof.
  intros Ha Hp.
  rewrite (refresh_display_sorts now _ (anchored_with_todo_items self l Ha Hp)).
  eexists. split; [reflexivity |]. simpl.
  repeat split; try reflexivity.
  - apply list_sort_perm.
  - intros t. apply list_sort_filter. intros x y _ _ Hx Hy.
    rewrite (in_group_priority now t _ _ Hx Hy). apply key_lt_irrefl.
  - intros Hs. now apply list_sort_sorted_id.
Qed.

Lemma relocate_split (self : TodoApp) (t : ref) (p : ref -> bool)
    (g1 g2 : list ref) :
  filter p (todo_items self) = g1 ++ t :: g2 -> g1 <> [] -> ~ In t g1 ->
  exists pre g0 mid post,
    todo_items self = pre ++ g0 :: mid ++ t :: post /\
    g1 = g0 :: filter p mid /\ filter p pre = [] /\ filter p post = g2 /\
    p g0 = true /\ p t = true /\ ~ In t (pre ++ g0 :: mid) /\
    move_to_top_relocate self t (g1 ++ t :: g2)
    = Some (pre ++ t :: g0 :: mid ++ post).
Proof.
  intros Hf Hne Hnot. destruct g1 as [| g0 g1]; [congruence |]. clear Hne.
  simpl in Hf.
  destruct (filter_eq_cons _ _ _ _ Hf) as (pre & rest & HL & Hpre & Hrest & Hg0).
  destruct (filter_eq_app_cons _ _ _ _ _ Hrest) as (mid & post & -> & Hmid & Hpost & Ht).
  assert (Hnin : ~ In t (pre ++ g0 :: mid)).
  { intros Hin. apply in_app_or in Hin as [Hin | [-> | Hin]].
    - now apply (filter_nil_notin p pre t).
    - apply Hnot. now left.
    - apply Hnot. right. rewrite <- Hmid. apply filter_In. auto. }
  exists pre, g0, mid, post. repeat split; auto; [now rewrite Hmid |].
  unfold move_to_top_relocate. rewrite HL.
  change (pre ++ g0 :: mid ++ t :: post) with (pre ++ (g0 :: mid) ++ t :: post).
  rewrite app_assoc, (remove_app_notin t _ post Hnin). simpl.
  rewrite <- app_assoc. simpl.
  rewrite index_app_notin by (now apply (filter_nil_notin p pre g0)).
  simpl. now rewrite insert_app.
Qed.

Lemma swap_split_group (self : TodoApp) (t prev : ref) (p : ref -> bool)
    (g1 g2 : list ref) :
  NoDup (todo_items self) ->
  filter p (todo_items self) = g1 ++ prev :: t :: g2 ->
  ~ In t (g1 ++ [prev]) ->
  exists pre mid post,
    todo_items self = pre ++ prev :: mid ++ t :: post /\
    filter p pre = g1 /\ filter p mid = [] /\ filter p post = g2 /\
    p prev = true /\ p t = true /\
    move_up_swap self t (g1 ++ prev :: t :: g2) (S (List.length g1))
    = Some (pre ++ t :: mid ++ prev :: post).
Proof.
  intros Hnd Hf Hnot.
  destruct (filter_eq_app_cons _ _ _ _ _ Hf) as (pre & rest & HL & Hpre & Hrest & Hprev).
  destruct (filter_eq_cons _ _ _ _ Hrest) as (mid & post & -> & Hmid & Hpost & Ht).
  exists pre, mid, post. repeat split; auto.
  assert (Hnin : ~ In t (pre ++ prev :: mid)).
  { intros Hin. apply in_app_or in Hin as [Hin | [-> | Hin]].
    - apply Hnot. apply in_or_app. left. rewrite <- Hpre. apply filter_In. auto.
    - apply Hnot. apply in_or_app. right. now left.
    - now apply (filter_nil_notin p mid t). }
  assert (Hprev_nin : ~ In prev pre).
  { rewrite HL in Hnd. apply NoDup_remove_2 in Hnd.
    intros Hin. apply Hnd. apply in_or_app. now left. }
  unfold move_up_swap. simpl. rewrite Nat.sub_0_r, nth_error_middle. simpl.
  rewrite HL.
  change (pre ++ prev :: mid ++ t :: post) with (pre ++ (prev :: mid) ++ t :: post).
  rewrite app_assoc, (index_app_notin t _ post Hnin). simpl.
  rewrite <- app_assoc. simpl.
  rewrite (index_app_notin prev pre _ Hprev_nin). simpl.
  apply swap_split.
Qed.

Lemma group_eq (self : TodoApp) (t : ref) :
  completed (store self t) = false ->
  get_same_group_items self t
  = filter (fun r => in_group (store self t) (store self r)) (todo_items self).
Proof. intros H. unfold get_same_group_items. now rewrite H. Qed.

Lemma group_eq_after (self self' : TodoApp) (t : ref) :
  store self' = store self -> completed (store self t) = false ->
  get_same_group_items self' t
  = filter (fun r => in_group (store self t) (store self r)) (todo_items self').
Proof. intros Hs H. unfold get_same_group_items. now rewrite Hs, H. Qed.

Lemma anchored_after (self self' : TodoApp) :
  anchored self -> store self' = store self ->
  completed_items self' = completed_items self ->
  Permutation (todo_items self') (todo_items self) -> anchored self'.
Proof.
  intros [Ht Hc] Hs Hcs Hp. split; rewrite Hs.
  - apply Forall_forall. intros r Hr. apply (proj1 (Forall_forall _ _) Ht).
    apply (Permutation_in _ Hp Hr).
  - now rewrite Hcs.
Qed.

(** The task is already the first of its group: both operations return
    at once. *)
Lemma first_of_group_noop (now : datetime) (self : TodoApp) (t : ref) (g : list ref) :
  get_same_group_items self t = t :: g ->
  move_to_top now self t = Some self /\ move_up_item now self t = Some self.
Proof.
  intros Hg. unfold move_to_top, move_up_item. rewrite Hg.
  destruct (List.length (t :: g) <=? 1)%nat; [auto |].
  simpl. now rewrite Nat.eqb_refl.
Qed.

Lemma index_after (t : ref) (g1 g2 : list ref) :
  g1 <> [] -> ~ In t g1 ->
  (List.length (g1 ++ t :: g2) <=? 1)%nat = false /\
  exists i, index t (g1 ++ t :: g2) = Some (S i) /\ List.length g1 = S i.
Proof.
  intros Hne Hnot. destruct g1 as [| x g1]; [congruence |]. split.
  - simpl. rewrite length_app. simpl. apply Nat.leb_gt. lia.
  - exists (List.length g1). now rewrite index_app_notin.
Qed.

(** [move_to_top] on a task that is not the first of its group. *)
Lemma move_to_top_moves (now : datetime) (self : TodoApp) (t : ref)
    (g1 g2 : list ref) :
  anchored self -> completed (store self t) = false ->
  get_same_group_items self t = g1 ++ t :: g2 -> g1 <> [] -> ~ In t g1 ->
  exists pre g0 mid post top,
    todo_items self = pre ++ g0 :: mid ++ t :: post /\
    In g0 g1 /\
    Forall (fun r => In r g1 \/ in_group (store self t) (store self r) = false)
           (g0 :: mid) /\
    move_to_top now self t = Some top /\
    store top = store self /\
    completed_items top = completed_items self /\
    next_id top = next_id self /\
    todo_items top =
      list_sort key_lt
        (map (fun r => priority now (store self r)) (pre ++ t :: g0 :: mid ++ post))
        (pre ++ t :: g0 :: mid ++ post) /\
    Permutation (todo_items top) (todo_items self) /\
    get_same_group_items top t = t :: g1 ++ g2 /\
    (display_ordered now self ->
     todo_items top = pre ++ t :: g0 :: mid ++ post /\
     Forall (fun r => priority now (store self r) = priority now (store self t))
            (g0 :: mid)).
Proof.
  intros Ha Hc Hg Hne Hnot. rewrite group_eq in Hg by exact Hc.
  set (p := fun r => in_group (store self t) (store self r)) in *.
  destruct (relocate_split self t p g1 g2 Hg Hne Hnot)
    as (pre & g0 & mid & post & HL & Hg1 & Hpre & Hpost & Hg0 & Ht & Hnin & Hrel).
  assert (Hperm : Permutation (pre ++ t :: g0 :: mid ++ post) (todo_items self)).
  { rewrite HL. apply Permutation_app_head.
    change (g0 :: mid ++ t :: post) with ((g0 :: mid) ++ t :: post).
    change (t :: g0 :: mid ++ post) with (t :: (g0 :: mid) ++ post).
    apply Permutation_middle. }
  destruct (refresh_after now self _ Ha Hperm)
    as (top & Hr & Hst & Hcs & Hid & _ & Hsort & Hp' & Hgrp & Hord).
  exists pre, g0, mid, post, top.
  split; [exact HL |]. split; [rewrite Hg1; now left |]. split.
  { apply Forall_forall. intros r Hr'. destruct (p r) eqn:Hpr; [left | now right].
    rewrite Hg1. destruct Hr' as [<- | Hr']; [now left |].
    right. apply filter_In. auto. }
  split.
  { unfold move_to_top. rewrite group_eq by exact Hc. fold p. rewrite Hg.
    destruct (index_after t g1 g2 Hne Hnot) as (Hlen & i & Hi & _).
    rewrite Hlen, Hi. simpl. rewrite Hrel. simpl. exact Hr. }
  repeat (split; [assumption |]). split; [| split].
  - now rewrite Hp'.
  - rewrite (group_eq_after self top t Hst Hc), (Hgrp (store self t)).
    fold p. rewrite filter_app. simpl. rewrite Ht, Hg0, Hpre, filter_app, Hpost, Hg1.
    reflexivity.
  - intros Hdo. unfold display_ordered in Hdo. rewrite HL in Hdo.
    assert (Hsame : Forall (fun r => priority now (store self r)
                                     = priority now (store self t)) (g0 :: mid)).
    { apply Forall_forall. intros r Hr'.
      assert (E0 : priority now (store self g0) = priority now (store self t))
        by (apply (in_group_priority now (store self t)); auto).
      apply key_lt_antisym.
      - destruct Hr' as [<- | Hr']; [rewrite E0; apply key_lt_irrefl |].
        rewrite <- E0. revert Hdo.
        change (pre ++ g0 :: mid ++ t :: post)
          with (pre ++ [g0] ++ mid ++ t :: post).
        rewrite app_assoc. intros Hdo.
        apply (sorted_app_inv _ _ _ Hdo g0 r); apply in_or_app; simpl; auto.
      - revert Hdo.
        change (pre ++ g0 :: mid ++ t :: post)
          with (pre ++ (g0 :: mid) ++ t :: post).
        rewrite app_assoc. intros Hdo.
        apply (sorted_app_inv _ _ _ Hdo r t); [| simpl; auto].
        apply in_or_app. now right. }
    split; [| exact Hsame]. apply Hord.
    apply (sorted_map (fun r => priority now (store self r))
             (fun a b => key_lt b a = false)).
    apply (sorted_map (fun r => priority now (store self r))
             (fun a b => key_lt b a = false)) in Hdo.
    assert (Hmid : map (fun r => priority now (store self r)) (g0 :: mid)
                   = map (fun _ => priority now (store self t)) (g0 :: mid)).
    { apply map_ext_in. intros r Hr'.
      now apply (proj1 (Forall_forall _ _) Hsame). }
    revert Hdo.
    change (g0 :: mid ++ t :: post) with ((g0 :: mid) ++ t :: post).
    change (t :: g0 :: mid ++ post) with ([t] ++ (g0 :: mid) ++ post).
    rewrite !map_app, Hmid. cbn [map app].
    rewrite (const_shift (priority now (store self t)) mid). auto.
Qed.

Lemma swap_perm (t prev : ref) (pre mid post : list ref) :
  Permutation (pre ++ t :: mid ++ prev :: post) (pre ++ prev :: mid ++ t :: post).
Proof.
  apply Permutation_app_head.
  transitivity (t :: prev :: mid ++ post).
  - constructor. symmetry. apply Permutation_middle.
  - transitivity (prev :: t :: mid ++ post); [apply perm_swap |].
    constructor. apply Permutation_middle.
Qed.

(** [move_up_item] on a task that is not the first of its group. *)
Lemma move_up_moves (now : datetime) (self : TodoApp) (t prev : ref)
    (g1 g2 : list ref) :
  NoDup (todo_items self) -> anchored self ->
  completed (store self t) = false ->
  get_same_group_items self t = g1 ++ prev :: t :: g2 ->
  ~ In t (g1 ++ [prev]) ->
  exists pre mid post up,
    todo_items self = pre ++ prev :: mid ++ t :: post /\
    Forall (fun r => in_group (store self t) (store self r) = false) mid /\
    move_up_item now self t = Some up /\
    store up = store self /\
    completed_items up = completed_items self /\
    next_id up = next_id self /\
    todo_items up =
      list_sort key_lt
        (map (fun r => priority now (store self r)) (pre ++ t :: mid ++ prev :: post))
        (pre ++ t :: mid ++ prev :: post) /\
    Permutation (todo_items up) (todo_items self) /\
    get_same_group_items up t = g1 ++ t :: prev :: g2 /\
    (display_ordered now self ->
     todo_items up = pre ++ t :: mid ++ prev :: post /\
     Forall (fun r => priority now (store self r) = priority now (store self t))
            mid).
Proof.
  intros Hnd Ha Hc Hg Hnot. rewrite group_eq in Hg by exact Hc.
  set (p := fun r => in_group (store self t) (store self r)) in *.
  destruct (swap_split_group self t prev p g1 g2 Hnd Hg Hnot)
    as (pre & mid & post & HL & Hpre & Hmid & Hpost & Hprev & Ht & Hswap).
  assert (Hperm : Permutation (pre ++ t :: mid ++ prev :: post) (todo_items self))
    by (rewrite HL; apply swap_perm).
  destruct (refresh_after now self _ Ha Hperm)
    as (up & Hr & Hst & Hcs & Hid & _ & Hsort & Hp' & Hgrp & Hord).
  assert (E0 : priority now (store self prev) = priority now (store self t))
    by (apply (in_group_priority now (store self t)); auto).
  exists pre, mid, post, up.
  split; [exact HL |]. split.
  { apply Forall_forall. intros r Hr'.
    destruct (in_group (store self t) (store self r)) eqn:Hpr; [| reflexivity].
    destruct (filter_nil_notin p mid r Hmid Hpr Hr'). }
  split.
  { unfold move_up_item. rewrite group_eq by exact Hc. fold p. rewrite Hg.
    replace (g1 ++ prev :: t :: g2) with ((g1 ++ [prev]) ++ t :: g2)
      by (rewrite <- app_assoc; reflexivity).
    destruct (index_after t (g1 ++ [prev]) g2) as (Hlen & i & Hi & Hi');
      [now destruct g1 | exact Hnot |].
    rewrite Hlen, Hi. simpl.
    rewrite length_app in Hi'. simpl in Hi'.
    assert (i = List.length g1) as -> by lia.
    rewrite <- app_assoc. simpl. rewrite Hswap. simpl. exact Hr. }
  repeat (split; [assumption |]). split; [| split].
  - now rewrite Hp'.
  - rewrite (group_eq_after self up t Hst Hc), (Hgrp (store self t)).
    fold p. rewrite filter_app. simpl. rewrite Ht, filter_app, Hmid. simpl.
    now rewrite Hprev, Hpre, Hpost.
  - intros Hdo. unfold display_ordered in Hdo. rewrite HL in Hdo. split.
    + apply Hord.
      apply (sorted_map (fun r => priority now (store self r))
               (fun a b => key_lt b a = false)).
      apply (sorted_map (fun r => priority now (store self r))
               (fun a b => key_lt b a = false)) in Hdo.
      revert Hdo. rewrite !map_app. simpl. rewrite !map_app. simpl.
      now rewrite E0.
    + apply Forall_forall. intros r Hr'. apply key_lt_antisym.
      * rewrite <- E0. revert Hdo.
        change (pre ++ prev :: mid ++ t :: post)
          with (pre ++ [prev] ++ mid ++ t :: post).
        rewrite app_assoc. intros Hdo.
        apply (sorted_app_inv _ _ _ Hdo prev r); apply in_or_app; simpl; auto.
      * revert Hdo.
        change (pre ++ prev :: mid ++ t :: post)
          with (pre ++ (prev :: mid) ++ t :: post).
        rewrite app_assoc. intros Hdo.
        apply (sorted_app_inv _ _ _ Hdo r t); [| simpl; auto].
        apply in_or_app. right. now right.
Qed.

(** [move_up_item] repeated once per member ahead of the task brings it
    to the front of its group and keeps the others in order. *)
Lemma move_up_times_front (t : ref) (g1 : list ref) :
  forall (nows : list datetime) (self : TodoApp) (g2 : list ref),
  List.length nows = List.length g1 ->
  NoDup (todo_items self) -> anchored self ->
  completed (store self t) = false ->
  get_same_group_items self t = g1 ++ t :: g2 -> ~ In t g1 ->
  exists up,
    move_up_times nows self t = Some up /\
    store up = store self /\
    completed_items up = completed_items self /\
    next_id up = next_id self /\
    Permutation (todo_items up) (todo_items self) /\
    get_same_group_items up t = t :: g1 ++ g2.
Proof.
  induction g1 as [| prev g1 IH] using rev_ind;
    intros nows self g2 Hlen Hnd Ha Hc Hg Hnot.
  - destruct nows; [| discriminate]. exists self. simpl. repeat split; auto.
  - rewrite length_app in Hlen. simpl in Hlen.
    destruct nows as [| now nows]; [simpl in Hlen; lia |].
    rewrite <- app_assoc in Hg. simpl in Hg.
    destruct (move_up_moves now self t prev g1 g2 Hnd Ha Hc Hg Hnot)
      as (pre & mid & post & up1 & _ & _ & Hup1 & Hst & Hcs & Hid & _ & Hp & Hg' & _).
    destruct (IH nows up1 (prev :: g2)) as (up & Hup & Hst' & Hcs' & Hid' & Hp' & Hg'').
    + simpl in Hlen. lia.
    + apply (Permutation_NoDup (Permutation_sym Hp) Hnd).
    + now apply (anchored_after self).
    + now rewrite Hst.
    + exact Hg'.
    + intros Hin. apply Hnot. apply in_or_app. now left.
    + exists up. simpl. rewrite Hup1. simpl.
      repeat split; try congruence.
      * now rewrite Hp'.
      * rewrite Hg'', <- app_assoc. reflexivity.
Qed.

(** C4 (amended).  For a task at position [k] of its group, [k]
    applications of [move_up_item] reach a state on which a further one is
    a no-op, and the order of the task's group is then the one a single
    [move_to_top] produces: the task first, the other members as they
    were.  (The two master lists can differ in where tasks outside the
    group stand.)  A second [move_to_top] returns the state of the
    first. *)
Theorem move_up_repeated_group_order (now : datetime) (nows : list datetime)
    (self : TodoApp) (t : ref) (k : nat) :
  NoDup (todo_items self) -> anchored self ->
  index t (get_same_group_items self t) = Some k ->
  List.length nows = k ->
  exists top up rest,
    remove t (get_same_group_items self t) = Some rest /\
    move_to_top now self t = Some top /\
    move_up_times nows self t = Some up /\
    (forall now', move_up_item now' up t = Some up) /\
    get_same_group_items up t = t :: rest /\
    get_same_group_items top t = t :: rest /\
    (forall now', move_to_top now' top t = Some top).
Proof.
  intros Hnd Ha Hi Hlen.
  assert (Hc : completed (store self t) = false).
  { destruct (completed (store self t)) eqn:E; [| reflexivity].
    unfold get_same_group_items in Hi. rewrite E in Hi. discriminate. }
  destruct (index_split _ _ _ Hi) as (g1 & g2 & Hg & Hk & Hnot).
  destruct (move_up_times_front t g1 nows self g2) as (up & Hup & _ & _ & _ & _ & Hgu);
    try assumption; [congruence |].
  assert (Htop : exists top, move_to_top now self t = Some top /\
                             get_same_group_items top t = t :: g1 ++ g2).
  { destruct g1 as [| x g1].
    - exists self. split; [| exact Hg].
      now apply (first_of_group_noop now self t g2).
    - destruct (move_to_top_moves now self t (x :: g1) g2 Ha Hc Hg)
        as (pre & g0 & mid & post & top & _ & _ & _ & Ht & _ & _ & _ & _ & _ & Hgt & _);
        [discriminate | exact Hnot |].
      now exists top. }
  destruct Htop as (top & Htop & Hgt).
  exists top, up, (g1 ++ g2).
  split; [rewrite Hg; now apply remove_app_notin |].
  repeat split; auto.
  - intros now'. now apply (first_of_group_noop now' up t (g1 ++ g2)).
  - intros now'. now apply (first_of_group_noop now' top t (g1 ++ g2)).
Qed.

(** ** Frame of the reordering operations and of the refresh *)

(** C8 (amended).  [move_to_top] and [move_up_item] return, change no
    field of any task, leave the completed list and [next_id] alone and
    permute the master list.  Either the task is the first of its group and
    both leave the state as it is, or their own step moves the task in
    front of the segment from the group's first member up to it
    ([move_to_top]), respectively exchanges it with the previous member of
    its group ([move_up_item]), every task outside that segment keeping its
    place; the refresh that ends the operation then sorts the list by
    priority.  When the master list is in display order for the current
    time the refresh changes nothing more, and the tasks of the segment all
    have the key of the group: a task with another key keeps its position
    relative to every other task. *)
Theorem reorder_frame (now : datetime) (self : TodoApp) (t : ref) :
  NoDup (todo_items self) -> anchored self ->
  In t (todo_items self) -> completed (store self t) = false ->
  exists top up,
    move_to_top now self t = Some top /\
    move_up_item now self t = Some up /\
    store top = store self /\ store up = store self /\
    completed_items top = completed_items self /\
    completed_items up = completed_items self /\
    next_id top = next_id self /\ next_id up = next_id self /\
    Permutation (todo_items top) (todo_items self) /\
    Permutation (todo_items up) (todo_items self) /\
    ((top = self /\ up = self) \/
     exists first seg prev mid l1 l2,
       moved_before t (first :: seg) (todo_items self) l1 /\
       exchanged t prev mid (todo_items self) l2 /\
       in_group (store self t) (store self first) = true /\
       in_group (store self t) (store self prev) = true /\
       Forall (fun r => in_group (store self t) (store self r) = false) mid /\
       todo_items top = sort_by_priority now self l1 /\
       todo_items up = sort_by_priority now self l2 /\
       (display_ordered now self ->
        todo_items top = l1 /\ todo_items up = l2 /\
        Forall (fun r => same_priority now self r t) (first :: seg) /\
        Forall (fun r => same_priority now self r t) (prev :: mid))).
Proof.
  intros Hnd Ha Hin Hc.
  assert (Hg : In t (get_same_group_items self t)).
  { rewrite group_eq by exact Hc. apply filter_In. split; [exact Hin |].
    now apply in_group_refl. }
  destruct (index_in _ _ Hg) as [k Hk].
  destruct (index_split _ _ _ Hk) as (g1 & g2 & HG & _ & Hnot).
  destruct g1 as [| x g1r].
  - destruct (first_of_group_noop now self t g2 HG) as [Htop Hup].
    exists self, self. repeat split; auto.
  - destruct (@exists_last _ (x :: g1r)) as (g1' & prev & E); [discriminate |].
    rewrite E in *. clear E x g1r.
    assert (Hne : g1' ++ [prev] <> []) by (now destruct g1').
    destruct (move_to_top_moves now self t _ g2 Ha Hc HG Hne Hnot)
      as (pre & g0 & seg & post & top & HL & Hg0 & _ & Htop & Hst & Hcs & Hid
          & Hsort & Hp & _ & Hord).
    assert (HG' : get_same_group_items self t = g1' ++ prev :: t :: g2)
      by (rewrite HG, <- app_assoc; reflexivity).
    destruct (move_up_moves now self t prev g1' g2 Hnd Ha Hc HG' Hnot)
      as (pre' & mid & post' & up & HL' & Hmid & Hup & Hst' & Hcs' & Hid'
          & Hsort' & Hp' & _ & Hord').
    assert (Hmember : forall r, In r (g1' ++ [prev]) ->
                                in_group (store self t) (store self r) = true).
    { intros r Hr.
      assert (Hr' : In r (get_same_group_items self t))
        by (rewrite HG; apply in_or_app; now left).
      rewrite group_eq in Hr' by exact Hc. now apply filter_In in Hr'. }
    exists top, up. repeat (split; [assumption |]). right.
    exists g0, seg, prev, mid, (pre ++ t :: g0 :: seg ++ post),
      (pre' ++ t :: mid ++ prev :: post').
    split; [now exists pre, post |]. split; [now exists pre', post' |].
    split; [now apply Hmember |].
    split; [apply Hmember; apply in_or_app; right; now left |].
    split; [exact Hmid |]. split; [exact Hsort |]. split; [exact Hsort' |].
    intros Hdo. destruct (Hord Hdo) as [E1 Hsame]. destruct (Hord' Hdo) as [E2 Hsame'].
    repeat split; auto. constructor; [| exact Hsame'].
    apply (in_group_priority now (store self t)).
    + apply Hmember. apply in_or_app. right. now left.
    + now apply in_group_refl.
Qed.

(** C5 (amended).  The refresh returns and changes no field of any task,
    nor the completed list, nor [next_id]; but it sorts the master list
    itself, in place: afterwards the master list is its own stable sort by
    priority, a permutation in which every group keeps its order, and it is
    the list of before exactly when that was already in display order. *)
Theorem refresh_sorts_in_place (now : datetime) (self : TodoApp) :
  anchored self ->
  exists self',
    refresh_display now self = Some self' /\
    store self' = store self /\
    completed_items self' = completed_items self /\
    next_id self' = next_id self /\
    todo_items self' = sort_by_priority now self (todo_items self) /\
    Permutation (todo_items self') (todo_items self) /\
    display_ordered now self' /\
    (forall t, get_same_group_items self' t = get_same_group_items self t) /\
    (display_ordered now self <-> todo_items self' = todo_items self).
Proof.
  intros Ha. rewrite (refresh_display_sorts now self Ha).
  eexists. split; [reflexivity |]. simpl.
  assert (Hsorted : StronglySorted
            (fun a b => key_lt (priority now (store self b))
                               (priority now (store self a)) = false)
            (sort_by_priority now self (todo_items self))).
  { apply list_sort_sorted; [apply key_lt_asym | apply key_le_trans]. }
  repeat split; try reflexivity.
  - apply list_sort_perm.
  - exact Hsorted.
  - intros t. unfold get_same_group_items. simpl.
    destruct (completed (store self t)); [reflexivity |].
    apply list_sort_filter. intros x y _ _ Hx Hy.
    rewrite (in_group_priority now _ _ _ Hx Hy). apply key_lt_irrefl.
  - intros Hdo. now apply list_sort_sorted_id.
  - intros E. unfold display_ordered. rewrite <- E. exact Hsorted.
Qed.

(** ** Toggling completion *)

Lemma remove_in (x : ref) (l : list ref) :
  In x l -> exists r, remove x l = Some r /\ Permutation l (x :: r).
Proof.
  induction l as [| y l IH]; simpl; intros H; [destruct H |].
  destruct (Nat.eqb_spec y x) as [-> | Hne]; [now exists l |].
  destruct H as [? | H]; [congruence |].
  destruct (IH H) as (r & -> & Hp). exists (y :: r). split; [reflexivity |].
  rewrite Hp. apply perm_swap.
Qed.

Lemma has_anchors_update (st : ref -> TodoItem) (r : ref) (v : TodoItem) (x : ref) :
  has_anchors v = has_anchors (st r) ->
  has_anchors (update st r v x) = has_anchors (st x).
Proof.
  intros H. unfold update. destruct (Nat.eqb_spec x r) as [-> | _]; auto.
Qed.

Lemma update_same (st : ref -> TodoItem) (r : ref) (v : TodoItem) :
  update st r v r = v.
Proof. unfold update. now rewrite Nat.eqb_refl. Qed.

(** A completed task is reopened. *)
Lemma toggle_reopen (now now' : datetime) (self : TodoApp) (t : ref) :
  anchored self -> completed (store self t) = true ->
  In t (completed_items self) ->
  let t0 := store self t in
  let st' := update (store self) t
               (mk_TodoItem (id t0) (note t0) (date_type t0) (date1 t0) (date2 t0)
                  false None (created_date t0)) in
  exists self' rest,
    toggle_completion now now' self t = Some self' /\
    store self' = st' /\
    remove t (completed_items self) = Some rest /\
    completed_items self' = rest /\
    next_id self' = next_id self /\
    todo_items self' = sort_by_priority now' self' (todo_items self ++ [t]) /\
    Permutation (todo_items self') (todo_items self ++ [t]) /\
    get_same_group_items self' t
    = filter (fun r => in_group (st' t) (st' r)) (todo_items self) ++ [t] /\
    (StronglySorted
       (fun a b => key_lt (priority now' (st' b)) (priority now' (st' a)) = false)
       (todo_items self ++ [t]) ->
     todo_items self' = todo_items self ++ [t]) /\
    anchored self'.
Proof.
  intros [Ht Hcs] Hc Hin t0 st'.
  destruct (remove_in t _ Hin) as (rest & Hrem & Hperm).
  set (self1 := {| store := st'; next_ref := next_ref self;
                   todo_items := todo_items self ++ [t];
                   completed_items := rest; next_id := next_id self |}).
  assert (Hanch : forall x, has_anchors (st' x) = has_anchors (store self x))
    by (intros x; now apply has_anchors_update).
  assert (Ha1 : anchored self1).
  { split; simpl; apply Forall_forall; intros x Hx; rewrite Hanch.
    - apply in_app_or in Hx as [Hx | [<- | []]].
      + now apply (proj1 (Forall_forall _ _) Ht).
      + now apply (proj1 (Forall_forall _ _) Hcs).
    - apply (proj1 (Forall_forall _ _) Hcs).
      apply (Permutation_in _ (Permutation_sym Hperm)). now right. }
  destruct (refresh_after now' self1 (todo_items self ++ [t]) Ha1 (Permutation_refl _))
    as (self' & Hr & Hst & Hcs' & Hid & _ & Hsort & Hp & Hgrp & Hord).
  exists self', rest.
  split.
  { unfold toggle_completion. cbv zeta. rewrite Hc. simpl. rewrite Hrem. simpl.
    exact Hr. }
  assert (Hopen : completed (st' t) = false)
    by (unfold st'; now rewrite update_same).
  split; [exact Hst |]. split; [exact Hrem |]. split; [exact Hcs' |].
  split; [exact Hid |].
  split; [rewrite Hsort; unfold sort_by_priority; now rewrite Hst |].
  split; [exact Hp |]. split; [| split; [exact Hord |]].
  - unfold get_same_group_items. rewrite Hst. simpl. rewrite Hopen.
    change (filter (fun r => in_group (st' t) (store self1 r)) (todo_items self')
            = filter (fun r => in_group (st' t) (st' r)) (todo_items self) ++ [t]).
    rewrite (Hgrp (st' t)). rewrite filter_app. simpl.
    now rewrite (in_group_refl _ Hopen).
  - apply (anchored_after self1); auto.
Qed.

(** An open task is completed. *)
Lemma toggle_complete (now now' : datetime) (self : TodoApp) (t : ref) :
  anchored self -> completed (store self t) = false ->
  In t (todo_items self) ->
  let t0 := store self t in
  exists self' rest,
    toggle_completion now now' self t = Some self' /\
    store self' = update (store self) t
                    (mk_TodoItem (id t0) (note t0) (date_type t0) (date1 t0)
                       (date2 t0) true (Some now) (created_date t0)) /\
    remove t (todo_items self) = Some rest /\
    Permutation (todo_items self') rest /\
    completed_items self' = completed_items self ++ [t] /\
    next_id self' = next_id self /\
    anchored self'.
Proof.
  intros [Ht Hcs] Hc Hin t0.
  destruct (remove_in t _ Hin) as (rest & Hrem & Hperm).
  set (st' := update (store self) t
                (mk_TodoItem (id t0) (note t0) (date_type t0) (date1 t0)
                   (date2 t0) true (Some now) (created_date t0))).
  set (self1 := {| store := st'; next_ref := next_ref self;
                   todo_items := rest;
                   completed_items := completed_items self ++ [t];
                   next_id := next_id self |}).
  assert (Hanch : forall x, has_anchors (st' x) = has_anchors (store self x))
    by (intros x; now apply has_anchors_update).
  assert (Ha1 : anchored self1).
  { split; simpl; apply Forall_forall; intros x Hx; rewrite Hanch.
    - apply (proj1 (Forall_forall _ _) Ht).
      apply (Permutation_in _ (Permutation_sym Hperm)). now right.
    - apply in_app_or in Hx as [Hx | [<- | []]].
      + now apply (proj1 (Forall_forall _ _) Hcs).
      + now apply (proj1 (Forall_forall _ _) Ht). }
  destruct (refresh_after now' self1 rest Ha1 (Permutation_refl _))
    as (self' & Hr & Hst & Hcs' & Hid & _ & _ & Hp & _ & _).
  exists self', rest.
  split.
  { unfold toggle_completion. cbv zeta. rewrite Hc. simpl. rewrite Hrem. simpl.
    exact Hr. }
  split; [exact Hst |]. split; [exact Hrem |]. split; [exact Hp |].
  split; [exact Hcs' |]. split; [exact Hid |].
  apply (anchored_after self1); auto.
Qed.

(** C10 (amended).  Toggling a completed task sets [completed] to false,
    clears [completed_date], changes no other field and no other task,
    removes it from the completed list and appends it to the master list,
    which the refresh that follows sorts by priority: the task ends as the
    last member of its group (not at its former position), and at the end
    of the master list when the list with the task appended is in display
    order.  A second toggle completes it again: every field is as at the
    start except [completed_date], which is the new clock reading, and the
    task stands at the end of the completed list. *)
Theorem toggle_completed_task (now1 now1' now2 now2' : datetime)
    (self : TodoApp) (t : ref) :
  anchored self -> completed (store self t) = true ->
  In t (completed_items self) ->
  let t0 := store self t in
  exists self' self'' rest,
    toggle_completion now1 now1' self t = Some self' /\
    store self' t =
      mk_TodoItem (id t0) (note t0) (date_type t0) (date1 t0) (date2 t0)
        false None (created_date t0) /\
    (forall r, r <> t -> store self' r = store self r) /\
    remove t (completed_items self) = Some rest /\
    completed_items self' = rest /\
    next_id self' = next_id self /\
    todo_items self' = sort_by_priority now1' self' (todo_items self ++ [t]) /\
    Permutation (todo_items self') (todo_items self ++ [t]) /\
    (exists g, get_same_group_items self' t = g ++ [t]) /\
    (display_ordered now1' (with_todo_items self' (todo_items self ++ [t])) ->
     todo_items self' = todo_items self ++ [t]) /\
    toggle_completion now2 now2' self' t = Some self'' /\
    store self'' t =
      mk_TodoItem (id t0) (note t0) (date_type t0) (date1 t0) (date2 t0)
        true (Some now2) (created_date t0) /\
    completed_items self'' = rest ++ [t].
Proof.
  intros Ha Hc Hin t0.
  destruct (toggle_reopen now1 now1' self t Ha Hc Hin)
    as (self' & rest & Htog & Hst & Hrem & Hcs & Hid & Hsort & Hp & Hg & Hord & Ha').
  fold t0 in Hst, Hg, Hord.
  assert (Ht' : store self' t =
                mk_TodoItem (id t0) (note t0) (date_type t0) (date1 t0) (date2 t0)
                  false None (created_date t0))
    by (rewrite Hst; apply update_same).
  assert (Hopen : completed (store self' t) = false) by (now rewrite Ht').
  assert (Hin' : In t (todo_items self')).
  { apply (Permutation_in _ (Permutation_sym Hp)). apply in_or_app. right. now left. }
  destruct (toggle_complete now2 now2' self' t Ha' Hopen Hin')
    as (self'' & rest' & Htog' & Hst' & _ & _ & Hcs' & _ & _).
  exists self', self'', rest.
  split; [exact Htog |]. split; [exact Ht' |]. split.
  { intros r Hr. rewrite Hst. unfold update.
    destruct (Nat.eqb_spec r t); [contradiction | reflexivity]. }
  split; [exact Hrem |]. split; [exact Hcs |]. split; [exact Hid |].
  split; [exact Hsort |]. split; [exact Hp |]. split; [eexists; exact Hg |].
  split.
  { intros Hdo. apply Hord. unfold display_ordered in Hdo. simpl in Hdo.
    now rewrite Hst in Hdo. }
  split; [exact Htog' |]. split.
  - rewrite Hst', update_same, Ht'. reflexivity.
  - now rewrite Hcs', Hcs.
Qed.

(** ** The two definitions of the grouping query *)

Lemma sorted_filter {A} (R : A -> A -> Prop) (p : A -> bool) (l : list A) :
  StronglySorted R l -> StronglySorted R (filter p l).
Proof.
  induction 1 as [| x l Hs IH Hall]; simpl; [constructor |].
  destruct (p x); [| exact IH]. constructor; [exact IH |].
  apply Forall_forall. intros y Hy. apply filter_In in Hy as [Hy _].
  now apply (proj1 (Forall_forall _ _) Hall).
Qed.

(** Along a list without repetition the positions increase. *)
Lemma positions_increase (l : list ref) :
  forall pre, NoDup (pre ++ l) ->
  StronglySorted
    (fun x y => Nat.ltb (position (pre ++ l) y) (position (pre ++ l) x) = false) l.
Proof.
  induction l as [| a l IH]; intros pre Hnd; [constructor |].
  constructor.
  - specialize (IH (pre ++ [a])). rewrite <- app_assoc in IH. now apply IH.
  - assert (Ha : ~ In a pre).
    { apply NoDup_remove_2 in Hnd. intros H. apply Hnd. apply in_or_app. now left. }
    apply Forall_forall. intros y Hy.
    destruct (in_split _ _ Hy) as (m1 & m2 & ->).
    assert (Hy' : ~ In y (pre ++ a :: m1)).
    { replace (pre ++ a :: m1 ++ y :: m2) with ((pre ++ a :: m1) ++ y :: m2) in Hnd
        by (rewrite <- app_assoc; reflexivity).
      apply NoDup_remove_2 in Hnd. intros H. apply Hnd. apply in_or_app. now left. }
    unfold position. rewrite (index_app_notin a pre _ Ha).
    replace (pre ++ a :: m1 ++ y :: m2) with ((pre ++ a :: m1) ++ y :: m2)
      by (rewrite <- app_assoc; reflexivity).
    rewrite (index_app_notin y _ m2 Hy'), length_app. simpl.
    apply Nat.ltb_ge. lia.
Qed.

(** C9.  On a master list that holds every task once, the first
    definition of [get_same_group_items] (which sorts its result by index
    in the master list) returns, and returns the list of the second one
    (which does not sort): the same tasks in the same order. *)
Theorem group_definitions_agree (self : TodoApp) (t : ref) :
  NoDup (todo_items self) ->
  get_same_group_items_first self t = Some (get_same_group_items self t).
Proof.
  intros Hnd. unfold get_same_group_items_first, get_same_group_items.
  destruct (completed (store self t)); [reflexivity |].
  set (g := filter _ (todo_items self)).
  rewrite (mapM_map _ (position (todo_items self))).
  - simpl. f_equal. apply list_sort_sorted_id. apply sorted_filter.
    apply (positions_increase (todo_items self) [] Hnd).
  - intros x Hx. apply filter_In in Hx as [Hx _].
    destruct (index_in _ _ Hx) as [i Hi]. unfold position. now rewrite Hi.
Qed.

(** ** Phrases and buckets of completed tasks *)

Lemma total_seconds_sub (a b : datetime) :
  total_seconds (datetime_sub a b) = a - b.
Proof.
  unfold total_seconds, datetime_sub. simpl.
  generalize (a - b). intros us.
  change (86400 * 1000000) with 86400000000.
  Z.div_mod_to_equations. lia.
Qed.

Lemma days_sub (a b : datetime) :
  days (datetime_sub a b) = (a - b) / secs 86400.
Proof. reflexivity. Qed.

(** Within a day the phrase of the code is the phrase of the rule, in
    both directions. *)
Lemma completed_status_within_day (cd due : datetime) :
  Z.abs (cd - due) < secs 86400 ->
  completed_status (datetime_sub cd due) = spec_completed_phrase (cd - due).
Proof.
  intros H. unfold completed_status, spec_completed_phrase, elapsed, spec_magnitude.
  rewrite total_seconds_sub.
  destruct (cd - due <? 0) eqn:E.
  - assert (E2 : (Z.abs (cd - due) <? secs 86400) = true) by lia. rewrite E2.
    destruct (Z.abs (cd - due) <? secs 3600); reflexivity.
  - assert (E1 : Z.abs (cd - due) = cd - due) by lia. rewrite E1 in *.
    assert (E2 : (cd - due <? secs 86400) = true) by lia. rewrite E2.
    destruct (cd - due <? secs 3600); reflexivity.
Qed.

(** C2.  A completed instant or long task whose completion lies within six
    hours of its due moment is in the on-time bucket, and its status phrase
    is still the directional one: early when it was completed before the
    due moment, late otherwise, with the minutes/hours/days magnitude of
    the distance. *)
Theorem on_time_bucket_directional_phrase (now : datetime) (it : TodoItem)
    (cd due : datetime) :
  completed it = true -> completed_date it = Some cd ->
  has_anchors it = true -> due_of it = Some due ->
  Z.abs (cd - due) <= secs (6 * 3600) ->
  completion_bucket it = Some OnTime /\
  exists date_str week_day,
    get_time_info now it = Some (date_str, week_day, spec_completed_phrase (cd - due)).
Proof.
  intros Hc Hcd Ha Hdue H6.
  assert (Hday : Z.abs (cd - due) < secs 86400) by (unfold secs in *; lia).
  assert (E6 : (Z.abs (cd - due) <=? 21600000000) = true)
    by (unfold secs in *; lia).
  unfold completion_bucket, get_time_info, due_of, has_anchors in *.
  rewrite Hc, Hcd.
  destruct (date_type it); [| | discriminate].
  - rewrite Hdue. simpl. rewrite total_seconds_sub, E6. split; [reflexivity |].
    rewrite completed_status_within_day by exact Hday. eauto.
  - rewrite Hdue. simpl. rewrite total_seconds_sub, E6. split; [reflexivity |].
    destruct (date1 it); [| discriminate]. simpl.
    rewrite completed_status_within_day by exact Hday. eauto.
Qed.

(** The day count of the code: the floor of the distance for a late
    completion, but [-time_diff.days], the ceiling, for an early one. *)
Lemma late_day_count (cd due : datetime) :
  secs 86400 <= cd - due ->
  completed_status (datetime_sub cd due)
  = phrase "延后完成" ((cd - due) / secs 86400) "天".
Proof.
  intros H. unfold completed_status, elapsed. rewrite total_seconds_sub, days_sub.
  assert (E1 : (cd - due <? 0) = false) by (unfold secs in *; lia).
  assert (E2 : (cd - due <? secs 3600) = false) by (unfold secs in *; lia).
  assert (E3 : (cd - due <? secs 86400) = false) by lia.
  now rewrite E1, E2, E3.
Qed.

Lemma early_day_count (cd due : datetime) :
  secs 86400 <= due - cd ->
  completed_status (datetime_sub cd due)
  = phrase "超前完成"
      ((due - cd) / secs 86400 + (if (due - cd) mod secs 86400 =? 0 then 0 else 1))
      "天".
Proof.
  intros H. unfold completed_status, elapsed. rewrite total_seconds_sub, days_sub.
  assert (E1 : (cd - due <? 0) = true) by (unfold secs in *; lia).
  assert (E2 : (Z.abs (cd - due) <? secs 3600) = false) by (unfold secs in *; lia).
  assert (E3 : (Z.abs (cd - due) <? secs 86400) = false) by lia.
  rewrite E1, E2, E3. f_equal.
  unfold secs in *. change (86400 * 1000000) with 86400000000 in *.
  clear E1 E2 E3. replace (cd - due) with (- (due - cd)) by lia.
  revert H. generalize (due - cd). intros x H.
  destruct (x mod 86400000000 =? 0) eqn:E; Z.div_mod_to_equations; lia.
Qed.

(** ** Validation of a long task at add and edit time *)

Lemma refresh_display_frame (now : datetime) (self self' : TodoApp) :
  refresh_display now self = Some self' ->
  store self' = store self /\ completed_items self' = completed_items self /\
  next_id self' = next_id self /\ next_ref self' = next_ref self /\
  Permutation (todo_items self') (todo_items self).
Proof.
  unfold refresh_display.
  destruct (mapM _ (todo_items self)) as [keys |] eqn:Hk; [| discriminate].
  destruct (mapM _ (completed_items self)); [| discriminate].
  simpl. intros [= <-]. simpl. repeat split.
  assert (E : forall (l : list ref) ks,
             mapM (fun r => get_priority now (store self r)) l = Some ks ->
             ks = map (fun r => priority now (store self r)) l).
  { intros l0. induction l0 as [| x l0 IH]; simpl; intros ks H;
      [now injection H as <- |].
    unfold priority at 1.
    destruct (get_priority now (store self x)); [| discriminate].
    destruct (mapM _ l0); [| discriminate]. simpl in H. injection H as <-.
    f_equal. now apply IH. }
  rewrite (E _ _ Hk). apply list_sort_perm.
Qed.

(** C7.  Adding or editing a long task whose entries are refused (a time
    that is not [HH:MM], text that does not parse, an end not after the
    start) returns the state it was given: the collection, every field of
    every task and [next_id] are as before.  And when adding or editing a
    long task does change the state, the task added or edited has both
    anchors with the end strictly after the start. *)
Theorem spanning_validation (now now' : datetime) (self : TodoApp)
    (form : AddForm) (todo_item : ref) (eform : EditForm) :
  todo_type form = long -> todo_type_var eform = long ->
  (add_rejected form -> add_todo_item now now' self form = Some self) /\
  (edit_rejected eform -> save_changes now' self todo_item eform = Some self) /\
  (forall self', add_todo_item now now' self form = Some self' ->
     self' = self \/
     exists s e, s < e /\
       store self' (next_ref self)
       = new_TodoItem now (next_id self) (strip (note_text form)) long
           (Some s) (Some e) /\
       Permutation (todo_items self') (todo_items self ++ [next_ref self])) /\
  (forall self', save_changes now' self todo_item eform = Some self' ->
     self' = self \/
     exists s e, s < e /\
       let t0 := store self todo_item in
       store self' todo_item
       = mk_TodoItem (id t0) (strip (edit_note_text eform)) long (Some s) (Some e)
           (completed t0) (completed_date t0) (created_date t0)).
Proof.
  intros Hty Hty'. unfold add_rejected, edit_rejected, spanning_rejected.
  unfold add_todo_item, save_changes. rewrite Hty, Hty'.
  split; [| split; [| split]].
  - destruct (String.eqb _ ""); [reflexivity |].
    intros [H | [H | [H | [H | (s & e & Hs & He & Hle)]]]].
    + now rewrite H.
    + rewrite H. cbn [negb]. now rewrite orb_true_r.
    + rewrite H. now destruct (_ || _).
    + rewrite H. destruct (_ || _); [reflexivity |].
      now destruct (parse_datetime (strip (start_date_entry form)) _).
    + rewrite Hs, He. destruct (_ || _); [reflexivity |].
      assert (E : (e <=? s) = true) by lia. now rewrite E.
  - destruct (String.eqb _ ""); [reflexivity |].
    destruct (date_widgets eform) as [| sd st ed et |]; try reflexivity.
    intros [H | [H | [H | [H | (s & e & Hs & He & Hle)]]]].
    + now rewrite H.
    + rewrite H. cbn [negb]. now rewrite orb_true_r.
    + rewrite H. now destruct (_ || _).
    + rewrite H. destruct (_ || _); [reflexivity |].
      now destruct (parse_datetime (strip sd) _).
    + rewrite Hs, He. destruct (_ || _); [reflexivity |].
      assert (E : (e <=? s) = true) by lia. now rewrite E.
  - intros self'. destruct (String.eqb _ ""); [intros [= <-]; now left |].
    destruct (_ || _); [intros [= <-]; now left |].
    destruct (parse_datetime _ _) as [s |]; [| intros [= <-]; now left].
    destruct (parse_datetime _ _) as [e |]; [| intros [= <-]; now left].
    destruct (e <=? s) eqn:E; [intros [= <-]; now left |].
    unfold append_new. intros H. right. exists s, e. split; [lia |].
    apply refresh_display_frame in H as (-> & _ & _ & _ & Hp). simpl.
    split; [apply update_same | exact Hp].
  - intros self'. destruct (String.eqb _ ""); [intros [= <-]; now left |].
    destruct (date_widgets eform) as [| sd st ed et |];
      try (intros [= <-]; now left).
    destruct (_ || _); [intros [= <-]; now left |].
    destruct (parse_datetime _ _) as [s |]; [| intros [= <-]; now left].
    destruct (parse_datetime _ _) as [e |]; [| intros [= <-]; now left].
    destruct (e <=? s) eqn:E; [intros [= <-]; now left |].
    unfold assign_fields. intros H. right. exists s, e. split; [lia |].
    apply refresh_display_frame in H as (-> & _). simpl. apply update_same.
Qed.

(* ================================================================= *)
(** * Further properties *)

(** ** The invariant of the collection *)

Lemma shape_ok_has_anchors (it : TodoItem) : shape_ok it -> has_anchors it = true.
Proof.
  unfold shape_ok, has_anchors. destruct (date_type it).
  - intros [[d ->] _]. reflexivity.
  - intros (d1 & d2 & -> & -> & _). reflexivity.
  - reflexivity.
Qed.

Lemma shape_ok_fields (a b : TodoItem) :
  date_type b = date_type a -> date1 b = date1 a -> date2 b = date2 a ->
  shape_ok a -> shape_ok b.
Proof. unfold shape_ok. intros -> -> ->. auto. Qed.

Lemma Inv_anchored (self : TodoApp) : Inv self -> anchored self.
Proof.
  intros H. pose proof (inv_shape self H) as Hs. unfold listed in Hs.
  apply Forall_app in Hs as [Ht Hc].
  split; eapply Forall_impl; try eassumption;
    intros r Hr; now apply shape_ok_has_anchors.
Qed.

Lemma Forall_perm_sub {A} (P : A -> Prop) (l extra l' : list A) :
  Permutation l (extra ++ l') -> Forall P l -> Forall P l'.
Proof.
  intros Hp H. apply (Permutation_Forall Hp) in H.
  now apply Forall_app in H as [_ H].
Qed.

Lemma NoDup_perm_sub {A} (l extra l' : list A) :
  Permutation l (extra ++ l') -> NoDup l -> NoDup l'.
Proof.
  intros Hp H. apply (Permutation_NoDup Hp) in H.
  now apply NoDup_app_remove_l in H.
Qed.

(** The invariant passes to a collection that holds some of the same
    tasks under the same counters, with their [id]s. *)
Lemma Inv_sub (self self' : TodoApp) (extra : list ref) :
  Inv self ->
  next_ref self' = next_ref self -> next_id self' = next_id self ->
  Permutation (listed self) (extra ++ listed self') ->
  (forall r, In r (listed self') -> id (store self' r) = id (store self r)) ->
  Forall (fun r => shape_ok (store self' r)) (listed self') ->
  Forall (fun r => is_open (store self' r)) (todo_items self') ->
  Forall (fun r => is_done (store self' r)) (completed_items self') ->
  Inv self'.
Proof.
  intros H Hnr Hni Hp Hid Hshape Hopen Hdone.
  assert (Hmap : map (fun r => id (store self' r)) (listed self')
                 = map (fun r => id (store self r)) (listed self'))
    by (apply map_ext_in; exact Hid).
  constructor; auto.
  - apply (NoDup_perm_sub _ _ _ Hp), H.
  - rewrite Hnr. apply (Forall_perm_sub _ _ _ _ Hp), H.
  - rewrite Hmap.
    apply (NoDup_perm_sub (map (fun r => id (store self r)) (listed self))
             (map (fun r => id (store self r)) extra)).
    + rewrite <- map_app. now apply Permutation_map.
    + apply H.
  - rewrite Hni. apply Forall_forall. intros r Hr. rewrite (Hid r Hr).
    revert r Hr. apply Forall_forall.
    apply (Forall_perm_sub _ _ _ _ Hp), H.
Qed.

(** The refresh returns on a collection with the invariant and keeps it. *)
Lemma Inv_refresh (now : datetime) (self : TodoApp) :
  Inv self -> exists self', refresh_display now self = Some self' /\ Inv self'.
Proof.
  intros H. pose proof (refresh_display_sorts now self (Inv_anchored self H)) as Hr.
  eexists. split; [exact Hr |].
  destruct (refresh_display_frame now self _ Hr) as (Hst & Hcs & Hid & Hnr & Hp).
  assert (Hl : Permutation (listed self) ([] ++ listed (with_todo_items self
                 (list_sort key_lt
                    (map (fun r => priority now (store self r)) (todo_items self))
                    (todo_items self))))).
  { unfold listed. simpl. apply Permutation_app_tail. now symmetry. }
  apply (Inv_sub self _ [] H); auto.
  - apply (Forall_perm_sub _ _ _ _ Hl), H.
  - simpl. apply (Permutation_Forall (Permutation_sym Hp)), H.
  - apply H.
Qed.

(** A new object with the next [id] joins the master list. *)
Lemma Inv_add (self : TodoApp) (item : TodoItem) :
  Inv self -> is_open item -> shape_ok item -> id item = next_id self ->
  Inv {| store := update (store self) (next_ref self) item;
         next_ref := S (next_ref self);
         todo_items := todo_items self ++ [next_ref self];
         completed_items := completed_items self;
         next_id := next_id self + 1 |}.
Proof.
  intros H Hopen Hshape Hid.
  set (r := next_ref self).
  assert (Hfresh : ~ In r (listed self)).
  { intros Hin. pose proof (proj1 (Forall_forall _ _) (inv_refs self H) r Hin).
    unfold r in *. lia. }
  assert (Hold : forall x, In x (listed self) ->
                           update (store self) r item x = store self x).
  { intros x Hx. unfold update.
    destruct (Nat.eqb_spec x r) as [-> | _]; [contradiction | reflexivity]. }
  assert (Hp : Permutation (listed {| store := update (store self) r item;
                                      next_ref := S r;
                                      todo_items := todo_items self ++ [r];
                                      completed_items := completed_items self;
                                      next_id := next_id self + 1 |})
                 (r :: listed self)).
  { unfold listed. simpl. rewrite <- app_assoc. simpl.
    symmetry. apply Permutation_middle. }
  assert (Hall : forall (P : ref -> Prop),
             P r -> Forall P (listed self) ->
             Forall P (listed {| store := update (store self) r item;
                                 next_ref := S r;
                                 todo_items := todo_items self ++ [r];
                                 completed_items := completed_items self;
                                 next_id := next_id self + 1 |})).
  { intros P Pr HP. apply (Permutation_Forall (Permutation_sym Hp)).
    now constructor. }
  assert (Hext : forall (Q : TodoItem -> Prop) l,
             (forall x, In x l -> In x (listed self)) ->
             Forall (fun x => Q (store self x)) l ->
             Forall (fun x => Q (update (store self) r item x)) l).
  { intros Q l Hl HQ. apply Forall_forall. intros x Hx.
    rewrite Hold by auto. now apply (proj1 (Forall_forall _ _) HQ). }
  constructor; simpl.
  - apply (Permutation_NoDup (Permutation_sym Hp)). constructor; [exact Hfresh |].
    apply H.
  - apply Hall; [lia |]. eapply Forall_impl; [| apply (inv_refs self H)].
    simpl. intros. lia.
  - apply (Permutation_NoDup
             (Permutation_map (fun x => id (update (store self) r item x))
                (Permutation_sym Hp))).
    simpl. rewrite update_same, Hid.
    rewrite (map_ext_in _ (fun x => id (store self x)))
      by (intros x Hx; now rewrite Hold).
    constructor; [| apply H].
    intros Hin. apply in_map_iff in Hin as (x & Hx & Hin).
    pose proof (proj1 (Forall_forall _ _) (inv_next_id self H) x Hin) as Hlt.
    simpl in Hlt. lia.
  - apply Hall; [rewrite update_same; lia |].
    apply (Hext (fun it => id it < next_id self + 1)); [auto |].
    eapply Forall_impl; [| apply (inv_next_id self H)]. simpl. intros. lia.
  - apply Forall_app. split.
    + apply (Hext is_open); [| apply H].
      intros x Hx. apply in_or_app. now left.
    + constructor; [| constructor]. now rewrite update_same.
  - apply (Hext is_done); [| apply H].
    intros x Hx. apply in_or_app. now right.
  - apply (Hall (fun x => shape_ok (update (store self) r item x)));
      [now rewrite update_same |].
    apply (Hext shape_ok); [auto | apply H].
Qed.

Lemma ref_in_iff (x : ref) (l : list ref) : ref_in x l = true <-> In x l.
Proof.
  unfold ref_in. rewrite existsb_exists. split.
  - intros (y & Hy & E). apply Nat.eqb_eq in E. now subst.
  - intros H. exists x. split; [exact H | apply Nat.eqb_refl].
Qed.

Lemma remove_perm (x : ref) (l r : list ref) :
  remove x l = Some r -> Permutation l (x :: r).
Proof.
  intros H. assert (Hin : In x l).
  { revert r H. induction l as [| y l IH]; simpl; intros r H; [discriminate |].
    destruct (Nat.eqb_spec y x) as [-> | _]; [now left |].
    destruct (remove x l); [| discriminate]. right. now apply (IH l0). }
  destruct (remove_in x l Hin) as (r' & Hr & Hp). congruence.
Qed.

Lemma NoDup_app_disjoint {A} (l l' : list A) (x : A) :
  NoDup (l ++ l') -> In x l -> In x l' -> False.
Proof.
  induction l as [| a l IH]; simpl; intros Hnd Hl Hl'; [destruct Hl |].
  inversion Hnd as [| ? ? Hna Hnd']; subst.
  destruct Hl as [-> | Hl]; [| now apply IH].
  apply Hna. apply in_or_app. now right.
Qed.

(** The invariant passes to a collection with the same objects and
    counters whose lists hold the same tasks. *)
Lemma Inv_same_store (self self' : TodoApp) :
  Inv self -> store self' = store self ->
  next_ref self' = next_ref self -> next_id self' = next_id self ->
  completed_items self' = completed_items self ->
  Permutation (todo_items self') (todo_items self) ->
  Inv self'.
Proof.
  intros H Hst Hnr Hni Hcs Hp.
  assert (Hl : Permutation (listed self) ([] ++ listed self')).
  { unfold listed. simpl. rewrite Hcs. apply Permutation_app_tail. now symmetry. }
  apply (Inv_sub self self' [] H); auto; rewrite Hst; auto.
  - apply (Forall_perm_sub _ _ _ _ Hl), H.
  - apply (Permutation_Forall (Permutation_sym Hp)), H.
  - rewrite Hcs. apply H.
Qed.

Lemma move_to_top_frame (now : datetime) (self self' : TodoApp) (t : ref) :
  move_to_top now self t = Some self' ->
  store self' = store self /\ next_ref self' = next_ref self /\
  next_id self' = next_id self /\ completed_items self' = completed_items self.
Proof.
  unfold move_to_top.
  destruct (_ <=? _)%nat; [intros [= <-]; auto |].
  destruct (index t _) as [i |]; [| discriminate]. simpl.
  destruct (i =? 0)%nat; [intros [= <-]; auto |].
  destruct (move_to_top_relocate _ _ _); [| discriminate]. simpl. intros H.
  apply refresh_display_frame in H as (? & ? & ? & ? & _). auto.
Qed.

Lemma move_up_item_frame (now : datetime) (self self' : TodoApp) (t : ref) :
  move_up_item now self t = Some self' ->
  store self' = store self /\ next_ref self' = next_ref self /\
  next_id self' = next_id self /\ completed_items self' = completed_items self.
Proof.
  unfold move_up_item.
  destruct (_ <=? _)%nat; [intros [= <-]; auto |].
  destruct (index t _) as [i |]; [| discriminate]. simpl.
  destruct (i =? 0)%nat; [intros [= <-]; auto |].
  destruct (move_up_swap _ _ _ _); [| discriminate]. simpl. intros H.
  apply refresh_display_frame in H as (? & ? & ? & ? & _). auto.
Qed.

(** Both reorderings return on an open task of the master list and
    permute it. *)
Lemma moves_return (now : datetime) (self : TodoApp) (t : ref) :
  NoDup (todo_items self) -> anchored self ->
  In t (todo_items self) -> completed (store self t) = false ->
  exists top up,
    move_to_top now self t = Some top /\
    move_up_item now self t = Some up /\
    Permutation (todo_items top) (todo_items self) /\
    Permutation (todo_items up) (todo_items self).
Proof.
  intros Hnd Ha Hin Hc.
  assert (Hg : In t (get_same_group_items self t)).
  { rewrite group_eq by exact Hc. apply filter_In. split; [exact Hin |].
    now apply in_group_refl. }
  destruct (index_in _ _ Hg) as [k Hk].
  destruct (index_split _ _ _ Hk) as (g1 & g2 & HG & _ & Hnot).
  destruct g1 as [| x g1r].
  - destruct (first_of_group_noop now self t g2 HG) as [Htop Hup].
    exists self, self. repeat split; auto.
  - destruct (@exists_last _ (x :: g1r)) as (g1' & prev & E); [discriminate |].
    rewrite E in *. clear E x g1r.
    assert (Hne : g1' ++ [prev] <> []) by (now destruct g1').
    destruct (move_to_top_moves now self t _ g2 Ha Hc HG Hne Hnot)
      as (pre & g0 & seg & post & top & _ & _ & _ & Htop & _ & _ & _ & _ & Hp & _).
    assert (HG' : get_same_group_items self t = g1' ++ prev :: t :: g2)
      by (rewrite HG, <- app_assoc; reflexivity).
    destruct (move_up_moves now self t prev g1' g2 Hnd Ha Hc HG' Hnot)
      as (pre' & mid & post' & up & _ & _ & Hup & _ & _ & _ & _ & Hp' & _).
    exists top, up. auto.
Qed.

Lemma Inv_moves (now : datetime) (self : TodoApp) (t : ref) :
  Inv self -> In t (listed self) ->
  (exists top, move_to_top now self t = Some top /\ Inv top) /\
  (exists up, move_up_item now self t = Some up /\ Inv up).
Proof.
  intros H Hin. apply in_app_or in Hin as [Hin | Hin].
  - assert (Hnd : NoDup (todo_items self)).
    { pose proof (inv_distinct self H) as Hd. unfold listed in Hd.
      now apply NoDup_app_remove_r in Hd. }
    assert (Hc : completed (store self t) = false)
      by (apply (proj1 (Forall_forall _ _) (inv_open self H) t Hin)).
    destruct (moves_return now self t Hnd (Inv_anchored self H) Hin Hc)
      as (top & up & Htop & Hup & Hp & Hp').
    destruct (move_to_top_frame _ _ _ _ Htop) as (? & ? & ? & ?).
    destruct (move_up_item_frame _ _ _ _ Hup) as (? & ? & ? & ?).
    split; [exists top | exists up]; (split; [assumption |]);
      now apply (Inv_same_store self).
  - assert (Hc : completed (store self t) = true)
      by (apply (proj1 (Forall_forall _ _) (inv_done self H) t Hin)).
    unfold move_to_top, move_up_item, get_same_group_items. rewrite Hc. simpl.
    split; exists self; auto.
Qed.

Lemma Inv_delete (confirmed : bool) (now' : datetime) (self : TodoApp) (t : ref) :
  Inv self ->
  exists self', delete_item confirmed now' self t = Some self' /\ Inv self'.
Proof.
  intros H. unfold delete_item.
  destruct confirmed; [| now exists self].
  destruct (ref_in t (completed_items self)) eqn:Ec.
  - apply ref_in_iff in Ec. destruct (remove_in t _ Ec) as (rest & -> & Hp).
    simpl. apply Inv_refresh.
    apply (Inv_sub self _ [t] H); simpl; auto.
    + unfold listed. simpl. rewrite Hp. symmetry.
      change (t :: todo_items self ++ rest) with ((t :: todo_items self) ++ rest).
      rewrite (Permutation_app_comm (t :: todo_items self)). simpl.
      rewrite (Permutation_app_comm (todo_items self)). simpl.
      symmetry. apply Permutation_middle.
    + assert (Hl : Permutation (listed self) ([t] ++ todo_items self ++ rest)).
      { unfold listed. rewrite Hp. simpl. symmetry. apply Permutation_middle. }
      apply (Forall_perm_sub _ _ _ _ Hl), H.
    + apply H.
    + apply (Forall_perm_sub _ _ [t] _ Hp), H.
  - destruct (ref_in t (todo_items self)) eqn:Et.
    + apply ref_in_iff in Et. destruct (remove_in t _ Et) as (rest & -> & Hp).
      simpl. apply Inv_refresh.
      assert (Hl : Permutation (listed self) ([t] ++ rest ++ completed_items self)).
      { unfold listed. rewrite Hp. reflexivity. }
      apply (Inv_sub self _ [t] H); simpl; auto.
      * apply (Forall_perm_sub _ _ _ _ Hl), H.
      * apply (Forall_perm_sub _ _ [t] _ Hp), H.
      * apply H.
    + simpl. now apply Inv_refresh.
Qed.

Lemma Inv_clear (choice : ClearChoice) (now' : datetime) (self : TodoApp) :
  Inv self ->
  exists self', clear_completed choice now' self = Some self' /\ Inv self'.
Proof.
  intros H. unfold clear_completed.
  destruct (completed_items self) as [| c cs] eqn:Ec; [now exists self |].
  assert (Hl : Permutation (listed self) ((c :: cs) ++ todo_items self ++ [])).
  { unfold listed. rewrite Ec, app_nil_r. apply Permutation_app_comm. }
  assert (Hi : Inv {| store := store self; next_ref := next_ref self;
                      todo_items := todo_items self; completed_items := [];
                      next_id := next_id self |}).
  { apply (Inv_sub self _ (c :: cs) H); simpl; auto.
    - apply (Forall_perm_sub _ _ _ _ Hl), H.
    - apply H. }
  destruct choice; [now apply Inv_refresh | now apply Inv_refresh | now exists self].
Qed.

Lemma toggle_completion_frame (now now' : datetime) (self self' : TodoApp) (t : ref) :
  toggle_completion now now' self t = Some self' ->
  next_ref self' = next_ref self /\ next_id self' = next_id self.
Proof.
  unfold toggle_completion.
  destruct (negb (completed (store self t))).
  - destruct (remove t (todo_items self)); [| discriminate]. simpl. intros H.
    apply refresh_display_frame in H as (_ & _ & ? & ? & _). auto.
  - destruct (remove t (completed_items self)); [| discriminate]. simpl. intros H.
    apply refresh_display_frame in H as (_ & _ & ? & ? & _). auto.
Qed.

Lemma Inv_toggle (now now' : datetime) (self : TodoApp) (t : ref) :
  Inv self -> In t (listed self) ->
  exists self', toggle_completion now now' self t = Some self' /\ Inv self'.
Proof.
  intros H Hin.
  assert (Hfields : forall st' v, st' = update (store self) t v ->
            id v = id (store self t) -> date_type v = date_type (store self t) ->
            date1 v = date1 (store self t) -> date2 v = date2 (store self t) ->
            forall r, id (st' r) = id (store self r) /\
                      (shape_ok (store self r) -> shape_ok (st' r)) /\
                      (r <> t -> st' r = store self r)).
  { intros st' v -> Hi Hty H1 H2 r. unfold update.
    destruct (Nat.eqb_spec r t) as [-> | Hne].
    - repeat split; [exact Hi | now apply shape_ok_fields | congruence].
    - repeat split; auto. }
  apply in_app_or in Hin as [Hin | Hin].
  - destruct (proj1 (Forall_forall _ _) (inv_open self H) t Hin) as [Hc _].
    destruct (toggle_complete now now' self t (Inv_anchored self H) Hc Hin)
      as (self' & rest & Htog & Hst & Hrem & Hp & Hcs & Hid & _).
    exists self'. split; [exact Htog |].
    destruct (toggle_completion_frame _ _ _ _ _ Htog) as [Hnr _].
    pose proof (remove_perm _ _ _ Hrem) as Hpr.
    pose proof (Hfields _ _ Hst eq_refl eq_refl eq_refl eq_refl) as Hf.
    assert (Hl : Permutation (listed self) ([] ++ listed self')).
    { unfold listed. simpl. rewrite Hcs, Hp, Hpr. simpl.
      rewrite app_assoc. apply Permutation_cons_append. }
    assert (Hnt : ~ In t rest).
    { pose proof (inv_distinct self H) as Hd. unfold listed in Hd.
      apply NoDup_app_remove_r in Hd. apply (Permutation_NoDup Hpr) in Hd.
      now inversion Hd. }
    apply (Inv_sub self self' [] H); auto.
    + intros r _. apply Hf.
    + apply Forall_forall. intros r Hr. apply Hf.
      apply (proj1 (Forall_forall _ _) (inv_shape self H)).
      apply (Permutation_in _ (Permutation_sym Hl) Hr).
    + apply Forall_forall. intros r Hr. apply (Permutation_in _ Hp) in Hr.
      rewrite (proj2 (proj2 (Hf r))) by congruence.
      apply (proj1 (Forall_forall _ _) (inv_open self H)).
      apply (Permutation_in _ (Permutation_sym Hpr)). now right.
    + rewrite Hcs. apply Forall_app. split.
      * apply Forall_forall. intros r Hr.
        rewrite (proj2 (proj2 (Hf r))).
        -- now apply (proj1 (Forall_forall _ _) (inv_done self H)).
        -- intros ->. apply (NoDup_app_disjoint _ _ t (inv_distinct self H) Hin Hr).
      * constructor; [| constructor]. rewrite Hst, update_same.
        split; [reflexivity | discriminate].
  - destruct (proj1 (Forall_forall _ _) (inv_done self H) t Hin) as [Hc _].
    destruct (toggle_reopen now now' self t (Inv_anchored self H) Hc Hin)
      as (self' & rest & Htog & Hst & Hrem & Hcs & Hid & _ & Hp & _).
    exists self'. split; [exact Htog |].
    destruct (toggle_completion_frame _ _ _ _ _ Htog) as [Hnr _].
    pose proof (remove_perm _ _ _ Hrem) as Hpr.
    pose proof (Hfields _ _ Hst eq_refl eq_refl eq_refl eq_refl) as Hf.
    assert (Hl : Permutation (listed self) ([] ++ listed self')).
    { unfold listed. simpl. rewrite Hcs, Hp, Hpr. rewrite <- app_assoc. reflexivity. }
    assert (Hnt : ~ In t rest).
    { pose proof (inv_distinct self H) as Hd. unfold listed in Hd.
      apply NoDup_app_remove_l in Hd. apply (Permutation_NoDup Hpr) in Hd.
      now inversion Hd. }
    apply (Inv_sub self self' [] H); auto.
    + intros r _. apply Hf.
    + apply Forall_forall. intros r Hr. apply Hf.
      apply (proj1 (Forall_forall _ _) (inv_shape self H)).
      apply (Permutation_in _ (Permutation_sym Hl) Hr).
    + apply (Permutation_Forall (Permutation_sym Hp)). apply Forall_app. split.
      * apply Forall_forall. intros r Hr.
        rewrite (proj2 (proj2 (Hf r))).
        -- now apply (proj1 (Forall_forall _ _) (inv_open self H)).
        -- intros ->. apply (NoDup_app_disjoint _ _ t (inv_distinct self H) Hr Hin).
      * constructor; [| constructor]. rewrite Hst, update_same.
        split; reflexivity.
    + rewrite Hcs. apply Forall_forall. intros r Hr.
      rewrite (proj2 (proj2 (Hf r))) by congruence.
      apply (proj1 (Forall_forall _ _) (inv_done self H)).
      apply (Permutation_in _ (Permutation_sym Hpr)). now right.
Qed.

Lemma Inv_assign_fields (now' : datetime) (self : TodoApp) (t : ref)
    (n : string) (ty : DateType) (d1 d2 : option datetime) :
  Inv self ->
  shape_ok (mk_TodoItem 0 n ty d1 d2 false None 0) ->
  exists self', assign_fields now' self t n ty d1 d2 = Some self' /\ Inv self'.
Proof.
  intros H Hshape. unfold assign_fields. apply Inv_refresh.
  set (v := mk_TodoItem _ n ty d1 d2 _ _ _).
  assert (Hl : Permutation (listed self) ([] ++ listed self)) by reflexivity.
  apply (Inv_sub self _ [] H); simpl; auto.
  - intros r _. unfold update. now destruct (Nat.eqb_spec r t) as [-> | _].
  - apply Forall_forall. intros r Hr. unfold update.
    destruct (Nat.eqb_spec r t) as [-> | _];
      [exact Hshape | now apply (proj1 (Forall_forall _ _) (inv_shape self H))].
  - apply Forall_forall. intros r Hr. unfold update.
    pose proof (proj1 (Forall_forall _ _) (inv_open self H) r Hr) as Ho.
    now destruct (Nat.eqb_spec r t) as [-> | _].
  - apply Forall_forall. intros r Hr. unfold update.
    pose proof (proj1 (Forall_forall _ _) (inv_done self H) r Hr) as Ho.
    now destruct (Nat.eqb_spec r t) as [-> | _].
Qed.

Lemma Inv_edit (now' : datetime) (self : TodoApp) (t : ref) (form : EditForm) :
  Inv self ->
  exists self', save_changes now' self t form = Some self' /\ Inv self'.
Proof.
  intros H. unfold save_changes.
  destruct (String.eqb _ ""); [now exists self |].
  destruct (todo_type_var form).
  - destruct (date_widgets form); try (now exists self).
    destruct (negb _); [now exists self |].
    destruct (parse_datetime _ _) as [d |]; [| now exists self].
    apply Inv_assign_fields; [exact H |]. split; [now exists d | reflexivity].
  - destruct (date_widgets form); try (now exists self).
    destruct (_ || _); [now exists self |].
    destruct (parse_datetime _ _) as [s |]; [| now exists self].
    destruct (parse_datetime _ _) as [e |]; [| now exists self].
    destruct (e <=? s) eqn:E; [now exists self |].
    apply Inv_assign_fields; [exact H |]. exists s, e. repeat split. lia.
  - apply Inv_assign_fields; [exact H |]. split; reflexivity.
Qed.

Lemma Inv_append_new (now' : datetime) (self : TodoApp) (item : TodoItem) :
  Inv self -> is_open item -> shape_ok item -> id item = next_id self ->
  exists self', append_new now' self item = Some self' /\ Inv self'.
Proof.
  intros H Ho Hs Hi. unfold append_new. apply Inv_refresh. now apply Inv_add.
Qed.

Lemma Inv_add_todo_item (now now' : datetime) (self : TodoApp) (form : AddForm) :
  Inv self ->
  exists self', add_todo_item now now' self form = Some self' /\ Inv self'.
Proof.
  intros H. unfold add_todo_item.
  destruct (String.eqb _ ""); [now exists self |].
  destruct (todo_type form).
  - destruct (negb _); [now exists self |].
    destruct (parse_datetime _ _) as [d |]; [| now exists self].
    apply Inv_append_new; auto; [split; reflexivity |].
    split; [now exists d | reflexivity].
  - destruct (_ || _); [now exists self |].
    destruct (parse_datetime _ _) as [s |]; [| now exists self].
    destruct (parse_datetime _ _) as [e |]; [| now exists self].
    destruct (e <=? s) eqn:E; [now exists self |].
    apply Inv_append_new; auto; [split; reflexivity |].
    exists s, e. repeat split. lia.
  - apply Inv_append_new; auto; split; reflexivity.
Qed.

Lemma Inv_run (c : Command) (self : TodoApp) :
  Inv self -> target_listed c self ->
  exists self', run c self = Some self' /\ Inv self'.
Proof.
  intros H Ht. destruct c; simpl in *.
  - now apply Inv_add_todo_item.
  - now apply Inv_edit.
  - now apply Inv_toggle.
  - now apply Inv_delete.
  - now apply (Inv_moves now self t H Ht).
  - now apply (Inv_moves now self t H Ht).
  - now apply Inv_clear.
  - now apply Inv_refresh.
Qed.

(** X1.  Every command on a task of the collection returns and keeps the
    invariant: the tasks of the two lists are distinct objects with
    distinct [id]s below [next_id], a task of the master list is not
    completed and has no completion date, a task of the completed list is
    completed and has one, and the anchors of every task fit its type with
    the end of a long task after its start. *)
Theorem commands_keep_invariant (c : Command) (self : TodoApp) :
  Inv self -> target_listed c self ->
  exists self', run c self = Some self' /\ Inv self'.
Proof. apply Inv_run. Qed.

(** X2.  The invariant holds in every collection a session reaches from
    empty lists by the commands of the main window. *)
Theorem reachable_invariant (self : TodoApp) : reachable self -> Inv self.
Proof.
  induction 1 as [st n | c self self' _ IH Ht Hrun].
  - constructor; simpl; constructor.
  - destruct (Inv_run c self IH Ht) as (s & Hs & Hi). congruence.
Qed.

(* ================================================================= *)
(** ** The report of open tasks and the statistics *)

Lemma shape_open_anchors (it : TodoItem) :
  is_open it -> shape_ok it -> open_anchors it.
Proof.
  intros [Hc _] Hs. split; [exact Hc |]. unfold shape_ok in Hs.
  destruct (date_type it); [now destruct Hs | exact Hs | exact I].
Qed.

Lemma valid_open_anchors (it : TodoItem) : valid_open it = true -> open_anchors it.
Proof.
  unfold valid_open, open_anchors.
  destruct (completed it); [discriminate |]. simpl.
  destruct (date_type it), (date1 it) as [d1 |], (date2 it) as [d2 |];
    intros H; try discriminate; split; eauto.
  apply andb_true_iff in H as [H _]. exists d1, d2. repeat split. lia.
Qed.

Lemma Inv_open_anchors (self : TodoApp) (r : ref) :
  Inv self -> In r (todo_items self) -> open_anchors (store self r).
Proof.
  intros H Hr. apply shape_open_anchors.
  - now apply (proj1 (Forall_forall _ _) (inv_open self H)).
  - apply (proj1 (Forall_forall _ _) (inv_shape self H)).
    apply in_or_app. now left.
Qed.

Lemma Inv_done_shape (self : TodoApp) (r : ref) :
  Inv self -> In r (completed_items self) ->
  is_done (store self r) /\ shape_ok (store self r).
Proof.
  intros H Hr. split.
  - now apply (proj1 (Forall_forall _ _) (inv_done self H)).
  - apply (proj1 (Forall_forall _ _) (inv_shape self H)).
    apply in_or_app. now right.
Qed.

(** The phrase of an open task carries the marker of its section. *)
Lemma pending_status (now : datetime) (it : TodoItem) :
  open_anchors it ->
  exists info, get_time_info now it = Some info /\
    contains "逾期" (snd info) = PendingGroup_eqb (pending_group now it) g_overdue /\
    (contains "逾期" (snd info) = false ->
     contains "距离结束" (snd info)
     = PendingGroup_eqb (pending_group now it) g_ongoing).
Proof.
  intros [Hc Hs].
  unfold get_time_info, pending_group, spec_overdue, spec_ongoing.
  rewrite Hc.
  destruct (date_type it).
  - destruct Hs as [d ->]. simpl. eexists. split; [reflexivity |]. simpl.
    destruct (now <? d) eqn:E1.
    + rewrite until_due_no_overdue, until_due_no_until_end.
      assert (E : (d <? now) = false) by lia. now rewrite E.
    + destruct (d <? now) eqn:E2.
      * now rewrite overdue_has_overdue.
      * split; reflexivity.
  - destruct Hs as (d1 & d2 & -> & -> & Hlt). simpl.
    eexists. split; [reflexivity |]. simpl.
    destruct (now <? d1) eqn:E1.
    + rewrite until_start_no_overdue, until_start_no_until_end.
      assert (E : (d2 <? now) = false) by lia. rewrite E.
      assert (E' : (d1 <=? now) = false) by lia. now rewrite E'.
    + assert (E' : (d1 <=? now) = true) by lia. rewrite E'. simpl.
      destruct (now <=? d2) eqn:E2.
      * rewrite until_end_no_overdue, until_end_has_until_end.
        assert (E : (d2 <? now) = false) by lia. now rewrite E.
      * rewrite overdue_has_overdue.
        assert (E : (d2 <? now) = true) by lia. now rewrite E.
  - simpl. eexists. split; [reflexivity |]. split; reflexivity.
Qed.

Lemma timeless_group (now : datetime) (it : TodoItem) :
  DateType_eqb (date_type it) timeless
  = PendingGroup_eqb (pending_group now it) g_timeless.
Proof.
  unfold pending_group. destruct (date_type it); simpl; try reflexivity;
    destruct (spec_overdue now it); try reflexivity;
    now destruct (spec_ongoing now it).
Qed.

(** The grouping loop of the report puts every task in the section of its
    anchors, in the order of the master list. *)
Lemma export_pending_groups_filter (now : datetime) (self : TodoApp) (l : list ref) :
  (forall r, In r l -> open_anchors (store self r)) ->
  export_pending_groups now (with_todo_items self l)
  = Some (mk_PendingGroups
            (pending_in now self g_overdue l) (pending_in now self g_ongoing l)
            (pending_in now self g_upcoming l) (pending_in now self g_timeless l)).
Proof.
  unfold export_pending_groups. simpl.
  induction l as [| r l IH] using rev_ind; intros H; [reflexivity |].
  rewrite fold_left_app.
  rewrite IH by (intros; apply H, in_or_app; now left).
  destruct (pending_status now (store self r)) as (info & Hi & H1 & H2).
  { apply H, in_or_app. right. now left. }
  cbn [fold_left bind]. rewrite Hi. cbn [bind].
  unfold pending_in. rewrite !filter_app. cbn [filter].
  rewrite (timeless_group now). rewrite H1.
  destruct (pending_group now (store self r)) eqn:Hg; simpl in *;
    try rewrite (H2 H1); rewrite ?app_nil_r; reflexivity.
Qed.

(** The counting loop of the statistics, in the sections of the report:
    an instant task that is not overdue is counted as ongoing. *)
Lemma pending_stats_counts (now : datetime) (self : TodoApp) (l : list ref) :
  (forall r, In r l -> open_anchors (store self r)) ->
  get_pending_task_stats now (with_todo_items self l)
  = Some (mk_PendingStats
            (List.length (of_type self long (pending_in now self g_upcoming l)))
            (List.length (pending_in now self g_ongoing l)
             + List.length (of_type self instant (pending_in now self g_upcoming l)))
            (List.length (pending_in now self g_overdue l))
            (List.length (pending_in now self g_timeless l))).
Proof.
  unfold get_pending_task_stats. simpl.
  induction l as [| r l IH] using rev_ind; intros H; [reflexivity |].
  rewrite fold_left_app.
  rewrite IH by (intros; apply H, in_or_app; now left).
  destruct (H r) as [Hc Hs]; [apply in_or_app; right; now left |].
  cbn [fold_left bind]. rewrite Hc.
  unfold of_type, pending_in. rewrite !filter_app. cbn [filter].
  unfold pending_group, spec_overdue, spec_ongoing.
  destruct (date_type (store self r)) eqn:Hty.
  - destruct Hs as [d Hd]. rewrite Hd. cbn [bind].
    destruct (d <? now); simpl; rewrite ?Hty; simpl;
      rewrite ?app_nil_r, ?filter_app, ?length_app; simpl;
      rewrite ?Hty; simpl; rewrite ?length_app; simpl;
      f_equal; f_equal; lia.
  - destruct Hs as (d1 & d2 & Hd1 & Hd2 & Hlt). rewrite Hd1, Hd2. cbn [bind].
    destruct (now <? d1) eqn:E1.
    + assert (E : (d2 <? now) = false) by lia. rewrite E.
      assert (E' : (d1 <=? now) = false) by lia. rewrite E'. simpl.
      rewrite ?app_nil_r, ?filter_app, ?length_app; simpl.
      rewrite ?Hty; simpl; rewrite ?length_app; simpl.
      f_equal; f_equal; lia.
    + assert (E' : (d1 <=? now) = true) by lia. rewrite E'. simpl.
      destruct (now <=? d2) eqn:E2.
      * assert (E : (d2 <? now) = false) by lia. rewrite E. simpl.
        rewrite ?app_nil_r, ?filter_app, ?length_app; simpl.
        f_equal; f_equal; lia.
      * assert (E : (d2 <? now) = true) by lia. rewrite E. simpl.
        rewrite ?app_nil_r, ?filter_app, ?length_app; simpl.
        f_equal; f_equal; lia.
  - simpl. rewrite ?app_nil_r, ?length_app. simpl. f_equal; f_equal; lia.
Qed.

Lemma filter_none {A} (p : A -> bool) (l : list A) :
  Forall (fun x => p x = false) l -> filter p l = [].
Proof.
  induction 1 as [| x l Hx _ IH]; [reflexivity |]. simpl. now rewrite Hx.
Qed.

Lemma Permutation_filter {A} (p : A -> bool) (l l' : list A) :
  Permutation l l' -> Permutation (filter p l) (filter p l').
Proof.
  induction 1 as [| x l l' _ IH | x y l | l l' l'' _ IH1 _ IH2]; simpl.
  - constructor.
  - destruct (p x); [now constructor | exact IH].
  - destruct (p x), (p y); try reflexivity. constructor.
  - now transitivity (filter p l').
Qed.

(** The four sections hold every task of the list once. *)
Lemma pending_sections_perm (now : datetime) (self : TodoApp) (l : list ref) :
  Permutation
    (pending_in now self g_overdue l ++ pending_in now self g_ongoing l ++
     pending_in now self g_upcoming l ++ pending_in now self g_timeless l) l.
Proof.
  unfold pending_in. induction l as [| r l IH]; [constructor |].
  cbn [filter].
  destruct (pending_group now (store self r)); simpl.
  - now constructor.
  - rewrite <- Permutation_middle. now constructor.
  - rewrite app_assoc, <- Permutation_middle, <- app_assoc. now constructor.
  - rewrite !app_assoc, <- Permutation_middle, <- !app_assoc. now constructor.
Qed.

(** A list sorted by section is the four sections one after the other. *)
Lemma sorted_sections (now : datetime) (self : TodoApp) (l : list ref) :
  StronglySorted
    (fun a b => (group_rank (pending_group now (store self a))
                 <= group_rank (pending_group now (store self b)))%nat) l ->
  l = pending_in now self g_overdue l ++ pending_in now self g_ongoing l ++
      pending_in now self g_upcoming l ++ pending_in now self g_timeless l.
Proof.
  unfold pending_in.
  induction 1 as [| r l _ IH Hall]; [reflexivity |].
  cbn [filter].
  assert (Hnone : forall g, (group_rank g < group_rank (pending_group now (store self r)))%nat ->
            filter (fun x => PendingGroup_eqb (pending_group now (store self x)) g) l = []).
  { intros g Hg. apply filter_none. apply Forall_forall. intros x Hx.
    pose proof (proj1 (Forall_forall _ _) Hall x Hx) as Hle. simpl in Hle.
    destruct (pending_group now (store self x)), g; try reflexivity;
      simpl in *; lia. }
  destruct (pending_group now (store self r)); simpl.
  - now rewrite <- IH.
  - rewrite (Hnone g_overdue) by (simpl; lia). simpl.
    rewrite (Hnone g_overdue) in IH by (simpl; lia). simpl in IH. now rewrite <- IH.
  - rewrite (Hnone g_overdue), (Hnone g_ongoing) by (simpl; lia). simpl.
    rewrite (Hnone g_overdue), (Hnone g_ongoing) in IH by (simpl; lia).
    simpl in IH. now rewrite <- IH.
  - rewrite (Hnone g_overdue), (Hnone g_ongoing), (Hnone g_upcoming) by (simpl; lia).
    simpl.
    rewrite (Hnone g_overdue), (Hnone g_ongoing), (Hnone g_upcoming) in IH
      by (simpl; lia).
    simpl in IH. now rewrite <- IH.
Qed.

Lemma StronglySorted_impl_in {A} (R R' : A -> A -> Prop) (l : list A) :
  (forall a b, In a l -> In b l -> R a b -> R' a b) ->
  StronglySorted R l -> StronglySorted R' l.
Proof.
  intros H Hs. induction Hs as [| x l Hs IH Hall]; constructor.
  - apply IH. intros a b Ha Hb. apply H; now right.
  - apply Forall_forall. intros y Hy. apply H; [now left | now right |].
    now apply (proj1 (Forall_forall _ _) Hall).
Qed.

(** The section of a task grows with its sort key. *)
Lemma key_order_rank (now : datetime) (a b : TodoItem) :
  valid_open a = true -> valid_open b = true ->
  key_lt (priority now b) (priority now a) = false ->
  (group_rank (pending_group now a) <= group_rank (pending_group now b))%nat.
Proof.
  intros Ha Hb. rewrite !priority_spec by assumption. intros Hk.
  destruct (Nat.leb_spec (group_rank (pending_group now a))
              (group_rank (pending_group now b))) as [| Hlt]; [assumption |].
  exfalso.
  assert (Htier : forall it, spec_tier now it
            = match pending_group now it with
              | g_overdue => 0 | g_ongoing => 1 | _ => 2 end).
  { intros it. unfold spec_tier, pending_group, spec_overdue, spec_ongoing.
    destruct (date_type it); try reflexivity;
      repeat match goal with |- context [if ?c then _ else _] => destruct c end;
      reflexivity. }
  assert (Hless : key_lt (spec_key now b) (spec_key now a) = true);
    [| congruence].
  destruct (pending_group now a) eqn:Hga, (pending_group now b) eqn:Hgb;
    simpl in Hlt; try lia;
    try (apply tier_lt_key_lt; rewrite !Htier, Hga, Hgb; lia).
  apply timed_lt_timeless; auto.
  - now rewrite Htier, Hgb.
  - intros Hty. unfold pending_group in Hgb. now rewrite Hty in Hgb.
  - unfold pending_group in Hga. destruct (date_type a); try reflexivity;
      destruct (spec_overdue now a); try discriminate;
      destruct (spec_ongoing now a); discriminate.
Qed.

(** X3.  The report of open tasks files every task under the section of
    its anchors (overdue: the due moment or the end has passed; ongoing:
    inside the span of a long task; timeless; upcoming: the rest), each
    section in the order of the master list, and every task of the master
    list is in exactly one section. *)
Theorem pending_report_sections (now : datetime) (self : TodoApp) :
  Inv self ->
  exists g,
    export_pending_groups now self = Some g /\
    overdue_tasks g = pending_in now self g_overdue (todo_items self) /\
    ongoing_tasks g = pending_in now self g_ongoing (todo_items self) /\
    upcoming_tasks g = pending_in now self g_upcoming (todo_items self) /\
    timeless_pending g = pending_in now self g_timeless (todo_items self) /\
    Permutation
      (overdue_tasks g ++ ongoing_tasks g ++ upcoming_tasks g ++ timeless_pending g)
      (todo_items self).
Proof.
  intros H.
  pose proof (export_pending_groups_filter now self (todo_items self)
                (fun r Hr => Inv_open_anchors self r H Hr)) as E.
  change (export_pending_groups now (with_todo_items self (todo_items self)))
    with (export_pending_groups now self) in E.
  eexists. split; [exact E |]. simpl. repeat split.
  apply pending_sections_perm.
Qed.

(** X4.  The statistics of open tasks agree with the report on the
    overdue and the timeless tasks; [not_started] counts the upcoming long
    tasks only, and [ongoing] counts the upcoming instant tasks together
    with the ongoing long ones.  The four counters add up to the length of
    the master list. *)
Theorem pending_stats_match_report (now : datetime) (self : TodoApp) :
  Inv self ->
  exists stats g,
    get_pending_task_stats now self = Some stats /\
    export_pending_groups now self = Some g /\
    overdue stats = List.length (overdue_tasks g) /\
    timeless_open stats = List.length (timeless_pending g) /\
    not_started stats = List.length (of_type self long (upcoming_tasks g)) /\
    ongoing stats = (List.length (ongoing_tasks g)
                     + List.length (of_type self instant (upcoming_tasks g)))%nat /\
    (not_started stats + ongoing stats + overdue stats + timeless_open stats
     = List.length (todo_items self))%nat.
Proof.
  intros H.
  pose proof (export_pending_groups_filter now self (todo_items self)
                (fun r Hr => Inv_open_anchors self r H Hr)) as E.
  pose proof (pending_stats_counts now self (todo_items self)
                (fun r Hr => Inv_open_anchors self r H Hr)) as S.
  change (export_pending_groups now (with_todo_items self (todo_items self)))
    with (export_pending_groups now self) in E.
  change (get_pending_task_stats now (with_todo_items self (todo_items self)))
    with (get_pending_task_stats now self) in S.
  eexists. eexists. split; [exact S |]. split; [exact E |]. simpl.
  repeat split.
  rewrite <- (Permutation_length (pending_sections_perm now self (todo_items self))).
  rewrite !length_app.
  assert (Hup : forall l,
            (List.length (of_type self long l) + List.length (of_type self instant l)
             + List.length (of_type self timeless l) = List.length l)%nat).
  { intros l. unfold of_type. induction l as [| r l IH]; [reflexivity |].
    simpl. destruct (date_type (store self r)); simpl; lia. }
  assert (Hnot : of_type self timeless
                   (pending_in now self g_upcoming (todo_items self)) = []).
  { unfold of_type, pending_in. apply filter_none. apply Forall_forall.
    intros r Hr. apply filter_In in Hr as [_ Hr]. unfold pending_group in Hr.
    now destruct (date_type (store self r)). }
  pose proof (Hup (pending_in now self g_upcoming (todo_items self))) as Hu.
  rewrite Hnot in Hu. simpl in Hu. lia.
Qed.

(** X5.  On a master list in display order the report of open tasks reads
    as the list does: the overdue tasks, then the ongoing ones, then the
    upcoming ones, then the timeless ones make up the master list. *)
Theorem pending_report_in_display_order (now : datetime) (self : TodoApp) :
  Forall (fun r => valid_open (store self r) = true) (todo_items self) ->
  display_ordered now self ->
  exists g,
    export_pending_groups now self = Some g /\
    todo_items self
    = overdue_tasks g ++ ongoing_tasks g ++ upcoming_tasks g ++ timeless_pending g.
Proof.
  intros Hv Hs.
  pose proof (proj1 (Forall_forall _ _) Hv) as Hv'.
  pose proof (export_pending_groups_filter now self (todo_items self)
                (fun r Hr => valid_open_anchors _ (Hv' r Hr))) as E.
  change (export_pending_groups now (with_todo_items self (todo_items self)))
    with (export_pending_groups now self) in E.
  eexists. split; [exact E |]. simpl.
  apply sorted_sections.
  apply (StronglySorted_impl_in _ _ _ (fun a b Ha Hb =>
           key_order_rank now (store self a) (store self b) (Hv' a Ha) (Hv' b Hb)) Hs).
Qed.

(* ================================================================= *)
(** ** The report of completed tasks and the statistics *)

Lemma done_bucket (it : TodoItem) :
  is_done it -> shape_ok it -> exists b, completion_bucket it = Some b.
Proof.
  intros [_ Hcd] Hs. unfold completion_bucket. unfold shape_ok in Hs.
  destruct (completed_date it) as [cd |]; [| congruence].
  destruct (date_type it).
  - destruct Hs as [[d ->] _]. simpl.
    repeat match goal with |- context [if ?c then _ else _] => destruct c end; eauto.
  - destruct Hs as (d1 & d2 & _ & -> & _). simpl.
    repeat match goal with |- context [if ?c then _ else _] => destruct c end; eauto.
  - eauto.
Qed.

Lemma export_groups_fold (self : TodoApp) (l : list ref) :
  (forall r, In r l -> is_done (store self r) /\ shape_ok (store self r)) ->
  fold_left (fun acc r => let* g := acc in
                          let* b := completion_bucket (store self r) in
                          Some (append_to g b r))
            l (Some (mk_ExportGroups [] [] [] []))
  = Some (mk_ExportGroups (bucket_in self OnTime l) (bucket_in self Early l)
            (bucket_in self Late l) (bucket_in self Timeless l)).
Proof.
  induction l as [| r l IH] using rev_ind; intros H; [reflexivity |].
  rewrite fold_left_app.
  rewrite IH by (intros; apply H, in_or_app; now left).
  destruct (H r) as [Hd Hs]; [apply in_or_app; right; now left |].
  destruct (done_bucket _ Hd Hs) as [b Hb].
  cbn [fold_left bind]. rewrite Hb. cbn [bind].
  unfold bucket_in. rewrite !filter_app. cbn [filter]. rewrite Hb.
  destruct b; simpl; rewrite ?app_nil_r; reflexivity.
Qed.

Lemma completed_stats_counts (self : TodoApp) (l : list ref) :
  (forall r, In r l -> is_done (store self r) /\ shape_ok (store self r)) ->
  fold_left
    (fun acc r =>
       let* stats := acc in
       let item := store self r in
       if negb (completed item) || negb (is_some_date (completed_date item))
       then Some stats
       else
         let* b := completion_bucket item in
         Some (count_bucket stats b))
    l (Some (mk_CompletedStats 0 0 0 0))
  = Some (mk_CompletedStats
            (List.length (bucket_in self OnTime l))
            (List.length (bucket_in self Early l))
            (List.length (bucket_in self Late l))
            (List.length (bucket_in self Timeless l))).
Proof.
  induction l as [| r l IH] using rev_ind; intros H; [reflexivity |].
  rewrite fold_left_app.
  rewrite IH by (intros; apply H, in_or_app; now left).
  destruct (H r) as [Hd Hs]; [apply in_or_app; right; now left |].
  destruct (done_bucket _ Hd Hs) as [b Hb].
  destruct Hd as [Hc Hcd].
  cbn [fold_left bind]. rewrite Hc, Hb.
  destruct (completed_date (store self r)); [| congruence]. cbn [bind negb orb is_some_date].
  unfold bucket_in. rewrite !filter_app, !length_app. cbn [filter]. rewrite Hb.
  destruct b; simpl; f_equal; f_equal; lia.
Qed.

Lemma bucket_in_perm (self : TodoApp) (l : list ref) :
  Permutation
    (bucket_in self OnTime l ++ bucket_in self Early l ++
     bucket_in self Late l ++ bucket_in self Timeless l)
    (filter (fun r => is_some (completion_bucket (store self r))) l).
Proof.
  unfold bucket_in. induction l as [| r l IH]; [constructor |].
  cbn [filter].
  destruct (completion_bucket (store self r)) as [[| | |] |]; simpl.
  - now constructor.
  - rewrite <- Permutation_middle. now constructor.
  - rewrite app_assoc, <- Permutation_middle, <- app_assoc. now constructor.
  - rewrite !app_assoc, <- Permutation_middle, <- !app_assoc. now constructor.
  - exact IH.
Qed.

(** X6.  The statistics of completed tasks and the report of completed
    tasks classify alike: each counter is the length of the list of the
    report (on time: within six hours of the due moment, either side), the
    report holds every completed task in exactly one list, and the four
    counters add up to the length of the completed list. *)
Theorem completed_stats_match_report (self : TodoApp) :
  Inv self ->
  exists stats g,
    get_completed_task_stats self = Some stats /\
    export_groups self = Some g /\
    on_time stats = List.length (on_time_tasks g) /\
    early stats = List.length (early_tasks g) /\
    late stats = List.length (late_tasks g) /\
    timeless_done stats = List.length (timeless_tasks g) /\
    Permutation (on_time_tasks g ++ early_tasks g ++ late_tasks g ++ timeless_tasks g)
      (completed_items self).
Proof.
  intros H.
  pose proof (fun r Hr => Inv_done_shape self r H Hr) as Hdone.
  unfold get_completed_task_stats, export_groups.
  set (completed_sorted := list_sort _ _ (completed_items self)).
  assert (Hp : Permutation completed_sorted (completed_items self))
    by apply list_sort_perm.
  eexists. eexists.
  split; [exact (completed_stats_counts self _ Hdone) |].
  split.
  { apply (export_groups_fold self completed_sorted).
    intros r Hr. apply Hdone. apply (Permutation_in _ Hp Hr). }
  simpl.
  unfold bucket_in.
  repeat split; try (apply Permutation_length, Permutation_filter;
                     now apply Permutation_sym).
  etransitivity; [apply bucket_in_perm |].
  etransitivity; [apply Permutation_filter, Hp |].
  assert (Hall : filter (fun r => is_some (completion_bucket (store self r)))
                   (completed_items self) = completed_items self).
  { apply forallb_filter_id. apply forallb_forall. intros r Hr.
    destruct (Hdone r Hr) as [Hd Hs].
    now destruct (done_bucket _ Hd Hs) as [b ->]. }
  now rewrite Hall.
Qed.

(* ================================================================= *)
(** ** Saving and loading *)

Lemma optional_date_strftime (o : option datetime) :
  Forall storable (match o with Some d => [d] | None => [] end) ->
  optional_date (option_map (strftime "%Y-%m-%d %H:%M") o)
  = Some (option_map minute_floor o).
Proof.
  destruct o as [d |]; [| reflexivity]. intros H.
  inversion H as [| ? ? [Hne Hrt] _]; subst. simpl.
  destruct (String.eqb_spec (strftime "%Y-%m-%d %H:%M" d) "") as [E | _];
    [contradiction |].
  now rewrite Hrt.
Qed.

Lemma from_dict_to_dict (it : TodoItem) :
  Forall storable (dates_of it) ->
  from_dict (to_dict it) = Some (map_dates minute_floor it).
Proof.
  unfold dates_of. intros H.
  apply Forall_app in H as [H1 H]. apply Forall_app in H as [H2 H].
  apply Forall_app in H as [H3 H4].
  inversion H4 as [| ? ? [_ Hrt] _]; subst.
  unfold from_dict, to_dict. cbn [d_id d_note d_date_type d_date1 d_date2
    d_completed d_completed_date d_created_date bind].
  rewrite !optional_date_strftime by assumption. cbn [bind].
  now rewrite Hrt.
Qed.

Lemma mapM_from_dict (l : list TodoItem) :
  Forall (fun it => Forall storable (dates_of it)) l ->
  mapM from_dict (map to_dict l) = Some (map (map_dates minute_floor) l).
Proof.
  induction 1 as [| it l Hit _ IH]; [reflexivity |].
  simpl. rewrite (from_dict_to_dict it Hit). simpl. now rewrite IH.
Qed.

(** The objects of a list comprehension are new, hold the items in order
    and leave the older objects alone. *)
Lemma allocate_spec (items : list TodoItem) (st : ref -> TodoItem) (next : ref) :
  exists st',
    allocate st next items
    = (st', (next + List.length items)%nat, seq next (List.length items)) /\
    map st' (seq next (List.length items)) = items /\
    (forall r, (r < next)%nat -> st' r = st r).
Proof.
  revert st next. induction items as [| it items IH]; intros st next.
  - exists st. simpl. rewrite Nat.add_0_r. auto.
  - destruct (IH (update st next it) (S next)) as (st' & E & Hm & Hold).
    exists st'. simpl. rewrite E.
    replace (S next + List.length items)%nat
      with (next + S (List.length items))%nat by lia.
    split; [reflexivity |]. split.
    + rewrite Hm. rewrite (Hold next) by lia. now rewrite update_same.
    + intros r Hr. rewrite Hold by lia. unfold update.
      destruct (Nat.eqb_spec r next); [lia | reflexivity].
Qed.

Lemma max_id_bound (st : ref -> TodoItem) (others : list ref) (first : ref) :
  Forall (fun r => id (st r) <= max_id st first others) (first :: others).
Proof.
  unfold max_id.
  assert (H : forall l m, m <= fold_left (fun m r => Z.max m (id (st r))) l m /\
            Forall (fun r => id (st r)
                             <= fold_left (fun m r => Z.max m (id (st r))) l m) l).
  { induction l as [| r l IH]; intros m; simpl; [split; [lia | constructor] |].
    destruct (IH (Z.max m (id (st r)))) as [H1 H2]. split; [lia |].
    constructor; [lia | exact H2]. }
  destruct (H others (id (st first))) as [H1 H2]. now constructor.
Qed.

Lemma max_id_in (st : ref -> TodoItem) (others : list ref) (first : ref) :
  exists r, In r (first :: others) /\ max_id st first others = id (st r).
Proof.
  unfold max_id. revert first.
  induction others as [| r l IH] using rev_ind; intros first.
  - exists first. simpl. auto.
  - rewrite fold_left_app. simpl.
    destruct (IH first) as (x & Hx & E). rewrite E.
    destruct (Z.max_spec (id (st x)) (id (st r))) as [[_ ->] | [_ ->]].
    + exists r. split; [| reflexivity]. right. apply in_or_app. right. now left.
    + exists x. split; [| reflexivity].
      destruct Hx as [-> | Hx]; [now left | right; apply in_or_app; now left].
Qed.

(** Loading what [save_data] wrote gives back the two lists in order,
    every task with the seconds of its dates dropped, and [next_id]. *)
Lemma load_saved (self0 self : TodoApp) :
  Inv self ->
  Forall (fun r => Forall storable (dates_of (store self r))) (listed self) ->
  exists self',
    load_data self0 (json (save_data self)) = (self', false) /\
    items_of self' (todo_items self')
    = map (map_dates minute_floor) (items_of self (todo_items self)) /\
    items_of self' (completed_items self')
    = map (map_dates minute_floor) (items_of self (completed_items self)) /\
    NoDup (listed self') /\
    Forall (fun r => (r < next_ref self')%nat) (listed self') /\
    next_id self' = next_id self.
Proof.
  intros H Hst. unfold listed in Hst. apply Forall_app in Hst as [Ht Hc].
  unfold load_data, save_data, items_of.
  cbn [j_todo_items j_completed_items j_next_id].
  rewrite <- (map_map (store self) to_dict (todo_items self)).
  rewrite <- (map_map (store self) to_dict (completed_items self)).
  rewrite !mapM_from_dict by (now apply Forall_map).
  set (items1 := map (map_dates minute_floor) (map (store self) (todo_items self))).
  set (items2 := map (map_dates minute_floor) (map (store self) (completed_items self))).
  destruct (allocate_spec items1 (store self0) (next_ref self0)) as (st1 & E1 & M1 & _).
  rewrite E1.
  destruct (allocate_spec items2 st1 (next_ref self0 + List.length items1)%nat)
    as (st2 & E2 & M2 & Hold2).
  rewrite E2.
  assert (M1' : map st2 (seq (next_ref self0) (List.length items1)) = items1).
  { rewrite <- M1 at 2. apply map_ext_in. intros r Hr. apply Hold2.
    apply in_seq in Hr. lia. }
  eexists. split; [reflexivity |].
  unfold listed. cbn [store todo_items completed_items next_id next_ref].
  split; [exact M1' |]. split; [exact M2 |].
  rewrite <- seq_app.
  split; [apply seq_NoDup |].
  split; [apply Forall_forall; intros r Hr; apply in_seq in Hr; lia |].
  rewrite seq_app.
  set (todo := seq (next_ref self0) (List.length items1)) in *.
  set (done := seq (next_ref self0 + List.length items1) (List.length items2)) in *.
  match goal with
  | |- match ?l with _ => _ end = _ => destruct l as [| r rs] eqn:Hall
  end; [reflexivity |].
  destruct (max_id_in st2 rs r) as (x & Hx & ->).
  assert (Hid : In (id (st2 x)) (map (fun r => id (store self r)) (listed self))).
  { unfold ref in *. rewrite <- Hall in Hx. unfold listed. rewrite map_app.
    apply in_app_or in Hx as [Hx | Hx]; apply in_or_app; [left | right].
    - apply (in_map st2) in Hx. rewrite M1' in Hx. unfold items1 in Hx.
      rewrite map_map in Hx. apply in_map_iff in Hx as (z & <- & Hz). simpl.
      apply in_map_iff. now exists z.
    - apply (in_map st2) in Hx. rewrite M2 in Hx. unfold items2 in Hx.
      rewrite map_map in Hx. apply in_map_iff in Hx as (z & <- & Hz). simpl.
      apply in_map_iff. now exists z. }
  apply in_map_iff in Hid as (z & Hz & Hin).
  pose proof (proj1 (Forall_forall _ _) (inv_next_id self H) z Hin) as Hlt.
  simpl in Hlt. lia.
Qed.

(** X8.  After a load that shows no warning, [next_id] is above the [id]
    of every task of the two lists and not below the [next_id] of the
    file. *)
Theorem load_data_fresh_next_id (self self' : TodoApp) (data : DataDict) :
  load_data self (json data) = (self', false) ->
  Forall (fun r => id (store self' r) < next_id self') (listed self') /\
  match j_next_id data with Some n => n | None => 1 end <= next_id self'.
Proof.
  unfold load_data.
  destruct (mapM from_dict _) as [items1 |]; [| discriminate].
  destruct (allocate (store self) (next_ref self) items1) as [[st1 next1] todo].
  destruct (mapM from_dict _) as [items2 |]; [| discriminate].
  destruct (allocate st1 next1 items2) as [[st2 next2] done].
  intros [= <-]. unfold listed. cbn [store todo_items completed_items next_id].
  match goal with
  | |- context [match ?l with _ => _ end] => destruct l as [| r rs]
  end; [split; [constructor | lia] |].
  split; [| lia].
  pose proof (max_id_bound st2 rs r) as Hb.
  apply (Forall_impl _ (P := fun x => id (st2 x) <= max_id st2 r rs)); [| exact Hb].
  intros x Hx. lia.
Qed.

Lemma mapM_none {A B} (f : A -> option B) (l : list A) :
  mapM f l = None <-> Exists (fun x => f x = None) l.
Proof.
  induction l as [| x l IH]; simpl.
  - split; [discriminate | intros H; inversion H].
  - destruct (f x) eqn:E; simpl.
    + destruct (mapM f l); simpl.
      * split; [discriminate |]. intros H.
        inversion H as [? ? Hx | ? ? Hl]; subst; [congruence |].
        apply IH in Hl. discriminate.
      * split; [| reflexivity]. intros _. right. now apply IH.
    + split; [| reflexivity]. intros _. now left.
Qed.

(** X9.  Loading a JSON file shows the warning exactly when one of its
    records cannot be read.  When the record is in the list of open tasks
    the collection stays as it was. *)
Theorem load_data_warning (self : TodoApp) (data : DataDict) :
  let open_records := match j_todo_items data with Some l => l | None => [] end in
  let done_records := match j_completed_items data with Some l => l | None => [] end in
  (snd (load_data self (json data)) = true <->
   Exists (fun d => from_dict d = None) (open_records ++ done_records)) /\
  (Exists (fun d => from_dict d = None) open_records ->
   load_data self (json data) = (self, true)).
Proof.
  intros open_records done_records. unfold load_data.
  fold open_records. fold done_records. rewrite Exists_app, <- !mapM_none.
  destruct (mapM from_dict open_records) as [items1 |].
  - destruct (allocate (store self) (next_ref self) items1) as [[st1 next1] todo].
    destruct (mapM from_dict done_records) as [items2 |].
    + destruct (allocate st1 next1 items2) as [[st2 next2] done]. simpl.
      split; [| discriminate]. split; [discriminate | intros [H | H]; discriminate].
    + simpl. split; [| discriminate]. split; auto.
  - simpl. split; [| reflexivity]. split; auto.
Qed.

(* ================================================================= *)
(** ** Accounts *)

(** X10.  A registration is accepted exactly when the name has at least
    3 characters, the password at least 6, the name is free and the users
    file could be written.  Whatever the answer, the accounts that existed
    keep their records and the logged-in user stays. *)
Theorem register_validates (now : datetime) (save_ok : bool) (self : UserManager)
    (username pw : string) :
  let self' := fst (register now save_ok self username pw) in
  (fst (snd (register now save_ok self username pw)) = true <->
   3 <= py_len username /\ 6 <= py_len pw /\ users self username = None /\
   save_ok = true) /\
  (forall u r, users self u = Some r -> users self' u = Some r) /\
  current_user self' = current_user self.
Proof.
  unfold register.
  destruct (String.eqb_spec username "") as [-> | Hu]; simpl.
  { split; [| auto]. split; [discriminate | intros [H _]; simpl in H; lia]. }
  destruct (String.eqb_spec pw "") as [-> | Hp]; simpl.
  { split; [| auto]. split; [discriminate | intros (_ & H & _); simpl in H; lia]. }
  destruct (py_len username <? 3) eqn:E1; simpl.
  { split; [| auto]. split; [discriminate | intros [H _]; lia]. }
  destruct (py_len pw <? 6) eqn:E2; simpl.
  { split; [| auto]. split; [discriminate | intros (_ & H & _); lia]. }
  destruct (users self username) as [u0 |] eqn:E3; simpl.
  { split; [| auto]. split; [discriminate | intros (_ & _ & H & _); discriminate]. }
  assert (Hkeep : forall u r, users self u = Some r ->
            set_user (users self) username
              (mk_UserRecord (sha256_hexdigest pw)
                 (strftime "%Y-%m-%d %H:%M:%S" now) None) u = Some r).
  { intros u r Hr. unfold set_user.
    destruct (String.eqb_spec u username) as [-> | _]; [congruence | exact Hr]. }
  destruct save_ok; simpl; (split; [| auto]).
  - split; [intros _ | reflexivity]. repeat split; lia.
  - split; [discriminate | intros (_ & _ & _ & H); discriminate].
Qed.

(** X11.  An account exists from the moment [register] has passed its
    checks, also when the users file could not be written and the answer
    was a failure: the user can log in with the password, and the name is
    taken for a second registration. *)
Theorem register_then_login (now now' : datetime) (save_ok save_ok' : bool)
    (self : UserManager) (username pw pw' : string) :
  3 <= py_len username -> 6 <= py_len pw -> 6 <= py_len pw' ->
  users self username = None ->
  let self1 := fst (register now save_ok self username pw) in
  snd (login now' self1 username pw) = (true, "登录成功") /\
  current_user (fst (login now' self1 username pw)) = Some username /\
  register now' save_ok' self1 username pw' = (self1, (false, "用户名已存在")).
Proof.
  intros H1 H2 H3 Hfree.
  assert (Hu : String.eqb username "" = false).
  { destruct (String.eqb_spec username "") as [-> | _]; [simpl in H1; lia | reflexivity]. }
  assert (Hp : forall p, 6 <= py_len p -> String.eqb p "" = false).
  { intros p Hl. destruct (String.eqb_spec p "") as [-> | _];
      [simpl in Hl; lia | reflexivity]. }
  assert (E1 : (py_len username <? 3) = false) by lia.
  assert (E2 : (py_len pw <? 6) = false) by lia.
  assert (E3 : (py_len pw' <? 6) = false) by lia.
  assert (Hreg : exists msg,
            register now save_ok self username pw
            = ({| users := set_user (users self) username
                             (mk_UserRecord (sha256_hexdigest pw)
                                (strftime "%Y-%m-%d %H:%M:%S" now) None);
                  current_user := current_user self;
                  remembered_user := remembered_user self |}, msg)).
  { unfold register. rewrite Hu, (Hp pw H2), E1, E2, Hfree. simpl.
    destruct save_ok; eauto. }
  destruct Hreg as [msg ->]. cbn [fst].
  unfold login, register. cbn [users]. rewrite Hu, (Hp pw H2), (Hp pw' H3), E1, E3.
  assert (Hs : forall us v, set_user us username v username = Some v)
    by (intros; unfold set_user; now rewrite String.eqb_refl).
  rewrite !Hs. cbn [orb password is_some_user]. rewrite String.eqb_refl. simpl. auto.
Qed.

(** X12.  A login succeeds exactly when the name and the password are
    not empty and the hash of the password is the one stored for the name.
    A refused login changes nothing; an accepted one makes the name the
    current user, writes [last_login] of that account and leaves its other
    fields and every other account as they were. *)
Theorem login_checks_password (now : datetime) (self : UserManager)
    (username pw : string) :
  let self' := fst (login now self username pw) in
  (fst (snd (login now self username pw)) = true <->
   username <> "" /\ pw <> "" /\
   exists u, users self username = Some u /\ password u = sha256_hexdigest pw) /\
  (fst (snd (login now self username pw)) = false -> self' = self) /\
  (fst (snd (login now self username pw)) = true ->
   current_user self' = Some username /\
   remembered_user self' = remembered_user self /\
   (forall v, v <> username -> users self' v = users self v) /\
   exists u, users self username = Some u /\
             users self' username
             = Some (mk_UserRecord (password u) (created_at u)
                       (Some (strftime "%Y-%m-%d %H:%M:%S" now)))).
Proof.
  unfold login.
  destruct (String.eqb_spec username "") as [-> | Hu]; simpl.
  { split; [| split; [reflexivity | discriminate]].
    split; [discriminate | intros [H _]; congruence]. }
  destruct (String.eqb_spec pw "") as [-> | Hp]; simpl.
  { split; [| split; [reflexivity | discriminate]].
    split; [discriminate | intros (_ & H & _); congruence]. }
  destruct (users self username) as [u |] eqn:E.
  - destruct (String.eqb_spec (password u) (sha256_hexdigest pw)) as [Hh | Hh]; simpl.
    + split; [| split; [discriminate |]].
      * split; [intros _ | reflexivity]. repeat split; auto. now exists u.
      * intros _. split; [reflexivity |]. split; [reflexivity |]. split.
        -- intros v Hv. unfold set_user.
           destruct (String.eqb_spec v username); [contradiction | reflexivity].
        -- exists u. split; [reflexivity |]. unfold set_user.
           now rewrite String.eqb_refl.
    + split; [| split; [reflexivity | discriminate]].
      split; [discriminate |]. intros (_ & _ & u' & [= <-] & H). contradiction.
  - simpl. split; [| split; [reflexivity | discriminate]].
    split; [discriminate |]. intros (_ & _ & u' & H & _). discriminate.
Qed.

Lemma append_inj_l (a x y : string) : (a ++ x = a ++ y)%string -> x = y.
Proof. induction a as [| c a IH]; simpl; [auto |]. intros [= H]. auto. Qed.

Lemma append_length (x y : string) :
  String.length (x ++ y) = (String.length x + String.length y)%nat.
Proof. induction x as [| c x IH]; simpl; [reflexivity | now rewrite IH]. Qed.

Lemma append_inj_r (x y b : string) : (x ++ b = y ++ b)%string -> x = y.
Proof.
  revert y. induction x as [| c x IH]; intros [| d y] H; simpl in H.
  - reflexivity.
  - apply (f_equal String.length) in H. simpl in H. rewrite append_length in H. lia.
  - apply (f_equal String.length) in H. simpl in H. rewrite append_length in H. lia.
  - injection H as -> H. f_equal. auto.
Qed.

(** X13.  Two users never share a data file, and the file of a logged-in
    user is never the file used without a login. *)
Theorem user_data_files_distinct (self self' : UserManager) (u v : string) :
  current_user self = Some u -> current_user self' = Some v ->
  u <> "" -> v <> "" ->
  (get_user_data_file self = get_user_data_file self' -> u = v) /\
  get_user_data_file self <> get_user_data_file (logout self).
Proof.
  intros Hu Hv Hne Hne'. unfold get_user_data_file, logout. rewrite Hu, Hv. simpl.
  destruct (String.eqb_spec u "") as [| _]; [contradiction |].
  destruct (String.eqb_spec v "") as [| _]; [contradiction |].
  split.
  - intros H. injection H as H. now apply append_inj_r in H.
  - simpl. destruct u; discriminate.
Qed.

Lemma days_le_7 (now t : datetime) :
  (days (datetime_sub now t) <=? 7) = (now - t <? 8 * 86400 * 1000000).
Proof.
  unfold datetime_sub. cbn [days].
  change (86400 * 1000000) with 86400000000.
  change (8 * 86400 * 1000000) with 691200000000.
  destruct (Z.leb_spec ((now - t) / 86400000000) 7),
    (Z.ltb_spec (now - t) 691200000000); try reflexivity;
    exfalso; Z.div_mod_to_equations; lia.
Qed.

(** X14.  A remembered login is given back with its name and password
    until eight days have passed since the second it was stored, and not
    after; the automatic login is then the login with that name and
    password, and is refused without any change once the eight days have
    passed or after [forget_user]. *)
Theorem remembered_login_window (now t0 t0' : datetime) (self : UserManager)
    (username pw : string) :
  strptime_seconds (strftime "%Y-%m-%d %H:%M:%S" t0) = Some t0' ->
  b64decode (b64encode pw) = Some pw ->
  username <> "" -> pw <> "" ->
  let remembering := remember_user t0 self username pw in
  get_remembered_user now remembering
  = (if now - t0' <? 8 * 86400 * 1000000 then Some (username, pw) else None) /\
  auto_login now remembering
  = (if now - t0' <? 8 * 86400 * 1000000 then login now remembering username pw
     else (remembering, (false, "无记住的登录信息"))) /\
  auto_login now (forget_user remembering)
  = (forget_user remembering, (false, "无记住的登录信息")).
Proof.
  intros Ht Hb Hu Hp remembering.
  assert (E : get_remembered_user now remembering
              = if now - t0' <? 8 * 86400 * 1000000 then Some (username, pw) else None).
  { unfold get_remembered_user, remembering, remember_user.
    cbn [remembered_user r_timestamp r_password r_username bind].
    rewrite Ht. cbn [bind]. rewrite days_le_7.
    destruct (now - t0' <? 8 * 86400 * 1000000); [| reflexivity].
    now rewrite Hb. }
  split; [exact E |]. split; [| reflexivity].
  unfold auto_login. rewrite E.
  destruct (now - t0' <? 8 * 86400 * 1000000); [| reflexivity].
  destruct (String.eqb_spec username "") as [| _]; [contradiction |].
  destruct (String.eqb_spec pw "") as [| _]; [contradiction |].
  reflexivity.
Qed.

(* ================================================================= *)
(** ** The [id]s along a session *)

Lemma ids_kept_old (self self' : TodoApp) :
  next_id self <= next_id self' ->
  (forall r, In r (listed self') ->
             In r (listed self) /\ id (store self' r) = id (store self r)) ->
  ids_kept self self'.
Proof.
  intros Hn H. split; [exact Hn |]. apply Forall_forall. intros r Hr. left. auto.
Qed.

Lemma ids_kept_refresh (now : datetime) (self mid self' : TodoApp) :
  ids_kept self mid -> refresh_display now mid = Some self' -> ids_kept self self'.
Proof.
  intros [Hn Hall] Hr.
  apply refresh_display_frame in Hr as (Hst & Hcs & Hni & _ & Hp).
  split; [lia |]. rewrite Hst.
  assert (Hl : Permutation (listed mid) (listed self')).
  { unfold listed. rewrite Hcs. apply Permutation_app_tail. now symmetry. }
  apply (Permutation_Forall Hl Hall).
Qed.

Lemma update_id (st : ref -> TodoItem) (t : ref) (v : TodoItem) (r : ref) :
  id v = id (st t) -> id (update st t v r) = id (st r).
Proof.
  intros H. unfold update. now destruct (Nat.eqb_spec r t) as [-> | _].
Qed.

Lemma remove_subset (x : ref) (l rest : list ref) (r : ref) :
  remove x l = Some rest -> In r rest -> In r l.
Proof.
  intros H Hr. apply remove_perm in H.
  apply (Permutation_in _ (Permutation_sym H)). now right.
Qed.

Lemma moves_frame (now : datetime) (self : TodoApp) (t : ref) :
  Inv self -> In t (listed self) ->
  forall self',
    move_to_top now self t = Some self' \/ move_up_item now self t = Some self' ->
    store self' = store self /\ next_id self' = next_id self /\
    Permutation (listed self') (listed self).
Proof.
  intros H Hin self' Hrun.
  assert (Hfr : store self' = store self /\ next_id self' = next_id self /\
                completed_items self' = completed_items self).
  { destruct Hrun as [Hrun | Hrun];
      [apply move_to_top_frame in Hrun | apply move_up_item_frame in Hrun];
      destruct Hrun as (? & _ & ? & ?); auto. }
  destruct Hfr as (Hst & Hni & Hcs). split; [exact Hst |]. split; [exact Hni |].
  unfold listed. rewrite Hcs. apply Permutation_app_tail.
  apply in_app_or in Hin as [Hin | Hin].
  - assert (Hnd : NoDup (todo_items self)).
    { pose proof (inv_distinct self H) as Hd. unfold listed in Hd.
      now apply NoDup_app_remove_r in Hd. }
    assert (Hc : completed (store self t) = false)
      by (apply (proj1 (Forall_forall _ _) (inv_open self H) t Hin)).
    destruct (moves_return now self t Hnd (Inv_anchored self H) Hin Hc)
      as (top & up & Htop & Hup & Hp & Hp').
    destruct Hrun as [Hrun | Hrun]; [assert (top = self') by congruence
                                    | assert (up = self') by congruence];
      now subst.
  - assert (Hc : completed (store self t) = true)
      by (apply (proj1 (Forall_forall _ _) (inv_done self H) t Hin)).
    unfold move_to_top, move_up_item, get_same_group_items in Hrun.
    rewrite Hc in Hrun. simpl in Hrun.
    destruct Hrun as [[= <-] | [= <-]]; reflexivity.
Qed.

Lemma ids_kept_run (c : Command) (self self' : TodoApp) :
  Inv self -> target_listed c self -> run c self = Some self' ->
  ids_kept self self'.
Proof.
  intros H Ht Hrun.
  assert (Hrefl : ids_kept self self)
    by (apply ids_kept_old; [lia | auto]).
  destruct c; simpl in Ht, Hrun.
  - (* add *)
    assert (Hnew : forall item, id item = next_id self ->
              append_new now' self item = Some self' -> ids_kept self self').
    { intros item Hid Hr. unfold append_new in Hr.
      apply (fun K => ids_kept_refresh _ _ _ _ K Hr).
      split; [simpl; lia |]. apply Forall_forall. unfold listed. simpl.
      intros r Hr'.
      assert (Hcase : r = next_ref self \/ In r (listed self)).
      { unfold listed. rewrite <- app_assoc in Hr'.
        apply in_app_or in Hr' as [Hr' | Hr']; [right; apply in_or_app; now left |].
        destruct Hr' as [<- | Hr']; [now left | right; apply in_or_app; now right]. }
      destruct Hcase as [-> | Hin].
      - right. rewrite update_same. lia.
      - left. split; [exact Hin |]. unfold update.
        pose proof (proj1 (Forall_forall _ _) (inv_refs self H) r Hin) as Hlt.
        simpl in Hlt. destruct (Nat.eqb_spec r (next_ref self)); [lia | reflexivity]. }
    revert Hrun. unfold add_todo_item.
    destruct (String.eqb _ ""); [now intros [= <-] |].
    destruct (todo_type form).
    + destruct (negb _); [now intros [= <-] |].
      destruct (parse_datetime _ _); [| now intros [= <-]]. now apply Hnew.
    + destruct (_ || _); [now intros [= <-] |].
      destruct (parse_datetime _ _); [| now intros [= <-]].
      destruct (parse_datetime _ _); [| now intros [= <-]].
      destruct (_ <=? _); [now intros [= <-] |]. now apply Hnew.
    + now apply Hnew.
  - (* edit *)
    assert (Hset : forall n ty d1 d2,
              assign_fields now' self t n ty d1 d2 = Some self' -> ids_kept self self').
    { intros n ty d1 d2 Hr. unfold assign_fields in Hr.
      apply (fun K => ids_kept_refresh _ _ _ _ K Hr).
      apply ids_kept_old; [simpl; lia |]. unfold listed. simpl.
      intros r Hr'. split; [exact Hr' |]. now apply update_id. }
    revert Hrun. unfold save_changes.
    destruct (String.eqb _ ""); [now intros [= <-] |].
    destruct (todo_type_var form).
    + destruct (date_widgets form); try (now intros [= <-]).
      destruct (negb _); [now intros [= <-] |].
      destruct (parse_datetime _ _); [| now intros [= <-]]. apply Hset.
    + destruct (date_widgets form); try (now intros [= <-]).
      destruct (_ || _); [now intros [= <-] |].
      destruct (parse_datetime _ _); [| now intros [= <-]].
      destruct (parse_datetime _ _); [| now intros [= <-]].
      destruct (_ <=? _); [now intros [= <-] |]. apply Hset.
    + apply Hset.
  - (* toggle *)
    revert Hrun. unfold toggle_completion.
    destruct (negb (completed (store self t))).
    + destruct (remove t (todo_items self)) as [rest |] eqn:Hrem; [| discriminate].
      simpl. intros Hr. apply (fun K => ids_kept_refresh _ _ _ _ K Hr).
      apply ids_kept_old; [simpl; lia |]. unfold listed. simpl.
      intros r Hr'. split; [| now apply update_id].
      apply in_app_or in Hr' as [Hr' | Hr'].
      * apply in_or_app. left. apply (remove_subset _ _ _ _ Hrem Hr').
      * apply in_app_or in Hr' as [Hr' | [<- | []]];
          [apply in_or_app; now right | exact Ht].
    + destruct (remove t (completed_items self)) as [rest |] eqn:Hrem; [| discriminate].
      simpl. intros Hr. apply (fun K => ids_kept_refresh _ _ _ _ K Hr).
      apply ids_kept_old; [simpl; lia |]. unfold listed. simpl.
      intros r Hr'. split; [| now apply update_id].
      apply in_app_or in Hr' as [Hr' | Hr'].
      * apply in_app_or in Hr' as [Hr' | [<- | []]];
          [apply in_or_app; now left | exact Ht].
      * apply in_or_app. right. apply (remove_subset _ _ _ _ Hrem Hr').
  - (* delete *)
    revert Hrun. unfold delete_item.
    destruct confirmed; [| now intros [= <-]].
    destruct (ref_in t (completed_items self)).
    + destruct (remove t (completed_items self)) as [rest |] eqn:Hrem; [| discriminate].
      simpl. intros Hr. apply (fun K => ids_kept_refresh _ _ _ _ K Hr).
      apply ids_kept_old; [simpl; lia |]. unfold listed. simpl.
      intros r Hr'. split; [| reflexivity].
      apply in_app_or in Hr' as [Hr' | Hr']; apply in_or_app; [now left | right].
      apply (remove_subset _ _ _ _ Hrem Hr').
    + destruct (ref_in t (todo_items self)).
      * destruct (remove t (todo_items self)) as [rest |] eqn:Hrem; [| discriminate].
        simpl. intros Hr. apply (fun K => ids_kept_refresh _ _ _ _ K Hr).
        apply ids_kept_old; [simpl; lia |]. unfold listed. simpl.
        intros r Hr'. split; [| reflexivity].
        apply in_app_or in Hr' as [Hr' | Hr']; apply in_or_app; [left | now right].
        apply (remove_subset _ _ _ _ Hrem Hr').
      * simpl. intros Hr. now apply (ids_kept_refresh _ _ _ _ Hrefl Hr).
  - (* move_to_top *)
    destruct (moves_frame now self t H Ht self' (or_introl Hrun)) as (Hst & Hni & Hp).
    apply ids_kept_old; [lia |]. rewrite Hst. intros r Hr. split; [| reflexivity].
    apply (Permutation_in r Hp Hr).
  - (* move_up *)
    destruct (moves_frame now self t H Ht self' (or_intror Hrun)) as (Hst & Hni & Hp).
    apply ids_kept_old; [lia |]. rewrite Hst. intros r Hr. split; [| reflexivity].
    apply (Permutation_in r Hp Hr).
  - (* clear *)
    revert Hrun. unfold clear_completed.
    destruct (completed_items self) as [| x cs] eqn:Ec; [now intros [= <-] |].
    assert (Hmid : ids_kept self
              {| store := store self; next_ref := next_ref self;
                 todo_items := todo_items self; completed_items := [];
                 next_id := next_id self |}).
    { apply ids_kept_old; [simpl; lia |]. unfold listed. simpl.
      rewrite app_nil_r. intros r Hr. split; [| reflexivity].
      apply in_or_app. now left. }
    destruct choice; intros Hr;
      [ now apply (ids_kept_refresh _ _ _ _ Hmid Hr)
      | now apply (ids_kept_refresh _ _ _ _ Hmid Hr)
      | now injection Hr as <- ].
  - (* refresh *)
    now apply (ids_kept_refresh _ _ _ _ Hrefl Hrun).
Qed.

(** X15.  No command hands out an [id] twice: [next_id] never goes down,
    and every task of the collection after a command either was in the
    collection before with the same [id], or has an [id] that [next_id] had
    not yet passed (with the invariant, an [id] no task ever had, deleted
    and cleared ones included). *)
Theorem ids_never_reused (c : Command) (self self' : TodoApp) :
  Inv self -> target_listed c self -> run c self = Some self' ->
  ids_kept self self'.
Proof. apply ids_kept_run. Qed.

(* ================================================================= *)
(** ** Completing, reopening, deleting and clearing *)

(** X16.  Completing an open task and reopening it gives back every
    field of every task and the completed list; the master list holds the
    same tasks, in the order of the refresh.  In between the task is
    completed at the clock reading, stands at the end of the completed list
    and is out of the master list. *)
Theorem complete_then_reopen (now1 now1' now2 now2' : datetime)
    (self : TodoApp) (t : ref) :
  Inv self -> In t (todo_items self) ->
  let t0 := store self t in
  exists s1 s2,
    toggle_completion now1 now1' self t = Some s1 /\
    store s1 t = mk_TodoItem (id t0) (note t0) (date_type t0) (date1 t0) (date2 t0)
                   true (Some now1) (created_date t0) /\
    completed_items s1 = completed_items self ++ [t] /\
    ~ In t (todo_items s1) /\
    toggle_completion now2 now2' s1 t = Some s2 /\
    (forall r, store s2 r = store self r) /\
    completed_items s2 = completed_items self /\
    Permutation (todo_items s2) (todo_items self) /\
    next_id s2 = next_id self.
Proof.
  intros H Hin t0.
  destruct (proj1 (Forall_forall _ _) (inv_open self H) t Hin) as [Hc Hcd].
  destruct (toggle_complete now1 now1' self t (Inv_anchored self H) Hc Hin)
    as (s1 & rest & Htog & Hst & Hrem & Hp & Hcs & Hid & Ha1).
  pose proof (remove_perm _ _ _ Hrem) as Hpr.
  assert (Hnt : ~ In t rest).
  { pose proof (inv_distinct self H) as Hd. unfold listed in Hd.
    apply NoDup_app_remove_r in Hd. apply (Permutation_NoDup Hpr) in Hd.
    now inversion Hd. }
  assert (Hntc : ~ In t (completed_items self)).
  { intros Hx. apply (NoDup_app_disjoint _ _ t (inv_distinct self H) Hin Hx). }
  assert (Hc1 : completed (store s1 t) = true) by (now rewrite Hst, update_same).
  assert (Hin1 : In t (completed_items s1))
    by (rewrite Hcs; apply in_or_app; right; now left).
  destruct (toggle_reopen now2 now2' s1 t Ha1 Hc1 Hin1)
    as (s2 & rest' & Htog2 & Hst2 & Hrem2 & Hcs2 & Hid2 & _ & Hp2 & _).
  rewrite Hcs in Hrem2. rewrite (remove_app_notin t _ [] Hntc) in Hrem2.
  rewrite app_nil_r in Hrem2. injection Hrem2 as <-.
  exists s1, s2. split; [exact Htog |].
  split; [now rewrite Hst, update_same |]. split; [exact Hcs |].
  split; [intros Hx; apply Hnt, (Permutation_in _ Hp Hx) |].
  split; [exact Htog2 |]. split; [| split; [exact Hcs2 | split; [| lia]]].
  - intros r. rewrite Hst2, Hst. unfold update.
    destruct (Nat.eqb_spec r t) as [-> | _]; [| reflexivity].
    rewrite Nat.eqb_refl. simpl. unfold t0.
    destruct (store self t); simpl in *. now subst.
  - rewrite Hp2, Hp, Hpr. symmetry. apply Permutation_cons_append.
Qed.

(** X17.  A confirmed deletion takes exactly the task out of the
    collection, and a clearing that is not cancelled empties the completed
    list and keeps the tasks of the master list; neither changes a field of
    any task.  Declined, both leave the collection as it is. *)
Theorem removal_frame (now' : datetime) (self : TodoApp) (t : ref)
    (choice : ClearChoice) :
  Inv self -> In t (listed self) -> choice <> cancel_clear ->
  (exists self',
     delete_item true now' self t = Some self' /\
     store self' = store self /\
     ~ In t (listed self') /\
     Permutation (listed self) (t :: listed self')) /\
  (exists self',
     clear_completed choice now' self = Some self' /\
     store self' = store self /\
     completed_items self' = [] /\
     Permutation (todo_items self') (todo_items self)) /\
  delete_item false now' self t = Some self /\
  clear_completed cancel_clear now' self = Some self.
Proof.
  intros H Hin Hch.
  assert (Hout : forall self', Permutation (listed self) (t :: listed self') ->
                               ~ In t (listed self')).
  { intros self' Hp Hx. pose proof (inv_distinct self H) as Hd.
    apply (Permutation_NoDup Hp) in Hd. now inversion Hd. }
  split; [| split; [| split]].
  - destruct (Inv_delete true now' self t H) as (self' & Hdel & _).
    exists self'. split; [exact Hdel |].
    revert Hdel. unfold delete_item.
    destruct (ref_in t (completed_items self)) eqn:Ec.
    + destruct (remove t (completed_items self)) as [rest |] eqn:Hrem; [| discriminate].
      simpl. intros Hr.
      apply refresh_display_frame in Hr as (Hst & Hcs & _ & _ & Hp).
      simpl in *. apply remove_perm in Hrem.
      assert (Hl : Permutation (listed self) (t :: listed self')).
      { unfold listed. rewrite Hcs, Hp, Hrem. symmetry. apply Permutation_middle. }
      auto.
    + destruct (ref_in t (todo_items self)) eqn:Et.
      * destruct (remove t (todo_items self)) as [rest |] eqn:Hrem; [| discriminate].
        simpl. intros Hr.
        apply refresh_display_frame in Hr as (Hst & Hcs & _ & _ & Hp).
        simpl in *. apply remove_perm in Hrem.
        assert (Hl : Permutation (listed self) (t :: listed self')).
        { unfold listed. rewrite Hcs, Hp, Hrem. reflexivity. }
        auto.
      * exfalso. apply in_app_or in Hin as [Hx | Hx]; apply ref_in_iff in Hx; congruence.
  - destruct (Inv_clear choice now' self H) as (self' & Hcl & _).
    exists self'. split; [exact Hcl |].
    revert Hcl. unfold clear_completed.
    destruct (completed_items self) as [| x cs] eqn:Ec.
    + intros [= <-]. auto.
    + destruct choice; [| | contradiction]; intros Hr;
        apply refresh_display_frame in Hr as (Hst & Hcs & _ & _ & Hp); auto.
  - reflexivity.
  - unfold clear_completed. now destruct (completed_items self).
Qed.

(* ================================================================= *)
(** ** Phrases of open tasks *)

Lemma elapsed_magnitude (pre : string) (a b : datetime) :
  elapsed pre (total_seconds (datetime_sub a b)) (days (datetime_sub a b))
  = spec_magnitude pre (a - b).
Proof.
  rewrite total_seconds_sub, days_sub. reflexivity.
Qed.

(** X18.  The phrase of an open task gives the distance with its floor:
    whole minutes under an hour, whole hours under a day, whole days
    otherwise, before and after the due moment alike. *)
Theorem open_task_phrase (now : datetime) (it : TodoItem) :
  open_anchors it ->
  exists date_str week_day,
    get_time_info now it = Some (date_str, week_day, spec_open_phrase now it).
Proof.
  intros [Hc Hs]. unfold get_time_info, spec_open_phrase. rewrite Hc.
  destruct (date_type it).
  - destruct Hs as [d ->]. simpl. rewrite !elapsed_magnitude. eauto.
  - destruct Hs as (d1 & d2 & -> & -> & Hlt). simpl. rewrite !elapsed_magnitude.
    destruct (now <? d1) eqn:E1; [eauto |].
    assert (E : (d1 <=? now) = true) by lia. rewrite E. simpl. eauto.
  - destruct (date1 it), (date2 it); eauto.
Qed.

(** X19.  An open instant task reads "due today" only at the very
    microsecond of its due moment: at any other time of that day the phrase
    is a distance. *)
Theorem due_today_only_at_due_moment (now due : datetime) (it : TodoItem) :
  completed it = false -> date_type it = instant -> date1 it = Some due ->
  ((exists date_str week_day,
      get_time_info now it = Some (date_str, week_day, "今天到期"))
   <-> now = due).
Proof.
  intros Hc Hty Hd.
  destruct (open_task_phrase now it) as (ds & wd & E).
  { split; [exact Hc |]. rewrite Hty. now exists due. }
  rewrite E. unfold spec_open_phrase. rewrite Hty, Hd.
  split.
  - intros (ds' & wd' & [= _ _ Hs]). revert Hs.
    destruct (now <? due) eqn:E1; [| destruct (due <? now) eqn:E2; [| lia]];
      intros Hs; exfalso; revert Hs; unfold spec_magnitude, phrase;
      repeat match goal with |- context [if ?b then _ else _] => destruct b end;
      simpl; discriminate.
  - intros ->. rewrite !Z.ltb_irrefl. eauto.
Qed.

(* ================================================================= *)
(** ** The time entry *)

Lemma contains_colon_cons (c : ascii) (s : string) :
  contains ":" (String c s) = Ascii.eqb c ":" || contains ":" s.
Proof.
  cbn [contains startswith]. rewrite Ascii.eqb_sym.
  destruct s; now rewrite andb_true_r.
Qed.

Lemma split_nonempty (s : string) : split ":" s <> [].
Proof.
  induction s as [| c s IH]; simpl; [discriminate |].
  destruct (Ascii.eqb c ":"); [discriminate |].
  destruct (split ":" s); [contradiction | discriminate].
Qed.

(** One part: no separator. *)
Lemma split_one (s b : string) :
  split ":" s = [b] <-> s = b /\ contains ":" s = false.
Proof.
  revert b. induction s as [| c s IH]; intros b.
  - simpl. split; [intros [= <-]; auto | intros [<- _]; reflexivity].
  - rewrite contains_colon_cons. simpl.
    destruct (Ascii.eqb c ":") eqn:E.
    + split; [| intros [_ H]; discriminate].
      intros [= _ H]. now apply split_nonempty in H.
    + simpl. destruct (split ":" s) as [| w ws] eqn:Es;
        [now apply split_nonempty in Es |].
      split.
      * intros [= <- ->]. destruct (proj1 (IH w) eq_refl) as [-> H]. auto.
      * intros [<- H]. pose proof (proj2 (IH s) (conj eq_refl H)) as E0.
        injection E0 as <- <-. reflexivity.
Qed.

(** Two parts: exactly one separator. *)
Lemma split_two (s a b : string) :
  split ":" s = [a; b] <->
  s = (a ++ ":" ++ b)%string /\ contains ":" a = false /\ contains ":" b = false.
Proof.
  revert a. induction s as [| c s IH]; intros a.
  - simpl. split; [discriminate |]. intros [H _]. destruct a; discriminate.
  - simpl. destruct (Ascii.eqb_spec c ":") as [-> | Hc].
    + split.
      * intros [= <- H]. apply split_one in H as [-> H]. auto.
      * intros (H & Ha & Hb). destruct a as [| x a].
        -- simpl in H. injection H as ->.
           now rewrite (proj2 (split_one b b) (conj eq_refl Hb)).
        -- simpl in H. injection H as <- _.
           rewrite contains_colon_cons, Ascii.eqb_refl in Ha. discriminate.
    + destruct (split ":" s) as [| w ws] eqn:Es;
        [now apply split_nonempty in Es |].
      split.
      * intros [= <- ->]. destruct (proj1 (IH w) eq_refl) as (-> & Hw & Hb).
        split; [reflexivity |]. split; [| exact Hb].
        rewrite contains_colon_cons, Hw.
        destruct (Ascii.eqb_spec c ":"); [contradiction | reflexivity].
      * intros (H & Ha & Hb). destruct a as [| x a].
        -- simpl in H. injection H as -> _. contradiction.
        -- simpl in H. injection H as <- ->.
           rewrite contains_colon_cons in Ha. apply orb_false_iff in Ha as [_ Ha].
           pose proof (proj2 (IH a) (conj eq_refl (conj Ha Hb))) as E0.
           injection E0 as <- <-. reflexivity.
Qed.

Lemma contains_colon_app (a b : string) : contains ":" (a ++ ":" ++ b) = true.
Proof.
  induction a as [| c a IH].
  - simpl. destruct b; reflexivity.
  - change ((String c a ++ ":" ++ b)%string) with (String c (a ++ ":" ++ b)%string).
    rewrite contains_colon_cons, IH. apply orb_true_r.
Qed.

(** X20.  A time entry is accepted exactly when it has one colon with an
    hour from 0 to 23 before it and a minute from 0 to 59 after it, both
    read by [int]. *)
Theorem validate_time_format_accepts (time_str : string) :
  validate_time_format time_str = true <->
  exists hour minute h m,
    time_str = (hour ++ ":" ++ minute)%string /\
    contains ":" hour = false /\ contains ":" minute = false /\
    py_int hour = Some h /\ 0 <= h <= 23 /\
    py_int minute = Some m /\ 0 <= m <= 59.
Proof.
  unfold validate_time_format. split.
  - destruct (contains ":" time_str); [| discriminate].
    destruct (split ":" time_str) as [| hour [| minute [| x l]]] eqn:Es;
      try discriminate.
    apply split_two in Es as (-> & Ha & Hb).
    destruct (py_int hour) as [h |] eqn:Eh; [| discriminate].
    destruct ((0 <=? h) && (h <=? 23)) eqn:Erh; [| discriminate].
    destruct (py_int minute) as [m |] eqn:Em; [| discriminate].
    intros Erm. exists hour, minute, h, m. repeat split; auto; lia.
  - intros (hour & minute & h & m & -> & Ha & Hb & Eh & Hh & Em & Hm).
    rewrite contains_colon_app.
    rewrite (proj2 (split_two _ hour minute) (conj eq_refl (conj Ha Hb))).
    rewrite Eh.
    assert (E : (0 <=? h) && (h <=? 23) = true) by lia. rewrite E, Em. lia.
Qed.

(* ================================================================= *)
(** ** Closing and starting again *)

Lemma has_anchors_map_dates (f : datetime -> datetime) (it : TodoItem) :
  has_anchors (map_dates f it) = has_anchors it.
Proof.
  unfold has_anchors, map_dates. simpl.
  now destruct (date_type it), (date1 it), (date2 it).
Qed.

(** The sort key does not read [created_date], and whole minutes stay. *)
Lemma priority_map_dates (now : datetime) (it : TodoItem) :
  is_open it -> whole_minutes it ->
  priority now (map_dates minute_floor it) = priority now it.
Proof.
  intros [Hc Hcd] [H1 H2]. destruct it as [i n ty d1 d2 c cd cr].
  simpl in *. subst. unfold map_dates. simpl. rewrite H1, H2. reflexivity.
Qed.

(** X7.  Saving a collection and starting the application on what was
    saved gives back both lists and [next_id], every task with its fields
    and with the seconds of its dates dropped, without a warning.  The
    completed list is in its order; the master list holds the same tasks in
    display order, which is the order it had when it was in display order
    and its anchors are at whole minutes.  The dates are those the data
    file can hold ([storable]). *)
Theorem restart_restores_collection (now : datetime) (self0 self : TodoApp) :
  Inv self ->
  Forall (fun r => Forall storable (dates_of (store self r))) (listed self) ->
  exists self',
    initialize_application now self0 (json (save_data self)) = Some (self', false) /\
    Permutation (items_of self' (todo_items self'))
      (map (map_dates minute_floor) (items_of self (todo_items self))) /\
    items_of self' (completed_items self')
    = map (map_dates minute_floor) (items_of self (completed_items self)) /\
    next_id self' = next_id self /\
    (Forall (fun r => whole_minutes (store self r)) (todo_items self) ->
     display_ordered now self ->
     items_of self' (todo_items self')
     = map (map_dates minute_floor) (items_of self (todo_items self))).
Proof.
  intros H Hst. unfold initialize_application.
  destruct (load_saved {| store := store self0; next_ref := next_ref self0;
                          todo_items := []; completed_items := []; next_id := 1 |}
              self H Hst) as (self1 & -> & Ht & Hc & _ & _ & Hid).
  unfold items_of in *.
  assert (Hanch : anchored self1).
  { split; apply Forall_forall; intros r Hr; apply (in_map (store self1)) in Hr;
      [rewrite Ht in Hr | rewrite Hc in Hr];
      rewrite map_map in Hr; apply in_map_iff in Hr as (x & <- & Hx);
      rewrite has_anchors_map_dates; apply shape_ok_has_anchors;
      apply (proj1 (Forall_forall _ _) (inv_shape self H));
      apply in_or_app; [now left | now right]. }
  rewrite (refresh_display_sorts now self1 Hanch). cbn [bind].
  eexists. split; [reflexivity |].
  cbn [with_todo_items store todo_items completed_items next_id].
  split; [| split; [exact Hc | split; [exact Hid |]]].
  - rewrite <- Ht. apply Permutation_map, list_sort_perm.
  - intros Hwm Hdo. rewrite <- Ht. f_equal.
    apply list_sort_sorted_id.
    apply (sorted_map (store self1)
             (fun x y => key_lt (priority now y) (priority now x) = false)).
    rewrite Ht, map_map.
    apply (sorted_map (fun r => map_dates minute_floor (store self r))
             (fun x y => key_lt (priority now y) (priority now x) = false)).
    apply (StronglySorted_impl_in
             (fun a b => key_lt (priority now (store self b))
                                (priority now (store self a)) = false));
      [| exact Hdo].
    intros a b Ha Hb Hab.
    rewrite !priority_map_dates; auto;
      try (apply (proj1 (Forall_forall _ _) (inv_open self H)); assumption);
      apply (proj1 (Forall_forall _ _) Hwm); assumption.
Qed.

(* ================================================================= *)
(** ** Sessions *)

Lemma target_ok_listed (c : Command) (self : TodoApp) :
  target_ok c self = true -> target_listed c self.
Proof.
  destruct c; simpl; auto; apply ref_in_iff.
Qed.

Lemma run_session_reachable (cs : list Command) (self self' : TodoApp) :
  reachable self -> run_session cs self = Some self' -> reachable self'.
Proof.
  revert self. induction cs as [| c cs IH]; intros self Hr; simpl.
  - now intros [= <-].
  - destruct (target_ok c self) eqn:Et; [| discriminate].
    destruct (run c self) as [s |] eqn:E; [| discriminate]. simpl.
    apply IH. apply (reach_step c self s Hr (target_ok_listed _ _ Et) E).
Qed.

(* ================================================================= *)
(** ** Adding a task *)

Lemma append_new_effect (now' : datetime) (self : TodoApp) (item : TodoItem) :
  Inv self -> is_open item -> shape_ok item -> id item = next_id self ->
  exists self',
    append_new now' self item = Some self' /\
    next_id self' = next_id self + 1 /\
    Permutation (todo_items self') (next_ref self :: todo_items self) /\
    completed_items self' = completed_items self /\
    store self' (next_ref self) = item /\
    (forall r, r <> next_ref self -> store self' r = store self r).
Proof.
  intros H Ho Hs Hi.
  destruct (Inv_append_new now' self item H Ho Hs Hi) as (self' & E & _).
  exists self'. split; [exact E |].
  unfold append_new in E.
  apply refresh_display_frame in E as (Hst & Hcs & Hni & _ & Hp). simpl in *.
  split; [exact Hni |]. split.
  - rewrite Hp. symmetry. apply Permutation_cons_append.
  - split; [exact Hcs |]. rewrite Hst. split; [apply update_same |].
    intros r Hr. unfold update.
    destruct (Nat.eqb_spec r (next_ref self)); [contradiction | reflexivity].
Qed.

(** X21.  [add_todo_item] returns; when the entries are accepted it adds
    exactly one task, open, with the stripped note, the chosen type, the
    [id] that [next_id] held and the clock reading as [created_date],
    advances [next_id] by one and changes no other task and no completed
    task; otherwise it leaves the collection as it is.  A blank note is
    never accepted, a timeless task with a note always. *)
Theorem add_accepts_exactly (now now' : datetime) (self : TodoApp) (form : AddForm) :
  Inv self ->
  exists self',
    add_todo_item now now' self form = Some self' /\
    ((add_accepted form /\
      next_id self' = next_id self + 1 /\
      Permutation (todo_items self') (next_ref self :: todo_items self) /\
      completed_items self' = completed_items self /\
      (let it := store self' (next_ref self) in
       id it = next_id self /\ note it = strip (note_text form) /\
       date_type it = todo_type form /\ is_open it /\ created_date it = now) /\
      (forall r, r <> next_ref self -> store self' r = store self r))
     \/ (~ add_accepted form /\ self' = self)).
Proof.
  intros H. unfold add_todo_item, add_accepted.
  destruct (String.eqb_spec (strip (note_text form)) "") as [En | En].
  { exists self. split; [reflexivity |]. right. split; [| reflexivity].
    intros [Hn _]. contradiction. }
  assert (Hnew : forall ty d1 d2,
            shape_ok (new_TodoItem now (next_id self) (strip (note_text form)) ty d1 d2) ->
            exists self',
              append_new now' self
                (new_TodoItem now (next_id self) (strip (note_text form)) ty d1 d2)
              = Some self' /\
              next_id self' = next_id self + 1 /\
              Permutation (todo_items self') (next_ref self :: todo_items self) /\
              completed_items self' = completed_items self /\
              (let it := store self' (next_ref self) in
               id it = next_id self /\ note it = strip (note_text form) /\
               date_type it = ty /\ is_open it /\ created_date it = now) /\
              (forall r, r <> next_ref self -> store self' r = store self r)).
  { intros ty d1 d2 Hs.
    assert (Ho : is_open (new_TodoItem now (next_id self) (strip (note_text form))
                            ty d1 d2)) by (split; reflexivity).
    destruct (append_new_effect now' self _ H Ho Hs eq_refl)
      as (self' & E & Hni & Hp & Hcs & Hit & Hold).
    exists self'. repeat (split; [assumption |]). split; [| exact Hold].
    cbv zeta. rewrite Hit. repeat split. }
  destruct (todo_type form).
  - destruct (validate_time_format (strip (time_entry form))) eqn:Ev; simpl.
    + destruct (parse_datetime _ _) as [d |] eqn:Ep.
      * destruct (Hnew instant (Some d) None) as (self' & E & Hrest).
        { split; [now exists d | reflexivity]. }
        exists self'. split; [exact E |]. left. split; [| exact Hrest].
        split; [exact En |]. split; [reflexivity | now exists d].
      * exists self. split; [reflexivity |]. right. split; [| reflexivity].
        intros (_ & _ & d & Hd). discriminate.
    + exists self. split; [reflexivity |]. right. split; [| reflexivity].
      intros (_ & Hv & _). discriminate.
  - destruct (validate_time_format (strip (start_time_entry form))) eqn:Ev1; simpl.
    2: { exists self. split; [reflexivity |]. right. split; [| reflexivity].
         intros (_ & Hv & _). discriminate. }
    destruct (validate_time_format (strip (end_time_entry form))) eqn:Ev2; simpl.
    2: { exists self. split; [reflexivity |]. right. split; [| reflexivity].
         intros (_ & _ & Hv & _). discriminate. }
    destruct (parse_datetime (strip (start_date_entry form)) _) as [s |] eqn:Es.
    2: { exists self. split; [reflexivity |]. right. split; [| reflexivity].
         intros (_ & _ & _ & s & e & Hs & _). discriminate. }
    destruct (parse_datetime (strip (end_date_entry form)) _) as [e |] eqn:Ee.
    2: { exists self. split; [reflexivity |]. right. split; [| reflexivity].
         intros (_ & _ & _ & s' & e & _ & He & _). discriminate. }
    destruct (e <=? s) eqn:Ele.
    + exists self. split; [reflexivity |]. right. split; [| reflexivity].
      intros (_ & _ & _ & s' & e' & [= <-] & [= <-] & Hlt). lia.
    + destruct (Hnew long (Some s) (Some e)) as (self' & E & Hrest).
      { exists s, e. repeat split. lia. }
      exists self'. split; [exact E |]. left. split; [| exact Hrest].
      split; [exact En |]. repeat split. exists s, e. repeat split. lia.
  - destruct (Hnew timeless None None) as (self' & E & Hrest).
    { split; reflexivity. }
    exists self'. split; [exact E |]. left. split; [| exact Hrest].
    split; [exact En | exact I].
Qed.

(* ================================================================= *)
(** ** The order of the report of completed tasks *)

(** X22.  Every list of the report of completed tasks is in the order of
    completion, the latest first. *)
Theorem completed_report_latest_first (self : TodoApp) :
  Inv self ->
  exists g,
    export_groups self = Some g /\
    Forall (StronglySorted (fun a b => completion_key self b <= completion_key self a))
      [on_time_tasks g; early_tasks g; late_tasks g; timeless_tasks g].
Proof.
  intros H.
  pose proof (fun r Hr => Inv_done_shape self r H Hr) as Hdone.
  unfold export_groups.
  set (completed_sorted := list_sort _ _ (completed_items self)).
  assert (Hp : Permutation completed_sorted (completed_items self))
    by apply list_sort_perm.
  assert (Hs : StronglySorted
                 (fun a b => completion_key self b <= completion_key self a)
                 completed_sorted).
  { apply (StronglySorted_impl_in
             (fun x y => (completion_key self x <? completion_key self y) = false)).
    - intros a b _ _ Hab. lia.
    - apply (list_sort_sorted (fun a b : Z => b <? a) (completion_key self)).
      + intros a b Hab. lia.
      + intros a b c Hab Hbc. lia. }
  eexists. split.
  { apply (export_groups_fold self completed_sorted).
    intros r Hr. apply Hdone. apply (Permutation_in _ Hp Hr). }
  simpl. unfold bucket_in.
  repeat (constructor; [now apply sorted_filter |]). constructor.
Qed.

(** X23.  The invariant survives the data file: starting the application
    on what [save_data] wrote gives a collection that satisfies it again
    (anchors at whole minutes, as the entry forms produce them, and dates
    the data file can hold). *)
Theorem restart_keeps_invariant (now : datetime) (self0 self : TodoApp) :
  Inv self ->
  Forall (fun r => Forall storable (dates_of (store self r))) (listed self) ->
  all_whole_minutes self ->
  exists self',
    initialize_application now self0 (json (save_data self)) = Some (self', false) /\
    Inv self' /\ all_whole_minutes self'.
Proof.
  intros H Hst Hwm. unfold initialize_application.
  destruct (load_saved {| store := store self0; next_ref := next_ref self0;
                          todo_items := []; completed_items := []; next_id := 1 |}
              self H Hst) as (self1 & -> & Ht & Hc & Hnd & Hrefs & Hid).
  unfold items_of in *.
  assert (Hitems : map (store self1) (listed self1)
                   = map (fun r => map_dates minute_floor (store self r)) (listed self)).
  { unfold listed. rewrite !map_app, Ht, Hc, !map_map. reflexivity. }
  assert (Hsame : forall r, In r (listed self) ->
            map_dates minute_floor (store self r)
            = mk_TodoItem (id (store self r)) (note (store self r))
                (date_type (store self r)) (date1 (store self r))
                (date2 (store self r)) (completed (store self r))
                (option_map minute_floor (completed_date (store self r)))
                (minute_floor (created_date (store self r)))).
  { intros r Hr. destruct (proj1 (Forall_forall _ _) Hwm r Hr) as [H1 H2].
    unfold map_dates. now rewrite H1, H2. }
  assert (Hall : forall (P : TodoItem -> Prop) (l1 l : list ref),
            map (store self1) l1
            = map (fun r => map_dates minute_floor (store self r)) l ->
            (forall r, In r l -> P (map_dates minute_floor (store self r))) ->
            Forall (fun r => P (store self1 r)) l1).
  { intros P l1 l E HP. apply Forall_map. rewrite E. apply Forall_map.
    apply Forall_forall. exact HP. }
  assert (Ht' : map (store self1) (todo_items self1)
                = map (fun r => map_dates minute_floor (store self r)) (todo_items self))
    by (rewrite Ht, map_map; reflexivity).
  assert (Hc' : map (store self1) (completed_items self1)
                = map (fun r => map_dates minute_floor (store self r))
                    (completed_items self))
    by (rewrite Hc, map_map; reflexivity).
  assert (Hi1 : Inv self1).
  { constructor.
    - exact Hnd.
    - exact Hrefs.
    - rewrite <- (map_map (store self1) id), Hitems, map_map. simpl.
      apply (inv_ids self H).
    - apply (Hall (fun it => id it < next_id self1) _ _ Hitems).
      intros r Hr. simpl. rewrite Hid.
      now apply (proj1 (Forall_forall _ _) (inv_next_id self H)).
    - apply (Hall is_open _ _ Ht'). intros r Hr.
      destruct (proj1 (Forall_forall _ _) (inv_open self H) r Hr) as [Ho Hcd].
      split; simpl; [exact Ho | now rewrite Hcd].
    - apply (Hall is_done _ _ Hc'). intros r Hr.
      destruct (proj1 (Forall_forall _ _) (inv_done self H) r Hr) as [Ho Hcd].
      split; simpl; [exact Ho |].
      destruct (completed_date (store self r)); [discriminate | congruence].
    - apply (Hall shape_ok _ _ Hitems). intros r Hr. rewrite (Hsame r Hr).
      apply (shape_ok_fields (store self r)); try reflexivity.
      now apply (proj1 (Forall_forall _ _) (inv_shape self H)). }
  assert (Hwm1 : all_whole_minutes self1).
  { apply (Hall whole_minutes _ _ Hitems). intros r Hr. rewrite (Hsame r Hr).
    exact (proj1 (Forall_forall _ _) Hwm r Hr). }
  destruct (Inv_refresh now self1 Hi1) as (self' & E & Hi').
  rewrite E. cbn [bind]. exists self'. split; [reflexivity |]. split; [exact Hi' |].
  apply refresh_display_frame in E as (Est & Ecs & _ & _ & Ep).
  unfold all_whole_minutes. rewrite Est.
  assert (Hl : Permutation (listed self1) (listed self')).
  { unfold listed. rewrite Ecs. apply Permutation_app_tail. now symmetry. }
  apply (Permutation_Forall Hl Hwm1).
Qed.

End TaskFlow.

(* ================================================================= *)
(** * The properties on the example collections

    The library parameters are instantiated with the reference functions
    of [PyRef]. *)

Ltac forall_list := repeat (constructor; [reflexivity |]); constructor.

Ltac nodup_list :=
  repeat (constructor; [simpl; intuition discriminate |]); constructor.

(** On [ex_mixed], on June 5th at noon: the overdue call first, the
    ongoing trip second, the rent due later third, then the two timeless
    tasks in insertion order. *)
Lemma display_order_witness :
  option_map todo_items
    (refresh_display PyRef.strftime (dt "2025-06-05 12:00") ex_mixed)
  = Some [1; 2; 3; 0; 4]%nat.
Proof.
  assert (H1 : Forall (fun r => valid_open (store ex_mixed r) = true)
                 (todo_items ex_mixed)) by forall_list.
  assert (H2 : Forall (fun r => has_anchors (store ex_mixed r) = true)
                 (completed_items ex_mixed)) by constructor.
  destruct (display_order PyRef.strftime (dt "2025-06-05 12:00") ex_mixed H1 H2)
    as (self' & Hr & _).
  rewrite Hr. simpl. vm_compute in Hr. now injection Hr as <-.
Defined.

(** The scenario of the specification: five hours after the end the bucket
    is on time and the phrase says late by 5 hours. *)
Lemma on_time_bucket_directional_phrase_witness :
  completion_bucket ex_five_hours_late = Some OnTime /\
  exists date_str week_day,
    get_time_info PyRef.strftime (dt "2025-06-11 08:00") ex_five_hours_late
    = Some (date_str, week_day, "延后完成 5 小时").
Proof.
  apply (on_time_bucket_directional_phrase PyRef.strftime (dt "2025-06-11 08:00")
           ex_five_hours_late (dt "2025-06-10 15:00") (dt "2025-06-10 10:00"));
    try reflexivity.
  vm_compute. discriminate.
Defined.

(** The export of [ex_export] lists the task among those completed on
    time. *)
Lemma export_groups_example :
  export_groups ex_export = Some (mk_ExportGroups [0%nat] [] [] []).
Proof. vm_compute. reflexivity. Qed.

(** C3, on the code.  One day and one minute before the due moment the
    elapsed time holds one whole day, and the phrase says 2 days. *)
Lemma early_day_count_rounds_up :
  Z.abs (dt "2025-06-09 11:59" - dt "2025-06-10 12:00") / secs 86400 = 1 /\
  option_map snd
    (get_time_info PyRef.strftime (dt "2025-06-11 08:00") ex_day_and_minute_early)
  = Some "超前完成 2 天".
Proof. split; vm_compute; reflexivity. Qed.

(** The same distance after the due moment: the phrase says 1 day. *)
Lemma late_day_count_example :
  option_map snd
    (get_time_info PyRef.strftime (dt "2025-06-12 08:00")
       (done_task 1 "report" instant (Some (dt "2025-06-10 12:00")) None
          (dt "2025-06-11 12:01")))
  = Some "延后完成 1 天".
Proof. vm_compute. reflexivity. Qed.

(** C4, counterexample.  On [ex_interleaved] before noon, task 2 is the
    second member of the group of task 0, with the long task 1 between
    them.  [move_to_top] leaves the master list [2; 0; 1]; [move_up_item]
    once, after which it is a no-op, leaves [2; 1; 0]. *)
Lemma move_up_repeated_differs :
  get_same_group_items ex_interleaved 2%nat = [0; 2]%nat /\
  option_map todo_items
    (move_to_top PyRef.strftime (dt "2025-06-01 09:00") ex_interleaved 2%nat)
  = Some [2; 0; 1]%nat /\
  option_map todo_items
    (move_up_times PyRef.strftime [dt "2025-06-01 09:00"] ex_interleaved 2%nat)
  = Some [2; 1; 0]%nat /\
  option_map todo_items
    (let* up := move_up_times PyRef.strftime [dt "2025-06-01 09:00"]
                  ex_interleaved 2%nat in
     move_up_item PyRef.strftime (dt "2025-06-01 09:01") up 2%nat)
  = Some [2; 1; 0]%nat /\
  [2; 0; 1]%nat <> [2; 1; 0]%nat.
Proof. repeat split; try (vm_compute; reflexivity). discriminate. Qed.

Lemma ex_interleaved_anchored : anchored ex_interleaved.
Proof. split; [forall_list | constructor]. Qed.

(** On the same collection the group order agrees: task 2 first, task 0
    behind it, after either. *)
Lemma move_up_repeated_group_order_witness :
  exists top up,
    move_to_top PyRef.strftime (dt "2025-06-01 09:00") ex_interleaved 2%nat
    = Some top /\
    move_up_times PyRef.strftime [dt "2025-06-01 09:00"] ex_interleaved 2%nat
    = Some up /\
    get_same_group_items up 2%nat = [2; 0]%nat /\
    get_same_group_items top 2%nat = [2; 0]%nat.
Proof.
  assert (Hnd : NoDup (todo_items ex_interleaved)) by nodup_list.
  destruct (move_up_repeated_group_order PyRef.strftime (dt "2025-06-01 09:00")
              [dt "2025-06-01 09:00"] ex_interleaved 2%nat 1%nat Hnd
              ex_interleaved_anchored eq_refl eq_refl)
    as (top & up & rest & Hrest & Htop & Hup & _ & Hgu & Hgt & _).
  vm_compute in Hrest. injection Hrest as <-.
  exists top, up. auto.
Defined.


Lemma ex_due_soon_anchored : anchored ex_due_soon.
Proof. split; [forall_list | constructor]. Qed.

Lemma ex_due_soon_display_ordered :
  display_ordered PyRef.strftime (dt "2025-06-01 09:30") ex_due_soon.
Proof.
  unfold display_ordered.
  repeat (constructor; [| forall_list]). constructor.
Qed.

(** C5, counterexample.  [ex_due_soon] is in display order at 09:30; ten
    seconds after 10:00 the refresh alone rewrites the master list: the
    two tasks that have become overdue move in front of the long one. *)
Lemma refresh_moves_master_list :
  display_ordered PyRef.strftime (dt "2025-06-01 09:30") ex_due_soon /\
  todo_items ex_due_soon = [0; 1; 2]%nat /\
  option_map todo_items
    (refresh_display PyRef.strftime (dt "2025-06-01 10:00" + secs 10) ex_due_soon)
  = Some [1; 2; 0]%nat.
Proof.
  split; [apply ex_due_soon_display_ordered | split; vm_compute; reflexivity].
Qed.

(** At 09:30 the same refresh leaves the master list as it is. *)
Lemma refresh_sorts_in_place_witness :
  exists self',
    refresh_display PyRef.strftime (dt "2025-06-01 09:30") ex_due_soon
    = Some self' /\
    store self' = store ex_due_soon /\
    todo_items self' = [0; 1; 2]%nat.
Proof.
  destruct (refresh_sorts_in_place PyRef.strftime (dt "2025-06-01 09:30")
              ex_due_soon ex_due_soon_anchored)
    as (self' & Hr & Hst & _ & _ & Hsort & _).
  exists self'. repeat split; [exact Hr | exact Hst |].
  rewrite Hsort. vm_compute. reflexivity.
Defined.

(** C8, counterexample.  On [ex_due_soon], ten seconds after 10:00,
    [move_to_top] on task 2 (the second of the two instant tasks due at
    10:00) leaves [2; 1; 0]: the long task 0, whose anchors differ, stood
    before both and now stands after both. *)
Lemma move_to_top_moves_third_task :
  display_ordered PyRef.strftime (dt "2025-06-01 09:30") ex_due_soon /\
  get_same_group_items ex_due_soon 2%nat = [1; 2]%nat /\
  todo_items ex_due_soon = [0; 1; 2]%nat /\
  option_map todo_items
    (move_to_top PyRef.strftime (dt "2025-06-01 10:00" + secs 10) ex_due_soon 2%nat)
  = Some [2; 1; 0]%nat.
Proof.
  split; [apply ex_due_soon_display_ordered |].
  repeat split; vm_compute; reflexivity.
Qed.

(** On [ex_same_due] at 13:00 the master list is in display order and stays
    so; the long task 1 has the key of the group and stands between its two
    members, and [move_to_top] on task 2 carries task 2 across it. *)
Lemma move_to_top_crosses_equal_key :
  display_ordered PyRef.strftime (dt "2025-06-01 13:00") ex_same_due /\
  get_same_group_items ex_same_due 2%nat = [0; 2]%nat /\
  todo_items ex_same_due = [0; 1; 2]%nat /\
  option_map todo_items
    (move_to_top PyRef.strftime (dt "2025-06-01 13:00") ex_same_due 2%nat)
  = Some [2; 0; 1]%nat.
Proof.
  split; [| repeat split; vm_compute; reflexivity].
  unfold display_ordered.
  repeat (constructor; [| forall_list]). constructor.
Qed.

(** At 09:30, when the list is in display order, only task 2 moves. *)
Lemma reorder_frame_witness :
  exists top up,
    move_to_top PyRef.strftime (dt "2025-06-01 09:30") ex_due_soon 2%nat = Some top /\
    move_up_item PyRef.strftime (dt "2025-06-01 09:30") ex_due_soon 2%nat = Some up /\
    store top = store ex_due_soon /\ store up = store ex_due_soon /\
    todo_items top = [0; 2; 1]%nat /\ todo_items up = [0; 2; 1]%nat.
Proof.
  assert (Hnd : NoDup (todo_items ex_due_soon)) by nodup_list.
  assert (Hin : In 2%nat (todo_items ex_due_soon)) by (simpl; auto).
  destruct (reorder_frame PyRef.strftime (dt "2025-06-01 09:30") ex_due_soon 2%nat
              Hnd ex_due_soon_anchored Hin eq_refl)
    as (top & up & Htop & Hup & Hst & Hst' & _).
  exists top, up. repeat split; try assumption.
  - vm_compute in Htop. now injection Htop as <-.
  - vm_compute in Hup. now injection Hup as <-.
Defined.

(** Both definitions of the grouping query on [ex_interleaved]. *)
Lemma group_definitions_agree_witness :
  get_same_group_items_first ex_interleaved 2%nat = Some [0; 2]%nat.
Proof.
  assert (Hnd : NoDup (todo_items ex_interleaved)) by nodup_list.
  exact (group_definitions_agree ex_interleaved 2%nat Hnd).
Defined.

(** C10, counterexample.  Reopening the overdue task 1 of [ex_one_done]
    leaves it in front of the timeless task 0, not at the end of the
    master list. *)
Lemma reopened_task_not_last :
  todo_items ex_one_done = [0%nat] /\
  option_map todo_items
    (toggle_completion PyRef.strftime (dt "2025-06-02 09:30")
       (dt "2025-06-02 09:30") ex_one_done 1%nat)
  = Some [1; 0]%nat.
Proof. split; vm_compute; reflexivity. Qed.

Lemma ex_one_done_anchored : anchored ex_one_done.
Proof. split; forall_list. Qed.

Lemma toggle_completed_task_witness :
  exists self' self'',
    toggle_completion PyRef.strftime (dt "2025-06-02 09:30")
      (dt "2025-06-02 09:30") ex_one_done 1%nat = Some self' /\
    store self' 1%nat
    = open_task 2 "t" instant (Some (dt "2025-06-01 12:00")) None /\
    completed_items self' = [] /\
    toggle_completion PyRef.strftime (dt "2025-06-02 09:40")
      (dt "2025-06-02 09:40") self' 1%nat = Some self'' /\
    store self'' 1%nat
    = done_task 2 "t" instant (Some (dt "2025-06-01 12:00")) None
        (dt "2025-06-02 09:40") /\
    completed_items self'' = [1%nat].
Proof.
  assert (Hin : In 1%nat (completed_items ex_one_done)) by (simpl; auto).
  destruct (toggle_completed_task PyRef.strftime (dt "2025-06-02 09:30")
              (dt "2025-06-02 09:30") (dt "2025-06-02 09:40")
              (dt "2025-06-02 09:40") ex_one_done 1%nat
              ex_one_done_anchored eq_refl Hin)
    as (self' & self'' & rest & Ht & Hs & _ & Hrem & Hcs & _ & _ & _ & _ & _
        & Ht' & Hs' & Hcs').
  vm_compute in Hrem. injection Hrem as <-.
  exists self', self''. repeat split; assumption.
Defined.

(** Toggling the first task of [ex_pair] twice leaves it behind the other
    member of its group. *)
Lemma toggle_twice_moves_task :
  todo_items ex_pair = [0; 1]%nat /\
  option_map todo_items
    (let* s := toggle_completion PyRef.strftime (dt "2025-05-02 09:30")
                 (dt "2025-05-02 09:30") ex_pair 0%nat in
     toggle_completion PyRef.strftime (dt "2025-05-02 09:31")
       (dt "2025-05-02 09:31") s 0%nat)
  = Some [1; 0]%nat.
Proof. split; vm_compute; reflexivity. Qed.

(** An end before the start: adding and editing return the state as it
    was. *)
Lemma spanning_validation_witness :
  add_todo_item PyRef.strftime PyRef.strptime PyRef.py_int PyRef.strip
    (dt "2025-05-02 09:30") (dt "2025-05-02 09:30") ex_pair ex_bad_span
  = Some ex_pair /\
  save_changes PyRef.strftime PyRef.strptime PyRef.py_int PyRef.strip
    (dt "2025-05-02 09:30") ex_pair 0%nat ex_bad_span_edit
  = Some ex_pair.
Proof.
  assert (Hrej : spanning_rejected PyRef.strptime PyRef.py_int
                   "2025-06-10" "09:00" "2025-06-01" "09:00").
  { do 4 right. exists (dt "2025-06-10 09:00"), (dt "2025-06-01 09:00").
    repeat split; vm_compute; try reflexivity. discriminate. }
  destruct (spanning_validation PyRef.strftime PyRef.strptime PyRef.py_int
              PyRef.strip (dt "2025-05-02 09:30") (dt "2025-05-02 09:30")
              ex_pair ex_bad_span 0%nat ex_bad_span_edit eq_refl eq_refl)
    as (Hadd & Hedit & _).
  split; [apply Hadd | apply Hedit]; exact Hrej.
Defined.

(** C6, on the code.  Loading [ex_damaged_file] into the empty collection
    shows the warning and leaves the open task of the file in memory. *)
Lemma damaged_file_partly_loaded :
  let (self', warned) := load_data PyRef.strptime empty_app ex_damaged_file in
  warned = true /\
  todo_items self' = [0%nat] /\
  note (store self' 0%nat) = "write report" /\
  completed_items self' = [].
Proof. vm_compute. repeat split. Qed.

(* ================================================================= *)
(** * The further properties on the example collections *)

Ltac forall_with tac := repeat (constructor; [tac |]); constructor.

Ltac shape_example :=
  first [ now (split; [eexists; reflexivity | reflexivity])
        | now (do 2 eexists; repeat split)
        | now split ].

(** The invariant on an example collection, field by field. *)
Ltac inv_example :=
  constructor; unfold listed; simpl;
  [ nodup_list
  | forall_with lia
  | nodup_list
  | forall_with ltac:(simpl; lia)
  | forall_with ltac:(split; reflexivity)
  | forall_with ltac:(split; [reflexivity | discriminate])
  | forall_with shape_example ].

Lemma ex_mixed_Inv : Inv ex_mixed.
Proof. inv_example. Qed.

Lemma ex_one_done_Inv : Inv ex_one_done.
Proof. inv_example. Qed.

Lemma ex_finished_Inv : Inv ex_finished.
Proof. inv_example. Qed.

(** Completing the open task of [ex_one_done] returns a collection that
    keeps the invariant. *)
Lemma commands_keep_invariant_witness :
  exists self',
    run PyRef.strftime PyRef.strptime PyRef.py_int PyRef.strip
      (cmd_toggle (dt "2025-06-05 12:00") (dt "2025-06-05 12:00") 0%nat)
      ex_one_done = Some self' /\
    Inv self'.
Proof.
  apply commands_keep_invariant; [exact ex_one_done_Inv | simpl; auto].
Defined.

(** The session [ex_session] ends with the second task and a new one in
    the master list, an empty completed list and [next_id = 4], and the
    invariant holds there. *)
Lemma reachable_invariant_witness :
  exists self,
    run_session PyRef.strftime PyRef.strptime PyRef.py_int PyRef.strip
      ex_session empty_app = Some self /\
    todo_items self = [1; 2]%nat /\ next_id self = 4 /\
    Inv self.
Proof.
  destruct (run_session PyRef.strftime PyRef.strptime PyRef.py_int PyRef.strip
              ex_session empty_app) as [self |] eqn:E;
    [| vm_compute in E; discriminate].
  exists self. split; [reflexivity |].
  assert (Hl : todo_items self = [1; 2]%nat /\ next_id self = 4).
  { vm_compute in E. injection E as <-. split; reflexivity. }
  destruct Hl as [Hl Hn]. split; [exact Hl |]. split; [exact Hn |].
  apply (reachable_invariant PyRef.strftime PyRef.strptime PyRef.py_int PyRef.strip).
  apply (run_session_reachable _ _ _ _ ex_session empty_app self); [| exact E].
  apply reach_start.
Defined.

(** On [ex_mixed], on June 5th at noon: the call is overdue, the trip
    ongoing, the rent upcoming, the two other tasks timeless. *)
Lemma pending_report_sections_witness :
  exists g,
    export_pending_groups PyRef.strftime (dt "2025-06-05 12:00") ex_mixed = Some g /\
    overdue_tasks g = [1%nat] /\ ongoing_tasks g = [2%nat] /\
    upcoming_tasks g = [3%nat] /\ timeless_pending g = [0; 4]%nat.
Proof.
  destruct (pending_report_sections PyRef.strftime (dt "2025-06-05 12:00")
              ex_mixed ex_mixed_Inv) as (g & E & H1 & H2 & H3 & H4 & _).
  exists g. split; [exact E |].
  rewrite H1, H2, H3, H4. vm_compute. repeat split.
Defined.

(** On [ex_mixed], on June 5th at noon: one overdue, two timeless, no
    long task waiting to start, and two "ongoing" tasks, the trip and the
    rent, which the report lists as upcoming. *)
Lemma pending_stats_match_report_witness :
  exists stats,
    get_pending_task_stats (dt "2025-06-05 12:00") ex_mixed = Some stats /\
    overdue stats = 1%nat /\ timeless_open stats = 2%nat /\
    not_started stats = 0%nat /\ ongoing stats = 2%nat.
Proof.
  destruct (pending_stats_match_report PyRef.strftime (dt "2025-06-05 12:00")
              ex_mixed ex_mixed_Inv) as (stats & g & E & _).
  exists stats. split; [exact E |].
  vm_compute in E. injection E as <-. repeat split.
Defined.

(** [ex_due_soon] at 09:30 is in display order, and the report reads as
    the list: the ongoing task, then the two upcoming ones. *)
Lemma pending_report_in_display_order_witness :
  exists g,
    export_pending_groups PyRef.strftime (dt "2025-06-01 09:30") ex_due_soon = Some g /\
    todo_items ex_due_soon
    = overdue_tasks g ++ ongoing_tasks g ++ upcoming_tasks g ++ timeless_pending g.
Proof.
  apply pending_report_in_display_order.
  - forall_list.
  - exact ex_due_soon_display_ordered.
Defined.

(** On [ex_finished]: one task on time, one early, one late, one
    timeless. *)
Lemma completed_stats_match_report_witness :
  exists stats,
    get_completed_task_stats ex_finished = Some stats /\
    on_time stats = 1%nat /\ early stats = 1%nat /\ late stats = 1%nat /\
    timeless_done stats = 1%nat.
Proof.
  destruct (completed_stats_match_report ex_finished ex_finished_Inv)
    as (stats & g & E & _).
  exists stats. split; [exact E |].
  vm_compute in E. injection E as <-. repeat split.
Defined.

Ltac storable_example :=
  forall_with ltac:(forall_with ltac:(split; vm_compute; [discriminate | reflexivity])).

(** [ex_one_done], saved and started again on June 5th. *)
Lemma restart_restores_collection_witness :
  exists self',
    initialize_application PyRef.strftime PyRef.strptime (dt "2025-06-05 12:00")
      empty_app (json (save_data PyRef.strftime ex_one_done)) = Some (self', false) /\
    items_of self' (todo_items self')
    = map (map_dates minute_floor) (items_of ex_one_done (todo_items ex_one_done)) /\
    items_of self' (completed_items self')
    = map (map_dates minute_floor) (items_of ex_one_done (completed_items ex_one_done)) /\
    next_id self' = 3.
Proof.
  destruct (restart_restores_collection PyRef.strftime PyRef.strptime
              (dt "2025-06-05 12:00") empty_app ex_one_done ex_one_done_Inv)
    as (self' & E & _ & Hc & Hn & Ht).
  { unfold listed. simpl. storable_example. }
  exists self'. split; [exact E |]. split; [| split; [exact Hc | exact Hn]].
  apply Ht.
  - forall_with ltac:(split; reflexivity).
  - unfold display_ordered. simpl. repeat constructor.
Defined.

(** Loading [ex_sound_file], whose [next_id] is 2 with a task of [id] 2:
    [next_id] becomes 3. *)
Lemma load_data_fresh_next_id_witness :
  exists self',
    load_data PyRef.strptime empty_app ex_sound_file = (self', false) /\
    Forall (fun r => id (store self' r) < next_id self') (listed self') /\
    2 <= next_id self'.
Proof.
  destruct (load_data PyRef.strptime empty_app ex_sound_file) as [self' warned] eqn:E.
  assert (Hw : warned = false) by (vm_compute in E; now injection E).
  subst warned. exists self'. split; [reflexivity |].
  apply (load_data_fresh_next_id PyRef.strptime empty_app self' _ E).
Defined.

(** A registration whose users file cannot be written: the answer is a
    failure, the login works and the name is taken. *)
Lemma register_then_login_witness :
  let self1 :=
    fst (register PyRefAccounts.strftime PyRefAccounts.sha256_hexdigest
           (dt "2025-06-01 08:00") false ex_accounts "alice" "secret1") in
  snd (login PyRefAccounts.strftime PyRefAccounts.sha256_hexdigest
         (dt "2025-06-01 08:05") self1 "alice" "secret1") = (true, "登录成功") /\
  current_user
    (fst (login PyRefAccounts.strftime PyRefAccounts.sha256_hexdigest
            (dt "2025-06-01 08:05") self1 "alice" "secret1")) = Some "alice" /\
  register PyRefAccounts.strftime PyRefAccounts.sha256_hexdigest
    (dt "2025-06-01 08:05") true self1 "alice" "hunter22"
  = (self1, (false, "用户名已存在")).
Proof.
  apply (register_then_login PyRefAccounts.strftime PyRefAccounts.sha256_hexdigest
           (dt "2025-06-01 08:00") (dt "2025-06-01 08:05") false true ex_accounts
           "alice" "secret1" "hunter22"); simpl; try lia; reflexivity.
Defined.

(** The files of alice and of bob differ, and neither is the file used
    without a login. *)
Lemma user_data_files_distinct_witness :
  (get_user_data_file (ex_logged_in "alice") = get_user_data_file (ex_logged_in "bob") ->
   "alice" = "bob") /\
  get_user_data_file (ex_logged_in "alice")
  <> get_user_data_file (logout (ex_logged_in "alice")).
Proof.
  apply (user_data_files_distinct (ex_logged_in "alice") (ex_logged_in "bob")
           "alice" "bob"); try reflexivity; discriminate.
Defined.

(** A login remembered on June 1st at 08:00:42 is given back on June 9th
    at 08:00 (seven days and almost twenty-four hours later) and no longer
    a minute after that. *)
Lemma remembered_login_window_witness :
  let remembering :=
    remember_user PyRefAccounts.strftime PyRefAccounts.b64encode
      (dt "2025-06-01 08:00" + 42000000) ex_accounts "alice" "secret1" in
  get_remembered_user PyRefAccounts.b64decode PyRefAccounts.strptime_seconds
    (dt "2025-06-09 08:00") remembering = Some ("alice", "secret1") /\
  get_remembered_user PyRefAccounts.b64decode PyRefAccounts.strptime_seconds
    (dt "2025-06-09 08:01") remembering = None.
Proof.
  assert (Ht : PyRefAccounts.strptime_seconds
                 (PyRefAccounts.strftime "%Y-%m-%d %H:%M:%S"
                    (dt "2025-06-01 08:00" + 42000000))
               = Some (dt "2025-06-01 08:00" + 42000000))
    by (vm_compute; reflexivity).
  assert (Hb : PyRefAccounts.b64decode (PyRefAccounts.b64encode "secret1")
               = Some "secret1") by (vm_compute; reflexivity).
  assert (Hu : "alice" <> "") by discriminate.
  assert (Hp : "secret1" <> "") by discriminate.
  split.
  - destruct (remembered_login_window PyRefAccounts.strftime
                PyRefAccounts.sha256_hexdigest PyRefAccounts.b64encode
                PyRefAccounts.b64decode PyRefAccounts.strptime_seconds
                (dt "2025-06-09 08:00") _ _ ex_accounts "alice" "secret1"
                Ht Hb Hu Hp) as [E _].
    rewrite E. vm_compute. reflexivity.
  - destruct (remembered_login_window PyRefAccounts.strftime
                PyRefAccounts.sha256_hexdigest PyRefAccounts.b64encode
                PyRefAccounts.b64decode PyRefAccounts.strptime_seconds
                (dt "2025-06-09 08:01") _ _ ex_accounts "alice" "secret1"
                Ht Hb Hu Hp) as [E _].
    rewrite E. vm_compute. reflexivity.
Defined.

(** Deleting the completed task of [ex_one_done], whose [id] is 2, leaves
    [next_id] at 3. *)
Lemma ids_never_reused_witness :
  exists self',
    run PyRef.strftime PyRef.strptime PyRef.py_int PyRef.strip
      (cmd_delete true (dt "2025-06-05 12:00") 1%nat) ex_one_done = Some self' /\
    ids_kept ex_one_done self'.
Proof.
  destruct (run PyRef.strftime PyRef.strptime PyRef.py_int PyRef.strip
              (cmd_delete true (dt "2025-06-05 12:00") 1%nat) ex_one_done)
    as [self' |] eqn:E; [| vm_compute in E; discriminate].
  exists self'. split; [reflexivity |].
  apply (ids_never_reused _ _ _ _ _ _ _ ex_one_done_Inv) in E; [exact E |].
  simpl. auto.
Defined.

(** Completing the call of [ex_mixed] and reopening it. *)
Lemma complete_then_reopen_witness :
  exists s1 s2,
    toggle_completion PyRef.strftime (dt "2025-06-05 12:00") (dt "2025-06-05 12:00")
      ex_mixed 1%nat = Some s1 /\
    toggle_completion PyRef.strftime (dt "2025-06-05 12:01") (dt "2025-06-05 12:01")
      s1 1%nat = Some s2 /\
    (forall r, store s2 r = store ex_mixed r) /\
    completed_items s2 = [] /\
    Permutation (todo_items s2) (todo_items ex_mixed).
Proof.
  destruct (complete_then_reopen PyRef.strftime
              (dt "2025-06-05 12:00") (dt "2025-06-05 12:00")
              (dt "2025-06-05 12:01") (dt "2025-06-05 12:01")
              ex_mixed 1%nat ex_mixed_Inv)
    as (s1 & s2 & E1 & _ & _ & _ & E2 & Hst & Hcs & Hp & _).
  { simpl. auto. }
  exists s1, s2. auto.
Defined.

(** Deleting the open task of [ex_one_done] and clearing its completed
    list. *)
Lemma removal_frame_witness :
  (exists self',
     delete_item PyRef.strftime true (dt "2025-06-05 12:00") ex_one_done 0%nat
     = Some self' /\
     ~ In 0%nat (listed self')) /\
  (exists self',
     clear_completed PyRef.strftime clear_and_export (dt "2025-06-05 12:00")
       ex_one_done = Some self' /\
     completed_items self' = []).
Proof.
  destruct (removal_frame PyRef.strftime (dt "2025-06-05 12:00") ex_one_done
              0%nat clear_and_export ex_one_done_Inv)
    as ((s & E & _ & Hn & _) & (s' & E' & _ & Hc & _) & _).
  - simpl. auto.
  - discriminate.
  - split; [exists s | exists s']; auto.
Defined.

(** The rent of [ex_mixed], due on June 20th at 18:00, on June 5th at
    noon: fifteen whole days. *)
Lemma open_task_phrase_witness :
  exists date_str week_day,
    get_time_info PyRef.strftime (dt "2025-06-05 12:00") (store ex_mixed 3%nat)
    = Some (date_str, week_day, "距离截止还有 15 天").
Proof.
  apply (open_task_phrase PyRef.strftime (dt "2025-06-05 12:00") (store ex_mixed 3%nat)).
  split; [reflexivity |]. simpl. eexists. reflexivity.
Defined.

(** The call of [ex_mixed], due on June 3rd at 09:00: one minute before,
    on the day it is due, the phrase is not "due today". *)
Lemma due_today_only_at_due_moment_witness :
  ~ exists date_str week_day,
      get_time_info PyRef.strftime (dt "2025-06-03 08:59") (store ex_mixed 1%nat)
      = Some (date_str, week_day, "今天到期").
Proof.
  intros H.
  apply (due_today_only_at_due_moment PyRef.strftime (dt "2025-06-03 08:59")
           (dt "2025-06-03 09:00") (store ex_mixed 1%nat)
           eq_refl eq_refl eq_refl) in H.
  vm_compute in H. discriminate.
Defined.

(** Adding a call for June 3rd at 09:00 to the empty collection: the task
    gets the [id] 1 and [next_id] becomes 2. *)
Lemma add_accepts_exactly_witness :
  exists self',
    add_todo_item PyRef.strftime PyRef.strptime PyRef.py_int PyRef.strip
      (dt "2025-06-01 08:00") (dt "2025-06-01 08:00") empty_app
      (ex_add_instant "09:00") = Some self' /\
    id (store self' 0%nat) = 1 /\ next_id self' = 2.
Proof.
  assert (Hi : Inv empty_app) by (constructor; simpl; constructor).
  destruct (add_accepts_exactly PyRef.strftime PyRef.strptime PyRef.py_int
              PyRef.strip (dt "2025-06-01 08:00") (dt "2025-06-01 08:00")
              empty_app (ex_add_instant "09:00") Hi)
    as (self' & E & [(_ & Hn & _ & _ & (Hid & _) & _) | (Hrej & _)]).
  - exists self'. auto.
  - exfalso. apply Hrej. split; [vm_compute; discriminate |].
    split; [vm_compute; reflexivity |]. eexists. vm_compute. reflexivity.
Defined.

(** On [ex_two_done] the report lists the task completed last first. *)
Lemma completed_report_latest_first_witness :
  exists g,
    export_groups ex_two_done = Some g /\ timeless_tasks g = [1; 0]%nat /\
    StronglySorted
      (fun a b => completion_key ex_two_done b <= completion_key ex_two_done a)
      (timeless_tasks g).
Proof.
  assert (Hi : Inv ex_two_done) by inv_example.
  destruct (completed_report_latest_first ex_two_done Hi) as (g & E & Hs).
  exists g. split; [exact E |]. split.
  - vm_compute in E. now injection E as <-.
  - inversion Hs as [| ? ? _ Hs1]. inversion Hs1 as [| ? ? _ Hs2].
    inversion Hs2 as [| ? ? _ Hs3]. now inversion Hs3.
Defined.

(** [ex_one_done], saved and started again: the invariant holds on what
    was loaded. *)
Lemma restart_keeps_invariant_witness :
  exists self',
    initialize_application PyRef.strftime PyRef.strptime (dt "2025-06-05 12:00")
      empty_app (json (save_data PyRef.strftime ex_one_done)) = Some (self', false) /\
    Inv self'.
Proof.
  destruct (restart_keeps_invariant PyRef.strftime PyRef.strptime
              (dt "2025-06-05 12:00") empty_app ex_one_done ex_one_done_Inv)
    as (self' & E & Hi & _).
  - unfold listed. simpl. storable_example.
  - unfold all_whole_minutes, listed. simpl.
    forall_with ltac:(split; reflexivity).
  - exists self'. auto.
Defined.
